(** * go-blog-api: slug generation, token validation, authorization and
      content handlers, embedded from the Go sources.

    Go strings are modelled as sequences of Unicode code points (the view
    that [strings.ToLower], [regexp] and [strings.Trim] take of a string);
    UUIDs as 128-bit naturals with [uuid.Nil = 0]; instants as integers. *)

From Stdlib Require Import ZArith List Bool Lia String Ascii.
From Equations Require Import Equations.
Import ListNotations.
Open Scope Z_scope.
Set Warnings "-register-all".

(** ** Text *)

Definition rune := Z.
Definition gostring := list rune.

(** An ASCII literal of the source as a Go string. *)
Definition str (s : string) : gostring :=
  List.map (fun a => Z.of_N (N_of_ascii a)) (list_ascii_of_string s).

Fixpoint gostring_eqb (a b : gostring) : bool :=
  match a, b with
  | [], [] => true
  | x :: a', y :: b' => (x =? y) && gostring_eqb a' b'
  | _, _ => false
  end.

Definition is_upper (r : rune) : bool := (65 <=? r) && (r <=? 90).
Definition is_lower (r : rune) : bool := (97 <=? r) && (r <=? 122).
Definition is_digit (r : rune) : bool := (48 <=? r) && (r <=? 57).
Definition hyphen : rune := 45.
Definition space : rune := 32.
Definition is_hyphen (r : rune) : bool := r =? hyphen.

(** The Perl class [\s] of Go's regexp syntax: tab, line feed, form feed,
    carriage return and space. *)
Definition is_perl_space (r : rune) : bool :=
  (r =? 9) || (r =? 10) || (r =? 12) || (r =? 13) || (r =? 32).

(** Case analysis that keeps the equation, for loops whose termination
    depends on the test. *)
Definition inspect {A : Type} (a : A) : {b : A | a = b} := exist _ a eq_refl.

Module Slug.

Section WithCaseTables.

(** [unicode.ToLower] on code points above ASCII is table driven (the
    Unicode case tables of the Go runtime); the tables are taken as a
    parameter. *)
Variable lower_nonascii : rune -> rune.

Definition unicode_ToLower (r : rune) : rune :=
  if r <=? 127
  then (if is_upper r then r + 32 else r)
  else lower_nonascii r.

Definition strings_ToLower (s : gostring) : gostring :=
  List.map unicode_ToLower s.

(** [strings.ReplaceAll(slug, " ", "-")] *)
Definition replace_spaces (s : gostring) : gostring :=
  List.map (fun r => if r =? space then hyphen else r) s.

(** The complement of the class [[^a-zA-Z0-9\s-]]: what the regexp of
    [removeSpecialChars] leaves in place. *)
Definition kept_by_regexp (r : rune) : bool :=
  is_lower r || is_upper r || is_digit r || is_perl_space r || is_hyphen r.

Definition removeSpecialChars (input : gostring) : gostring :=
  List.filter kept_by_regexp input.

(** [strings.Contains(slug, "--")] *)
Fixpoint contains_dd (s : gostring) : bool :=
  match s with
  | [] => false
  | a :: r =>
      match r with
      | [] => false
      | b :: _ => (is_hyphen a && is_hyphen b) || contains_dd r
      end
  end.

(** [strings.ReplaceAll(slug, "--", "-")]: non-overlapping matches, left
    to right. *)
Fixpoint replace_dd (s : gostring) : gostring :=
  match s with
  | [] => []
  | a :: r =>
      match r with
      | [] => [a]
      | b :: t =>
          if is_hyphen a && is_hyphen b
          then hyphen :: replace_dd t
          else a :: replace_dd r
      end
  end.

Lemma replace_dd_cons2 (a b : rune) (t : gostring) :
  replace_dd (a :: b :: t) =
  if is_hyphen a && is_hyphen b then hyphen :: replace_dd t
  else a :: replace_dd (b :: t).
Proof. reflexivity. Qed.

Lemma contains_dd_cons2 (a b : rune) (t : gostring) :
  contains_dd (a :: b :: t) =
  (is_hyphen a && is_hyphen b) || contains_dd (b :: t).
Proof. reflexivity. Qed.

Lemma replace_dd_length_le (n : nat) :
  forall s, (List.length s <= n)%nat ->
            (List.length (replace_dd s) <= List.length s)%nat.
Proof.
  induction n as [|n IH]; intros s Hn.
  - destruct s; [simpl; lia | simpl in Hn; lia].
  - destruct s as [|a [|b t]]; [simpl; lia | simpl; lia |].
    rewrite replace_dd_cons2.
    destruct (is_hyphen a && is_hyphen b).
    + assert (List.length (replace_dd t) <= List.length t)%nat
        by (apply IH; cbn [List.length] in *; lia).
      cbn [List.length]. lia.
    + assert (List.length (replace_dd (b :: t)) <= List.length (b :: t))%nat
        by (apply IH; cbn [List.length] in *; lia).
      cbn [List.length] in *. lia.
Qed.

Lemma replace_dd_shrinks (s : gostring) :
  contains_dd s = true -> (List.length (replace_dd s) < List.length s)%nat.
Proof.
  induction s as [|a r IH]; [discriminate|].
  destruct r as [|b t]; [discriminate|].
  rewrite contains_dd_cons2, replace_dd_cons2.
  destruct (is_hyphen a && is_hyphen b) eqn:E.
  - intros _.
    pose proof (replace_dd_length_le (List.length t) t (le_n _)).
    cbn [List.length]. lia.
  - intro H. specialize (IH H). cbn [List.length] in *. lia.
Qed.

(** [for strings.Contains(slug, "--") { slug = strings.ReplaceAll(slug, "--", "-") }] *)
Equations? collapse_loop (s : gostring) : gostring by wf (List.length s) lt :=
  collapse_loop s with inspect (contains_dd s) => {
    | exist _ true _ := collapse_loop (replace_dd s);
    | exist _ false _ := s }.
Proof. apply replace_dd_shrinks; assumption. Qed.

Fixpoint TrimLeft (s : gostring) : gostring :=
  match s with
  | [] => []
  | a :: r => if is_hyphen a then TrimLeft r else s
  end.

Fixpoint TrimRight (s : gostring) : gostring :=
  match s with
  | [] => []
  | a :: r =>
      match TrimRight r with
      | [] => if is_hyphen a then [] else [a]
      | r' => a :: r'
      end
  end.

(** [strings.Trim(slug, "-")] *)
Definition Trim (s : gostring) : gostring := TrimRight (TrimLeft s).

Definition generateSlug (title : gostring) : gostring :=
  let slug := strings_ToLower title in
  let slug := replace_spaces slug in
  let slug := removeSpecialChars slug in
  let slug := collapse_loop slug in
  Trim slug.

End WithCaseTables.

End Slug.

(** The slug generator as section 4.1 of the specification words it, to be
    compared with [Slug.generateSlug]: "lower-case the input; replace
    whitespace runs with single hyphens; strip every character outside
    [a-z0-9-]; collapse consecutive hyphens into one; trim leading/trailing
    hyphens". Whitespace is the class [\s] of the source's regexp. *)
Module SlugSpec.

Definition in_slug_alphabet (r : rune) : bool :=
  is_lower r || is_digit r || is_hyphen r.



(** A hyphen in front of a hyphen is dropped. *)
Definition hcons (a : rune) (r : gostring) : gostring :=
  match r with
  | b :: _ => if is_hyphen a && is_hyphen b then r else a :: r
  | [] => [a]
  end.

Fixpoint squeeze (s : gostring) : gostring :=
  match s with
  | [] => []
  | a :: r => hcons a (squeeze r)
  end.


(** Tab, line feed, form feed and carriage return: the whitespace other
    than the space. *)
Definition is_kept_space (r : rune) : bool :=
  (r =? 9) || (r =? 10) || (r =? 12) || (r =? 13).

Definition slug_char (r : rune) : bool := in_slug_alphabet r || is_kept_space r.


(** A fact of the Unicode case tables: above ASCII, the lower case of a
    code point is again above ASCII or an ASCII lower-case letter. *)
Definition lower_tables_ok (lower_nonascii : rune -> rune) : Prop :=
  forall r, 127 < r ->
            127 < lower_nonascii r \/ is_lower (lower_nonascii r) = true.

End SlugSpec.


(** ** Data model ([internal/models]) *)

Definition uuid := N.
Definition uuid_Nil : uuid := 0%N.
Definition time := Z.
Definition time_zero : time := 0.

Module Base.
Record t := mk {
  ID : uuid;
  CreatedAt : time;
  UpdatedAt : time;
  DeletedAt : option time }.
Definition zero : t := mk uuid_Nil time_zero time_zero None.
Definition set_ID (v : uuid) (b : t) : t :=
  mk v (CreatedAt b) (UpdatedAt b) (DeletedAt b).
Definition set_DeletedAt (v : option time) (b : t) : t :=
  mk (ID b) (CreatedAt b) (UpdatedAt b) v.
End Base.

Module User.
(** [Posts] carries [json:"-"] and is never loaded by a handler. *)
Record t := mk {
  base : Base.t;
  Username : gostring;
  Email : gostring;
  Password : gostring;
  FirstName : gostring;
  LastName : gostring;
  Role : gostring }.
Definition zero : t := mk Base.zero [] [] [] [] [] [].
Definition set_base (v : Base.t) (u : t) : t :=
  mk v (Username u) (Email u) (Password u) (FirstName u) (LastName u) (Role u).
Definition set_Email (v : gostring) (u : t) : t :=
  mk (base u) (Username u) v (Password u) (FirstName u) (LastName u) (Role u).
Definition set_Password (v : gostring) (u : t) : t :=
  mk (base u) (Username u) (Email u) v (FirstName u) (LastName u) (Role u).
Definition set_FirstName (v : gostring) (u : t) : t :=
  mk (base u) (Username u) (Email u) (Password u) v (LastName u) (Role u).
Definition set_LastName (v : gostring) (u : t) : t :=
  mk (base u) (Username u) (Email u) (Password u) (FirstName u) v (Role u).
Definition set_Role (v : gostring) (u : t) : t :=
  mk (base u) (Username u) (Email u) (Password u) (FirstName u) (LastName u) v.
End User.

Module Category.
(** [Posts] carries [json:"-"] and is never loaded by a handler. *)
Record t := mk {
  base : Base.t;
  Name : gostring;
  Slug : gostring }.
End Category.

Module Comment.
(** [Post] and [Parent] carry [json:"-"]; no handler reads them. *)
Inductive t := mk {
  base : Base.t;
  Content : gostring;
  PostID : uuid;
  AuthorID : uuid;
  Author : User.t;
  ParentID : option uuid;
  Replies : list t }.
Definition set_base (v : Base.t) (c : t) : t :=
  mk v (Content c) (PostID c) (AuthorID c) (Author c) (ParentID c) (Replies c).
Definition set_Content (v : gostring) (c : t) : t :=
  mk (base c) v (PostID c) (AuthorID c) (Author c) (ParentID c) (Replies c).
Definition set_Author (v : User.t) (c : t) : t :=
  mk (base c) (Content c) (PostID c) (AuthorID c) v (ParentID c) (Replies c).
Definition set_Replies (v : list t) (c : t) : t :=
  mk (base c) (Content c) (PostID c) (AuthorID c) (Author c) (ParentID c) v.
(** The columns of the row: associations unloaded. *)
Definition columns (c : t) : t :=
  mk (base c) (Content c) (PostID c) (AuthorID c) User.zero (ParentID c) [].
End Comment.

Module Post.
Record t := mk {
  base : Base.t;
  Title : gostring;
  Content : gostring;
  Slug : gostring;
  AuthorID : uuid;
  Author : User.t;
  Status : gostring;
  PublishedAt : option time;
  Categories : list Category.t;
  Comments : list Comment.t }.
Definition set_base (v : Base.t) (p : t) : t :=
  mk v (Title p) (Content p) (Slug p) (AuthorID p) (Author p) (Status p)
     (PublishedAt p) (Categories p) (Comments p).
Definition set_Title (v : gostring) (p : t) : t :=
  mk (base p) v (Content p) (Slug p) (AuthorID p) (Author p) (Status p)
     (PublishedAt p) (Categories p) (Comments p).
Definition set_Content (v : gostring) (p : t) : t :=
  mk (base p) (Title p) v (Slug p) (AuthorID p) (Author p) (Status p)
     (PublishedAt p) (Categories p) (Comments p).
Definition set_Slug (v : gostring) (p : t) : t :=
  mk (base p) (Title p) (Content p) v (AuthorID p) (Author p) (Status p)
     (PublishedAt p) (Categories p) (Comments p).
Definition set_Author (v : User.t) (p : t) : t :=
  mk (base p) (Title p) (Content p) (Slug p) (AuthorID p) v (Status p)
     (PublishedAt p) (Categories p) (Comments p).
Definition set_Status (v : gostring) (p : t) : t :=
  mk (base p) (Title p) (Content p) (Slug p) (AuthorID p) (Author p) v
     (PublishedAt p) (Categories p) (Comments p).
Definition set_PublishedAt (v : option time) (p : t) : t :=
  mk (base p) (Title p) (Content p) (Slug p) (AuthorID p) (Author p) (Status p)
     v (Categories p) (Comments p).
Definition set_Categories (v : list Category.t) (p : t) : t :=
  mk (base p) (Title p) (Content p) (Slug p) (AuthorID p) (Author p) (Status p)
     (PublishedAt p) v (Comments p).
Definition set_Comments (v : list Comment.t) (p : t) : t :=
  mk (base p) (Title p) (Content p) (Slug p) (AuthorID p) (Author p) (Status p)
     (PublishedAt p) (Categories p) v.
(** The columns of the row: associations unloaded. *)
Definition columns (p : t) : t :=
  mk (base p) (Title p) (Content p) (Slug p) (AuthorID p) User.zero (Status p)
     (PublishedAt p) [] [].
End Post.

(** Request structures; a field absent from the JSON body decodes to the
    zero value. *)
Module RegisterRequest.
Record t := mk {
  Username : gostring;
  Email : gostring;
  Password : gostring;
  FirstName : gostring;
  LastName : gostring }.
End RegisterRequest.

Module PostRequest.
Record t := mk {
  Title : gostring;
  Content : gostring;
  Slug : gostring;
  Status : gostring;
  CategoryIDs : list uuid }.
End PostRequest.

Module CommentRequest.
Record t := mk {
  Content : gostring;
  ParentID : option uuid }.
End CommentRequest.

(** The anonymous [updateData] struct of [UserHandler.UpdateUser]. *)
Module UpdateData.
Record t := mk {
  FirstName : gostring;
  LastName : gostring;
  Email : gostring;
  Password : gostring;
  Role : gostring }.
Definition set_Role (v : gostring) (d : t) : t :=
  mk (FirstName d) (LastName d) (Email d) (Password d) v.
End UpdateData.

(** ** JSON responses

    [JError] stands for the text of [err.Error()] of an error raised by a
    library (binder, validator, token parser, database driver); [JNull] for
    a response without a body. A nil slice and an empty one share the
    representation [JArray []]. *)

Inductive json :=
| JNull
| JString (s : gostring)
| JError (origin : string)
| JTime (t : time)
| JUUID (u : uuid)
| JArray (elems : list json)
| JObject (fields : list (string * json)).

Record Response := mkResponse { status : Z; body : json }.

Definition gin_H (k v : string) : json := JObject [(k, JString (str v))].
Definition gin_H_err (origin : string) : json := JObject [("error"%string, JError origin)].

Definition marshal_Base (b : Base.t) : list (string * json) :=
  [("id", JUUID (Base.ID b));
   ("created_at", JTime (Base.CreatedAt b));
   ("updated_at", JTime (Base.UpdatedAt b))]%string.

Definition marshal_User (u : User.t) : json :=
  JObject (marshal_Base (User.base u) ++
    [("username", JString (User.Username u));
     ("email", JString (User.Email u));
     ("first_name", JString (User.FirstName u));
     ("last_name", JString (User.LastName u));
     ("role", JString (User.Role u))]%string).

Definition marshal_Category (c : Category.t) : json :=
  JObject (marshal_Base (Category.base c) ++
    [("name", JString (Category.Name c));
     ("slug", JString (Category.Slug c))]%string).

Definition omitempty_uuid (k : string) (v : option uuid) : list (string * json) :=
  match v with Some u => [(k, JUUID u)] | None => [] end.
Definition omitempty_time (k : string) (v : option time) : list (string * json) :=
  match v with Some t => [(k, JTime t)] | None => [] end.
Definition omitempty_array (k : string) (v : list json) : list (string * json) :=
  match v with [] => [] | _ => [(k, JArray v)] end.

Fixpoint marshal_Comment (c : Comment.t) : json :=
  match c with
  | Comment.mk b content post_id author_id author parent_id replies =>
      JObject (marshal_Base b ++
        [("content", JString content);
         ("post_id", JUUID post_id);
         ("author_id", JUUID author_id);
         ("author", marshal_User author)]%string ++
        omitempty_uuid "parent_id" parent_id ++
        omitempty_array "replies" (List.map marshal_Comment replies))
  end.

Definition marshal_Post (p : Post.t) : json :=
  JObject (marshal_Base (Post.base p) ++
    [("title", JString (Post.Title p));
     ("content", JString (Post.Content p));
     ("slug", JString (Post.Slug p));
     ("author_id", JUUID (Post.AuthorID p));
     ("author", marshal_User (Post.Author p));
     ("status", JString (Post.Status p))]%string ++
    omitempty_time "published_at" (Post.PublishedAt p) ++
    [("categories", JArray (List.map marshal_Category (Post.Categories p)))]%string ++
    omitempty_array "comments" (List.map marshal_Comment (Post.Comments p))).

(** Does the key occur anywhere in the document? *)
Fixpoint json_mentions (k : string) (j : json) : bool :=
  match j with
  | JArray l => existsb (json_mentions k) l
  | JObject m =>
      existsb (fun kv : string * json =>
                 let (k', v) := kv in String.eqb k' k || json_mentions k v) m
  | _ => false
  end.

(** The value of a top-level field of an object. *)
Fixpoint assoc (k : string) (m : list (string * json)) : option json :=
  match m with
  | [] => None
  | (k', v) :: r => if String.eqb k' k then Some v else assoc k r
  end.
Definition json_field (k : string) (j : json) : option json :=
  match j with JObject m => assoc k m | _ => None end.

(** ** The relational store behind [db.DB]

    Tables are lists of rows in insertion order. The store is a
    collaborator of the handlers: the primary-key constraint is modelled,
    and any other refusal of a write (unique index, column size, foreign
    key, connection) is the input [store_refuses] of the request. Reads do
    not fail. *)

Module Store.

Record DB := mk {
  users : list User.t;
  posts : list Post.t;
  categories : list Category.t;
  comments : list Comment.t;
  post_categories : list (uuid * uuid) }.

Definition empty : DB := mk [] [] [] [] [].

Definition set_users (v : list User.t) (d : DB) : DB :=
  mk v (posts d) (categories d) (comments d) (post_categories d).
Definition set_posts (v : list Post.t) (d : DB) : DB :=
  mk (users d) v (categories d) (comments d) (post_categories d).
Definition set_comments (v : list Comment.t) (d : DB) : DB :=
  mk (users d) (posts d) (categories d) v (post_categories d).
Definition set_post_categories (v : list (uuid * uuid)) (d : DB) : DB :=
  mk (users d) (posts d) (categories d) (comments d) v.

Section Table.
(** [columns] forgets the association fields, which are not stored. *)
Context {R : Type} (base : R -> Base.t) (set_base : Base.t -> R -> R)
        (columns : R -> R).

Definition id_of (r : R) : uuid := Base.ID (base r).
Definition has_id (id : uuid) (r : R) : bool := (id_of r =? id)%N.

(** The soft-delete scope that GORM adds to every query. *)
Definition live (r : R) : bool :=
  match Base.DeletedAt (base r) with None => true | Some _ => false end.

(** [Where(cond).Find(&rows)] *)
Definition Find (cond : R -> bool) (rows : list R) : list R :=
  List.map columns (List.filter (fun r => live r && cond r) rows).

Fixpoint lowest (rows : list R) : option R :=
  match rows with
  | [] => None
  | r :: t =>
      match lowest t with
      | None => Some r
      | Some m => if (id_of r <=? id_of m)%N then Some r else Some m
      end
  end.

(** [Where(cond).First(&row)]: ordered by primary key; [None] is
    [ErrRecordNotFound] with [RowsAffected = 0]. *)
Definition First (cond : R -> bool) (rows : list R) : option R :=
  lowest (Find cond rows).

(** [Base.BeforeCreate] and the creation timestamps. *)
Definition BeforeCreate (fresh : uuid) (b : Base.t) : Base.t :=
  if (Base.ID b =? uuid_Nil)%N then Base.set_ID fresh b else b.

Definition stamp_create (now : time) (b : Base.t) : Base.t :=
  Base.mk (Base.ID b)
          (if Base.CreatedAt b =? time_zero then now else Base.CreatedAt b)
          (if Base.UpdatedAt b =? time_zero then now else Base.UpdatedAt b)
          (Base.DeletedAt b).

(** [Create(&row)]: the row as written back to the struct and the new
    table, or [None] when the store reports an error. *)
Definition Create (refuses : bool) (fresh : uuid) (now : time)
           (r : R) (rows : list R) : option (R * list R) :=
  let r' := set_base (stamp_create now (BeforeCreate fresh (base r))) r in
  if refuses || existsb (has_id (id_of r')) rows then None
  else Some (r', rows ++ [columns r']).

Definition stamp_update (now : time) (b : Base.t) : Base.t :=
  Base.mk (Base.ID b) (Base.CreatedAt b) now (Base.DeletedAt b).

(** [Save(&row)] of a row that carries its primary key: every column
    is written; the row is inserted when the key is new. *)
Definition Save (refuses : bool) (now : time)
           (r : R) (rows : list R) : option (R * list R) :=
  let r' := set_base (stamp_update now (base r)) r in
  if refuses then None
  else if existsb (has_id (id_of r')) rows
       then Some (r', List.map (fun x => if has_id (id_of r') x
                                         then columns r' else x) rows)
       else Some (r', rows ++ [columns r']).

(** [Delete(&row)]: soft delete. *)
Definition Delete (refuses : bool) (now : time)
           (r : R) (rows : list R) : option (list R) :=
  if refuses then None
  else Some (List.map (fun x =>
               if has_id (id_of r) x && live x
               then set_base (Base.set_DeletedAt (Some now) (base x)) x
               else x) rows).
End Table.

Definition same (A : Type) (x : A) : A := x.
Arguments same {A} x.

Definition First_user := First User.base (@same User.t).
Definition Find_user := Find User.base (@same User.t).
Definition First_category := First Category.base (@same Category.t).
Definition Find_category := Find Category.base (@same Category.t).
Definition First_post := First Post.base Post.columns.
Definition Find_post := Find Post.base Post.columns.
Definition First_comment := First Comment.base Comment.columns.
Definition Find_comment := Find Comment.base Comment.columns.

Definition user_by_id (id : uuid) (d : DB) : option User.t :=
  First_user (has_id User.base id) (users d).

(** [Preload("Author")] *)
Definition load_author (id : uuid) (d : DB) : User.t :=
  match user_by_id id d with Some u => u | None => User.zero end.

(** [Association("Categories")]: the live categories joined to the post. *)
Definition categories_of (post_id : uuid) (d : DB) : list Category.t :=
  Find_category
       (fun c => existsb (fun pc => (fst pc =? post_id)%N &&
                                    (snd pc =? id_of Category.base c)%N)
                         (post_categories d))
       (categories d).

Definition association_Append (post_id cat_id : uuid) (d : DB) : DB :=
  if existsb (fun pc => (fst pc =? post_id)%N && (snd pc =? cat_id)%N)
             (post_categories d)
  then d
  else set_post_categories (post_categories d ++ [(post_id, cat_id)]) d.

Definition association_Clear (post_id : uuid) (d : DB) : DB :=
  set_post_categories
    (List.filter (fun pc => negb (fst pc =? post_id)%N) (post_categories d)) d.

(** The loop over [req.CategoryIDs]: unknown categories are skipped. *)
Fixpoint attach_categories (post_id : uuid) (ids : list uuid) (d : DB) : DB :=
  match ids with
  | [] => d
  | cid :: rest =>
      match First_category (has_id Category.base cid) (categories d) with
      | None => attach_categories post_id rest d
      | Some c =>
          attach_categories post_id rest
            (association_Append post_id (id_of Category.base c) d)
      end
  end.

(** [Preload("Comments.Author")] *)
Definition comments_with_authors (post_id : uuid) (d : DB) : list Comment.t :=
  List.map (fun c => Comment.set_Author (load_author (Comment.AuthorID c) d) c)
           (Find_comment (fun c => (Comment.PostID c =? post_id)%N) (comments d)).

(** [Preload("Replies")] *)
Definition replies_of (comment_id : uuid) (d : DB) : list Comment.t :=
  Find_comment
    (fun c => match Comment.ParentID c with
              | Some p => (p =? comment_id)%N
              | None => false
              end)
    (comments d).

End Store.

(** What the environment supplies to one request. *)
Record Env := mkEnv {
  config_JWTSecret : option gostring; (* [config.LoadConfig]; [None]: error *)
  jwt_TimeFunc : time;    (* the instant read by the token library *)
  auth_Now : time;        (* [time.Now()] in [ValidateToken] *)
  time_Now : time;        (* [time.Now()] in the handler *)
  gorm_Now : time;        (* the timestamp of the store's write *)
  uuid_New : uuid;        (* [uuid.New()] in the handler *)
  hook_uuid : uuid;       (* [uuid.New()] in [Base.BeforeCreate] *)
  store_refuses : bool    (* the handler's checked write is refused *)
}.

(** ** Tokens ([internal/auth]) *)

Module Auth.

Record RegisteredClaims := mkRegistered {
  Issuer : gostring;
  Subject : gostring;
  ExpiresAt : option time;
  NotBefore : option time;
  IssuedAt : option time }.

Record JWTClaim := mkClaim {
  UserID : uuid;
  Username : gostring;
  Email : gostring;
  Role : gostring;
  Registered : RegisteredClaims }.

Inductive error :=
| Malformed
| ValidationError (expired not_valid_yet used_before_issued signature_invalid : bool)
| CouldntParseClaims
| TokenExpired.

(** [Panic]: a nil dereference, turned into status 500 by the recovery
    middleware of [gin.Default()]. *)
Inductive outcome (A : Type) :=
| Ok (a : A)
| Err (e : error)
| Panic.
Arguments Ok {A} a.
Arguments Err {A} e.
Arguments Panic {A}.

Section Token.
(** Decoding of the three segments and verification of the signature
    under a key belong to the token library. *)
Variable jwt_decode : gostring -> option JWTClaim.
Variable jwt_verify : gostring -> gostring -> bool.

Definition expired (c : JWTClaim) (now : time) : bool :=
  match ExpiresAt (Registered c) with
  | Some e => negb (now <? e)
  | None => false
  end.
Definition not_valid_yet (c : JWTClaim) (now : time) : bool :=
  match NotBefore (Registered c) with
  | Some n => now <? n
  | None => false
  end.
Definition used_before_issued (c : JWTClaim) (now : time) : bool :=
  match IssuedAt (Registered c) with
  | Some i => now <? i
  | None => false
  end.

(** Modelled from the spec: [jwt.ParseWithClaims] of the token library
    (golang-jwt/jwt/v4), whose source is not part of the repository.
    Section 4.2: "verify signature and decode claims; fail with an
    authentication error if the signature is invalid, the structure is
    unparseable, or the expiry timestamp is at or before validation
    time. On success, return the decoded claims". The library's checks
    of the not-before and issued-at claims are included. *)
Definition ParseWithClaims (signedToken jwtSecret : gostring) (now : time)
  : JWTClaim + error :=
  match jwt_decode signedToken with
  | None => inr Malformed
  | Some c =>
      let e1 := expired c now in
      let e2 := not_valid_yet c now in
      let e3 := used_before_issued c now in
      let e4 := negb (jwt_verify signedToken jwtSecret) in
      if e1 || e2 || e3 || e4 then inr (ValidationError e1 e2 e3 e4)
      else inl c
  end.

(** The type assertion of [token.Claims] to a [JWTClaim] pointer cannot
    fail, since the parser was handed one. *)
Definition ValidateToken (signedToken jwtSecret : gostring)
           (t_lib t_now : time) : outcome JWTClaim :=
  match ParseWithClaims signedToken jwtSecret t_lib with
  | inr err => Err err
  | inl claims =>
      match ExpiresAt (Registered claims) with
      | None => Panic
      | Some e => if e <? t_now then Err TokenExpired else Ok claims
      end
  end.
End Token.

End Auth.

(** ** Request context and middleware ([api/middleware]) *)

Inductive any :=
| AnyUUID (u : uuid)
| AnyString (s : gostring).

Definition Context := list (string * any).

Fixpoint Get (k : string) (c : Context) : option any :=
  match c with
  | [] => None
  | (k', v) :: r => if String.eqb k' k then Some v else Get k r
  end.

Definition Set_ (k : string) (v : any) (c : Context) : Context := (k, v) :: c.

(** [strings.Split(s, " ")] *)
Fixpoint strings_Split (s : gostring) : list gostring :=
  match s with
  | [] => [[]]
  | r :: t =>
      if r =? space then [] :: strings_Split t
      else match strings_Split t with
           | [] => [[r]]
           | p :: ps => (r :: p) :: ps
           end
  end.

Definition StatusOK : Z := 200.
Definition StatusCreated : Z := 201.
Definition StatusBadRequest : Z := 400.
Definition StatusUnauthorized : Z := 401.
Definition StatusForbidden : Z := 403.
Definition StatusNotFound : Z := 404.
Definition StatusInternalServerError : Z := 500.

Definition JSON (code : Z) (obj : json) : Response := mkResponse code obj.
Definition error_H (msg : string) : json := gin_H "error" msg.

Module Middleware.

Inductive result :=
| Next (c : Context)
| Abort (r : Response).

Section WithToken.
Variable jwt_decode : gostring -> option Auth.JWTClaim.
Variable jwt_verify : gostring -> gostring -> bool.

Definition AuthMiddleware (env : Env) (authHeader : gostring) (c : Context)
  : result :=
  match config_JWTSecret env with
  | None => Abort (JSON StatusInternalServerError (error_H "couldn't load config"))
  | Some secret =>
      if gostring_eqb authHeader []
      then Abort (JSON StatusUnauthorized (error_H "authorization header is required"))
      else
        match strings_Split authHeader with
        | [p0; p1] =>
            if negb (gostring_eqb p0 (str "Bearer"))
            then Abort (JSON StatusUnauthorized
                          (error_H "authorization header format must be Bearer {token}"))
            else
              match Auth.ValidateToken jwt_decode jwt_verify p1 secret
                                       (jwt_TimeFunc env) (auth_Now env) with
              | Auth.Err Auth.TokenExpired =>
                  Abort (JSON StatusUnauthorized (error_H "token expired"))
              | Auth.Err Auth.CouldntParseClaims =>
                  Abort (JSON StatusUnauthorized (error_H "couldn't parse claims"))
              | Auth.Err _ =>
                  Abort (JSON StatusUnauthorized (gin_H_err "jwt"))
              | Auth.Panic =>
                  Abort (mkResponse StatusInternalServerError JNull)
              | Auth.Ok claims =>
                  Next (Set_ "role" (AnyString (Auth.Role claims))
                       (Set_ "email" (AnyString (Auth.Email claims))
                       (Set_ "username" (AnyString (Auth.Username claims))
                       (Set_ "userID" (AnyUUID (Auth.UserID claims)) c))))
              end
        | _ => Abort (JSON StatusUnauthorized
                        (error_H "authorization header format must be Bearer {token}"))
        end
  end.
End WithToken.

(** [RoleMiddleware(roles...)] *)
Definition RoleMiddleware (roles : list gostring) (c : Context) : result :=
  match Get "role" c with
  | None => Abort (JSON StatusUnauthorized (error_H "unauthorized"))
  | Some (AnyString roleStr) =>
      if existsb (fun role => gostring_eqb role roleStr) roles
      then Next c
      else Abort (JSON StatusForbidden (error_H "insufficient permissions"))
  | Some _ =>
      Abort (JSON StatusInternalServerError (error_H "role type assertion failed"))
  end.

End Middleware.

(** ** Handlers ([api/handlers])

    A handler takes the request context, the path parameter, the body as
    decoded by [encoding/json] into the request structure ([None] when it
    does not decode) and the store; it returns the response and the store
    it leaves behind. *)

Definition result := (Response * Store.DB)%type.

Definition nonempty (s : gostring) : bool := negb (gostring_eqb s []).
Definition is_admin (roleStr : gostring) : bool := gostring_eqb roleStr (str "admin").
Definition rune_count (s : gostring) : Z := Z.of_nat (List.length s).

(** The check of the mutating handlers of posts and comments, with
    [authorID, idOk := userID.(uuid.UUID)] and
    [roleStr, roleOk := userRole.(string)]:
    [!idOk || !roleOk || (ownerID != authorID && roleStr != "admin")] *)
Definition denied (userID userRole : any) (ownerID : uuid) : bool :=
  match userID, userRole with
  | AnyUUID authorID, AnyString roleStr =>
      negb (ownerID =? authorID)%N && negb (is_admin roleStr)
  | _, _ => true
  end.

Module UserHandler.

Section WithLibraries.
Variable uuid_Parse : gostring -> option uuid.
(** [auth.HashPassword]: bcrypt at cost 14; [None] when it errors. *)
Variable HashPassword : gostring -> option gostring.
(** The [email] rule of the validator. *)
Variable is_email : gostring -> bool.

(** [c.ShouldBindJSON(&req)] with the [binding] tags of
    [RegisterRequest]. *)
Definition bind_RegisterRequest (body : option RegisterRequest.t)
  : option RegisterRequest.t :=
  match body with
  | None => None
  | Some req =>
      if nonempty (RegisterRequest.Username req)
         && (3 <=? rune_count (RegisterRequest.Username req))
         && (rune_count (RegisterRequest.Username req) <=? 50)
         && nonempty (RegisterRequest.Email req)
         && is_email (RegisterRequest.Email req)
         && nonempty (RegisterRequest.Password req)
         && (6 <=? rune_count (RegisterRequest.Password req))
      then Some req else None
  end.

Definition Register (env : Env) (body : option RegisterRequest.t)
           (db : Store.DB) : result :=
  match bind_RegisterRequest body with
  | None => (JSON StatusBadRequest (gin_H_err "bind"), db)
  | Some req =>
      match Store.First_user
              (fun u => gostring_eqb (User.Username u) (RegisterRequest.Username req))
              (Store.users db) with
      | Some _ => (JSON StatusBadRequest (error_H "username already exists"), db)
      | None =>
          match Store.First_user
                  (fun u => gostring_eqb (User.Email u) (RegisterRequest.Email req))
                  (Store.users db) with
          | Some _ => (JSON StatusBadRequest (error_H "email already exists"), db)
          | None =>
              match HashPassword (RegisterRequest.Password req) with
              | None =>
                  (JSON StatusInternalServerError (error_H "failed to hash password"), db)
              | Some hashedPassword =>
                  let user :=
                    User.mk Base.zero
                            (RegisterRequest.Username req)
                            (RegisterRequest.Email req)
                            hashedPassword
                            (RegisterRequest.FirstName req)
                            (RegisterRequest.LastName req)
                            (str "user") in
                  match Store.Create User.base User.set_base Store.same
                          (store_refuses env) (hook_uuid env) (gorm_Now env)
                          user (Store.users db) with
                  | None =>
                      (JSON StatusInternalServerError (error_H "failed to create user"), db)
                  | Some (user, users') =>
                      (JSON StatusCreated (marshal_User (User.set_Password [] user)),
                       Store.set_users users' db)
                  end
              end
          end
      end
  end.

Definition GetMe (c : Context) (db : Store.DB) : result :=
  match Get "userID" c with
  | None => (JSON StatusUnauthorized (error_H "unauthorized"), db)
  | Some (AnyUUID id) =>
      match Store.user_by_id id db with
      | None => (JSON StatusInternalServerError (error_H "failed to get user"), db)
      | Some user => (JSON StatusOK (marshal_User (User.set_Password [] user)), db)
      end
  | Some _ => (JSON StatusInternalServerError (error_H "invalid user ID format"), db)
  end.

Definition GetAll (db : Store.DB) : result :=
  let users := Store.Find_user (fun _ => true) (Store.users db) in
  (JSON StatusOK (JArray (List.map (fun u => marshal_User (User.set_Password [] u)) users)),
   db).

(** [role, _ := c.Get("role"); roleStr, _ := role.(string)] *)
Definition role_or_empty (c : Context) : gostring :=
  match Get "role" c with
  | Some (AnyString s) => s
  | _ => []
  end.

Definition UpdateUser (env : Env) (c : Context) (id : gostring)
           (body : option UpdateData.t) (db : Store.DB) : result :=
  match Get "userID" c with
  | None => (JSON StatusUnauthorized (error_H "unauthorized"), db)
  | Some userID =>
  match uuid_Parse id with
  | None => (JSON StatusBadRequest (error_H "invalid user ID format"), db)
  | Some userUUID =>
  match userID with
  | AnyString _ =>
      (JSON StatusInternalServerError (error_H "invalid user ID format"), db)
  | AnyUUID requestingUserID =>
  let roleStr := role_or_empty c in
  if negb (userUUID =? requestingUserID)%N && negb (is_admin roleStr)
  then (JSON StatusForbidden (error_H "permission denied"), db)
  else
  match Store.user_by_id userUUID db with
  | None => (JSON StatusNotFound (error_H "user not found"), db)
  | Some user =>
  match body with
  | None => (JSON StatusBadRequest (gin_H_err "bind"), db)
  | Some updateData =>
  let user :=
    if nonempty (UpdateData.FirstName updateData)
    then User.set_FirstName (UpdateData.FirstName updateData) user else user in
  let user :=
    if nonempty (UpdateData.LastName updateData)
    then User.set_LastName (UpdateData.LastName updateData) user else user in
  let email_changes :=
    nonempty (UpdateData.Email updateData)
    && negb (gostring_eqb (UpdateData.Email updateData) (User.Email user)) in
  match (if email_changes
         then Store.First_user
                (fun u => gostring_eqb (User.Email u) (UpdateData.Email updateData)
                          && negb (Store.has_id User.base userUUID u))
                (Store.users db)
         else None) with
  | Some _ => (JSON StatusBadRequest (error_H "email already exists"), db)
  | None =>
  let user :=
    if email_changes then User.set_Email (UpdateData.Email updateData) user
    else user in
  let user :=
    if nonempty (UpdateData.Role updateData) && is_admin roleStr
    then User.set_Role (UpdateData.Role updateData) user else user in
  match (if nonempty (UpdateData.Password updateData)
         then option_map (fun h => User.set_Password h user)
                         (HashPassword (UpdateData.Password updateData))
         else Some user) with
  | None => (JSON StatusInternalServerError (error_H "failed to hash password"), db)
  | Some user =>
  match Store.Save User.base User.set_base Store.same
          (store_refuses env) (gorm_Now env) user (Store.users db) with
  | None => (JSON StatusInternalServerError (error_H "failed to update user"), db)
  | Some (user, users') =>
      (JSON StatusOK (marshal_User (User.set_Password [] user)),
       Store.set_users users' db)
  end end end end end end end end.

Definition DeleteUser (env : Env) (c : Context) (id : gostring)
           (db : Store.DB) : result :=
  match Get "userID" c with
  | None => (JSON StatusUnauthorized (error_H "unauthorized"), db)
  | Some userID =>
  match uuid_Parse id with
  | None => (JSON StatusBadRequest (error_H "invalid user ID format"), db)
  | Some userUUID =>
  match userID with
  | AnyString _ =>
      (JSON StatusInternalServerError (error_H "invalid user ID format"), db)
  | AnyUUID requestingUserID =>
  let roleStr := role_or_empty c in
  if negb (userUUID =? requestingUserID)%N && negb (is_admin roleStr)
  then (JSON StatusForbidden (error_H "permission denied"), db)
  else
  match Store.user_by_id userUUID db with
  | None => (JSON StatusNotFound (error_H "user not found"), db)
  | Some user =>
  match Store.Delete User.base User.set_base
          (store_refuses env) (gorm_Now env) user (Store.users db) with
  | None => (JSON StatusInternalServerError (error_H "failed to delete user"), db)
  | Some users' =>
      (JSON StatusOK (gin_H "message" "user deleted successfully"),
       Store.set_users users' db)
  end end end end end.

End WithLibraries.

End UserHandler.

(** [uuid.New().String()[:8]]: the eight leading hexadecimal digits. *)
Definition hex_digit (n : N) : rune :=
  if (n <? 10)%N then 48 + Z.of_N n else 87 + Z.of_N n.

Definition uuid_prefix8 (u : uuid) : gostring :=
  let top := (N.shiftr u 96 mod 4294967296)%N in
  List.map (fun i => hex_digit (N.shiftr top (4 * i) mod 16)%N)
           [7; 6; 5; 4; 3; 2; 1; 0]%N.

Module PostHandler.

Section WithLibraries.
Variable lower_nonascii : rune -> rune.
Variable uuid_Parse : gostring -> option uuid.

Definition generateSlug := Slug.generateSlug lower_nonascii.

(** [c.ShouldBindJSON(&req)] with the [binding] tags of [PostRequest]. *)
Definition bind_PostRequest (body : option PostRequest.t)
  : option PostRequest.t :=
  match body with
  | None => None
  | Some req =>
      if nonempty (PostRequest.Title req) && nonempty (PostRequest.Content req)
      then Some req else None
  end.

Definition is_published (status : gostring) : bool :=
  gostring_eqb status (str "published").

Definition slug_is (slug : gostring) (p : Post.t) : bool :=
  gostring_eqb (Post.Slug p) slug.

Definition with_suffix (env : Env) (slug : gostring) : gostring :=
  slug ++ str "-" ++ uuid_prefix8 (uuid_New env).

Definition CreatePost (env : Env) (c : Context) (body : option PostRequest.t)
           (db : Store.DB) : result :=
  match bind_PostRequest body with
  | None => (JSON StatusBadRequest (gin_H_err "bind"), db)
  | Some req =>
  match Get "userID" c with
  | None => (JSON StatusUnauthorized (error_H "unauthorized"), db)
  | Some (AnyString _) =>
      (JSON StatusInternalServerError (error_H "invalid user ID format"), db)
  | Some (AnyUUID authorID) =>
  let slug :=
    if nonempty (PostRequest.Slug req) then generateSlug (PostRequest.Slug req)
    else generateSlug (PostRequest.Title req) in
  let slug :=
    match Store.First_post (slug_is slug) (Store.posts db) with
    | Some _ => with_suffix env slug
    | None => slug
    end in
  let status :=
    if nonempty (PostRequest.Status req) then PostRequest.Status req
    else str "draft" in
  let post :=
    Post.mk Base.zero (PostRequest.Title req) (PostRequest.Content req) slug
            authorID User.zero status None [] [] in
  let post :=
    if is_published status
    then Post.set_PublishedAt (Some (time_Now env)) post else post in
  match Store.Create Post.base Post.set_base Post.columns
          (store_refuses env) (hook_uuid env) (gorm_Now env)
          post (Store.posts db) with
  | None => (JSON StatusInternalServerError (error_H "failed to create post"), db)
  | Some (post, posts') =>
      let db := Store.set_posts posts' db in
      let db :=
        Store.attach_categories (Store.id_of Post.base post)
                                (PostRequest.CategoryIDs req) db in
      let author := Store.load_author authorID db in
      let post := Post.set_Author (User.set_Password [] author) post in
      let post :=
        Post.set_Categories
          (Store.categories_of (Store.id_of Post.base post) db) post in
      (JSON StatusCreated (marshal_Post post), db)
  end end end.

(** [Preload("Author").Preload("Categories").Preload("Comments.Author")] *)
Definition preload_all (db : Store.DB) (p : Post.t) : Post.t :=
  Post.set_Comments (Store.comments_with_authors (Store.id_of Post.base p) db)
    (Post.set_Categories (Store.categories_of (Store.id_of Post.base p) db)
       (Post.set_Author (Store.load_author (Post.AuthorID p) db) p)).

(** [Preload("Author").Preload("Categories")] *)
Definition preload_author_categories (db : Store.DB) (p : Post.t) : Post.t :=
  Post.set_Categories (Store.categories_of (Store.id_of Post.base p) db)
    (Post.set_Author (Store.load_author (Post.AuthorID p) db) p).

(** [post.Author.Password = ""; post.Author.Role = ""] *)
Definition clean_author (p : Post.t) : Post.t :=
  Post.set_Author (User.set_Role [] (User.set_Password [] (Post.Author p))) p.

(** [for i := range post.Comments { post.Comments[i].Author.Password = "" }] *)
Definition clean_comments (p : Post.t) : Post.t :=
  Post.set_Comments
    (List.map (fun cm => Comment.set_Author
                           (User.set_Password [] (Comment.Author cm)) cm)
              (Post.Comments p)) p.

Definition GetPostByID (id : gostring) (db : Store.DB) : result :=
  match uuid_Parse id with
  | None => (JSON StatusBadRequest (error_H "invalid post ID format"), db)
  | Some postUUID =>
      match Store.First_post (Store.has_id Post.base postUUID) (Store.posts db) with
      | None => (JSON StatusNotFound (error_H "post not found"), db)
      | Some post =>
          let post := preload_all db post in
          if negb (is_published (Post.Status post))
          then (JSON StatusNotFound (error_H "post not published yet from author"), db)
          else (JSON StatusOK (marshal_Post (clean_comments (clean_author post))), db)
      end
  end.

Definition GetPostBySlug (slug : gostring) (db : Store.DB) : result :=
  match Store.First_post (slug_is slug) (Store.posts db) with
  | None => (JSON StatusNotFound (error_H "post not found"), db)
  | Some post =>
      let post := preload_all db post in
      (JSON StatusOK (marshal_Post (clean_comments (clean_author post))), db)
  end.

Definition GetOwnPosts (c : Context) (db : Store.DB) : result :=
  match Get "userID" c with
  | None => (JSON StatusUnauthorized (error_H "unauthorized"), db)
  | Some (AnyString _) =>
      (JSON StatusInternalServerError (error_H "invalid user ID format"), db)
  | Some (AnyUUID userID) =>
      let posts :=
        List.map (fun p => Post.set_Categories
                             (Store.categories_of (Store.id_of Post.base p) db) p)
                 (Store.Find_post (fun p => (Post.AuthorID p =? userID)%N)
                                  (Store.posts db)) in
      let posts :=
        List.map (fun p => Post.set_Author (User.set_Password [] (Post.Author p)) p)
                 posts in
      (JSON StatusOK (JArray (List.map marshal_Post posts)), db)
  end.

Definition GetPostsByUserID (userIDParam : gostring) (db : Store.DB) : result :=
  match uuid_Parse userIDParam with
  | None => (JSON StatusBadRequest (error_H "invalid User ID format"), db)
  | Some userID =>
      let posts :=
        List.map (preload_all db)
                 (Store.Find_post (fun p => (Post.AuthorID p =? userID)%N
                                            && is_published (Post.Status p))
                                  (Store.posts db)) in
      (JSON StatusOK (JArray (List.map (fun p => marshal_Post (clean_author p)) posts)),
       db)
  end.

(** The updates of title, content and slug in [UpdatePost], with the
    check that the slug is not taken by another post. *)
Definition update_text (env : Env) (postUUID : uuid) (req : PostRequest.t)
           (db : Store.DB) (post : Post.t) : Post.t :=
  let post :=
    if nonempty (PostRequest.Title req)
    then Post.set_Title (PostRequest.Title req) post else post in
  let post :=
    if nonempty (PostRequest.Content req)
    then Post.set_Content (PostRequest.Content req) post else post in
  let post :=
    if nonempty (PostRequest.Slug req)
    then Post.set_Slug (generateSlug (PostRequest.Slug req)) post
    else if nonempty (PostRequest.Title req)
         then Post.set_Slug (generateSlug (PostRequest.Title req)) post
         else post in
  match Store.First_post
          (fun p => slug_is (Post.Slug post) p
                    && negb (Store.has_id Post.base postUUID p))
          (Store.posts db) with
  | Some _ => Post.set_Slug (with_suffix env (Post.Slug post)) post
  | None => post
  end.

(** "Update status if provided": the publish timestamp is set when the
    status changes to [published] and no timestamp is there yet. *)
Definition update_status (env : Env) (req : PostRequest.t) (post : Post.t)
  : Post.t :=
  if nonempty (PostRequest.Status req)
     && negb (gostring_eqb (PostRequest.Status req) (Post.Status post))
  then
    let post' := Post.set_Status (PostRequest.Status req) post in
    if is_published (PostRequest.Status req)
       && match Post.PublishedAt post' with None => true | Some _ => false end
    then Post.set_PublishedAt (Some (time_Now env)) post'
    else post'
  else post.

(** The field updates of [UpdatePost] between binding and saving. *)
Definition update_fields (env : Env) (postUUID : uuid) (req : PostRequest.t)
           (db : Store.DB) (post : Post.t) : Post.t :=
  update_status env req (update_text env postUUID req db post).

Definition UpdatePost (env : Env) (c : Context) (id : gostring)
           (body : option PostRequest.t) (db : Store.DB) : result :=
  match uuid_Parse id with
  | None => (JSON StatusBadRequest (error_H "invalid post ID format"), db)
  | Some postUUID =>
  match Store.First_post (Store.has_id Post.base postUUID) (Store.posts db) with
  | None => (JSON StatusNotFound (error_H "post not found"), db)
  | Some post =>
  match Get "userID" c, Get "role" c with
  | Some userID, Some userRole =>
  if denied userID userRole (Post.AuthorID post)
  then (JSON StatusForbidden (error_H "permission denied"), db)
  else
  match bind_PostRequest body with
  | None => (JSON StatusBadRequest (gin_H_err "bind"), db)
  | Some req =>
  let post := update_fields env postUUID req db post in
  match Store.Save Post.base Post.set_base Post.columns
          (store_refuses env) (gorm_Now env) post (Store.posts db) with
  | None => (JSON StatusInternalServerError (error_H "failed to update post"), db)
  | Some (post, posts') =>
      let db := Store.set_posts posts' db in
      let db :=
        match PostRequest.CategoryIDs req with
        | [] => db
        | ids =>
            Store.attach_categories (Store.id_of Post.base post) ids
              (Store.association_Clear (Store.id_of Post.base post) db)
        end in
      let post :=
        match Store.First_post (Store.has_id Post.base postUUID) (Store.posts db) with
        | Some p => preload_author_categories db p
        | None => post
        end in
      (JSON StatusOK (marshal_Post (clean_author post)), db)
  end end
  | _, _ => (JSON StatusUnauthorized (error_H "unauthorized"), db)
  end end end.

Definition DeletePost (env : Env) (c : Context) (id : gostring)
           (db : Store.DB) : result :=
  match uuid_Parse id with
  | None => (JSON StatusBadRequest (error_H "invalid post ID format"), db)
  | Some postUUID =>
  match Store.First_post (Store.has_id Post.base postUUID) (Store.posts db) with
  | None => (JSON StatusNotFound (error_H "post not found"), db)
  | Some post =>
  match Get "userID" c, Get "role" c with
  | Some userID, Some userRole =>
  if denied userID userRole (Post.AuthorID post)
  then (JSON StatusForbidden (error_H "permission denied"), db)
  else
  match Store.Delete Post.base Post.set_base
          (store_refuses env) (gorm_Now env) post (Store.posts db) with
  | None => (JSON StatusInternalServerError (error_H "failed to delete post"), db)
  | Some posts' =>
      (JSON StatusOK (gin_H "message" "post deleted successfully"),
       Store.set_posts posts' db)
  end
  | _, _ => (JSON StatusUnauthorized (error_H "unauthorized"), db)
  end end end.

End WithLibraries.

End PostHandler.

Module CommentHandler.

Section WithLibraries.
Variable uuid_Parse : gostring -> option uuid.

(** [c.ShouldBindJSON(&req)] with the [binding] tags of
    [CommentRequest]. *)
Definition bind_CommentRequest (body : option CommentRequest.t)
  : option CommentRequest.t :=
  match body with
  | None => None
  | Some req => if nonempty (CommentRequest.Content req) then Some req else None
  end.

Definition comment_by_id (id : uuid) (db : Store.DB) : option Comment.t :=
  Store.First_comment (Store.has_id Comment.base id) (Store.comments db).

(** The check of the parent in [CreateComment]: the response that
    rejects the request, if any. *)
Definition check_parent (postUUID : uuid) (parent : option uuid)
           (db : Store.DB) : option Response :=
  match parent with
  | None => None
  | Some parentID =>
      match comment_by_id parentID db with
      | None => Some (JSON StatusBadRequest (error_H "parent comment not found"))
      | Some parentComment =>
          if negb (Comment.PostID parentComment =? postUUID)%N
          then Some (JSON StatusBadRequest
                       (error_H "parent comment does not belong to the same post"))
          else None
      end
  end.

Definition CreateComment (env : Env) (c : Context) (postID : gostring)
           (body : option CommentRequest.t) (db : Store.DB) : result :=
  match uuid_Parse postID with
  | None => (JSON StatusBadRequest (error_H "invalid post ID format"), db)
  | Some postUUID =>
  match Store.First_post (Store.has_id Post.base postUUID) (Store.posts db) with
  | None => (JSON StatusNotFound (error_H "post not found"), db)
  | Some post =>
  if negb (gostring_eqb (Post.Status post) (str "published"))
  then (JSON StatusBadRequest (error_H "cannot comment on unpublished posts"), db)
  else
  match Get "userID" c with
  | None => (JSON StatusUnauthorized (error_H "unauthorized"), db)
  | Some (AnyString _) =>
      (JSON StatusInternalServerError (error_H "invalid user ID format"), db)
  | Some (AnyUUID authorID) =>
  match bind_CommentRequest body with
  | None => (JSON StatusBadRequest (gin_H_err "bind"), db)
  | Some req =>
  let comment :=
    Comment.mk Base.zero (CommentRequest.Content req) postUUID authorID
               User.zero (CommentRequest.ParentID req) [] in
  match check_parent postUUID (CommentRequest.ParentID req) db with
  | Some rejection => (rejection, db)
  | None =>
  match Store.Create Comment.base Comment.set_base Comment.columns
          (store_refuses env) (hook_uuid env) (gorm_Now env)
          comment (Store.comments db) with
  | None => (JSON StatusInternalServerError (gin_H_err "store"), db)
  | Some (comment, comments') =>
      (JSON StatusCreated (marshal_Comment comment),
       Store.set_comments comments' db)
  end end end end end end.

(** [Preload("Author")] on a comment; [Preload("Parent")] fills a field
    that is neither read nor serialized. *)
Definition preload_author (db : Store.DB) (cm : Comment.t) : Comment.t :=
  Comment.set_Author (Store.load_author (Comment.AuthorID cm) db) cm.

Definition preload_replies (db : Store.DB) (cm : Comment.t) : Comment.t :=
  Comment.set_Replies (Store.replies_of (Store.id_of Comment.base cm) db) cm.

Definition GetAllCommentsFromPostId (postId : gostring) (db : Store.DB)
  : result :=
  match uuid_Parse postId with
  | None => (JSON StatusBadRequest (error_H "invalid post ID format"), db)
  | Some postUUID =>
      let comments :=
        List.map (preload_author db)
                 (Store.Find_comment (fun cm => (Comment.PostID cm =? postUUID)%N)
                                     (Store.comments db)) in
      (JSON StatusOK (JArray (List.map marshal_Comment comments)), db)
  end.

Definition GetCommentById (commentID : gostring) (db : Store.DB) : result :=
  match uuid_Parse commentID with
  | None => (JSON StatusBadRequest (error_H "invalid comment ID format"), db)
  | Some commentUUID =>
      match comment_by_id commentUUID db with
      | None => (JSON StatusNotFound (error_H "comment not found"), db)
      | Some comment =>
          (JSON StatusOK
                (marshal_Comment (preload_replies db (preload_author db comment))),
           db)
      end
  end.

Definition UpdateComment (env : Env) (c : Context) (id : gostring)
           (body : option CommentRequest.t) (db : Store.DB) : result :=
  match uuid_Parse id with
  | None => (JSON StatusBadRequest (error_H "invalid comment ID format"), db)
  | Some commentUUID =>
  match comment_by_id commentUUID db with
  | None => (JSON StatusNotFound (error_H "Comment not found"), db)
  | Some comment =>
  let comment := preload_author db comment in
  match Get "userID" c, Get "role" c with
  | Some userID, Some userRole =>
  if denied userID userRole (Comment.AuthorID comment)
  then (JSON StatusForbidden (error_H "permission denied"), db)
  else
  match bind_CommentRequest body with
  | None => (JSON StatusBadRequest (gin_H_err "bind"), db)
  | Some req =>
  let comment :=
    if nonempty (CommentRequest.Content req)
    then Comment.set_Content (CommentRequest.Content req) comment else comment in
  match Store.Save Comment.base Comment.set_base Comment.columns
          (store_refuses env) (gorm_Now env) comment (Store.comments db) with
  | None => (JSON StatusInternalServerError (error_H "failed to update comment"), db)
  | Some (comment, comments') =>
      let db := Store.set_comments comments' db in
      let comment :=
        match comment_by_id commentUUID db with
        | Some cm => preload_replies db (preload_author db cm)
        | None => comment
        end in
      let comment :=
        Comment.set_Author
          (User.set_Role [] (User.set_Password [] (Comment.Author comment)))
          comment in
      (JSON StatusOK (marshal_Comment comment), db)
  end end
  | _, _ => (JSON StatusUnauthorized (error_H "unauthorized"), db)
  end end end.

Definition DeleteComment (env : Env) (c : Context) (id : gostring)
           (db : Store.DB) : result :=
  match uuid_Parse id with
  | None => (JSON StatusBadRequest (error_H "invalid comment ID format"), db)
  | Some commentUUID =>
  match comment_by_id commentUUID db with
  | None => (JSON StatusNotFound (error_H "Comment not found"), db)
  | Some comment =>
  match Get "userID" c, Get "role" c with
  | Some userID, Some userRole =>
  if denied userID userRole (Comment.AuthorID comment)
  then (JSON StatusForbidden (error_H "permission denied"), db)
  else
  match Store.Delete Comment.base Comment.set_base
          (store_refuses env) (gorm_Now env) comment (Store.comments db) with
  | None => (JSON StatusInternalServerError (error_H "failed to delete comment"), db)
  | Some comments' =>
      (JSON StatusOK (gin_H "message" "comment deleted successfully"),
       Store.set_comments comments' db)
  end
  | _, _ => (JSON StatusUnauthorized (error_H "unauthorized"), db)
  end end end.

End WithLibraries.

End CommentHandler.

(** ** Routes ([api/routes]) *)

Inductive Endpoint :=
| POST_register (body : option RegisterRequest.t)
| GET_users_me
| GET_users
| PUT_users (id : gostring) (body : option UpdateData.t)
| DELETE_users (id : gostring)
| GET_posts_id (id : gostring)
| GET_posts_user (userId : gostring)
| GET_posts_slug (slug : gostring)
| GET_posts_own
| POST_posts (body : option PostRequest.t)
| PUT_posts (id : gostring) (body : option PostRequest.t)
| DELETE_posts (id : gostring)
| GET_comment_posts (postId : gostring)
| GET_comment (id : gostring)
| POST_comment_posts (postId : gostring) (body : option CommentRequest.t)
| PUT_comment (id : gostring) (body : option CommentRequest.t)
| DELETE_comment (id : gostring).

Record Request := mkRequest {
  Authorization : gostring;   (* the header; empty when absent *)
  endpoint : Endpoint }.

Module Routes.

Section WithLibraries.
Variable lower_nonascii : rune -> rune.
Variable uuid_Parse : gostring -> option uuid.
Variable HashPassword : gostring -> option gostring.
Variable is_email : gostring -> bool.
Variable jwt_decode : gostring -> option Auth.JWTClaim.
Variable jwt_verify : gostring -> gostring -> bool.

(** The routes of the groups that [Use(AuthMiddleware())]. *)
Definition protected (e : Endpoint) : bool :=
  match e with
  | POST_register _ | GET_posts_id _ | GET_posts_user _ | GET_posts_slug _
  | GET_comment_posts _ | GET_comment _ => false
  | _ => true
  end.

(** The handler chain behind a route, after the authentication
    middleware. *)
Definition handle (env : Env) (c : Context) (e : Endpoint) (db : Store.DB)
  : result :=
  match e with
  | POST_register body => UserHandler.Register HashPassword is_email env body db
  | GET_users_me => UserHandler.GetMe c db
  | GET_users =>
      match Middleware.RoleMiddleware [str "admin"] c with
      | Middleware.Abort r => (r, db)
      | Middleware.Next c => UserHandler.GetAll db
      end
  | PUT_users id body => UserHandler.UpdateUser uuid_Parse HashPassword env c id body db
  | DELETE_users id => UserHandler.DeleteUser uuid_Parse env c id db
  | GET_posts_id id => PostHandler.GetPostByID uuid_Parse id db
  | GET_posts_user id => PostHandler.GetPostsByUserID uuid_Parse id db
  | GET_posts_slug slug => PostHandler.GetPostBySlug slug db
  | GET_posts_own => PostHandler.GetOwnPosts c db
  | POST_posts body => PostHandler.CreatePost lower_nonascii env c body db
  | PUT_posts id body =>
      PostHandler.UpdatePost lower_nonascii uuid_Parse env c id body db
  | DELETE_posts id => PostHandler.DeletePost uuid_Parse env c id db
  | GET_comment_posts id => CommentHandler.GetAllCommentsFromPostId uuid_Parse id db
  | GET_comment id => CommentHandler.GetCommentById uuid_Parse id db
  | POST_comment_posts id body =>
      CommentHandler.CreateComment uuid_Parse env c id body db
  | PUT_comment id body => CommentHandler.UpdateComment uuid_Parse env c id body db
  | DELETE_comment id => CommentHandler.DeleteComment uuid_Parse env c id db
  end.

Definition serve (env : Env) (req : Request) (db : Store.DB) : result :=
  if protected (endpoint req)
  then match Middleware.AuthMiddleware jwt_decode jwt_verify env
               (Authorization req) [] with
       | Middleware.Abort r => (r, db)
       | Middleware.Next c => handle env c (endpoint req) db
       end
  else handle env [] (endpoint req) db.

End WithLibraries.

End Routes.

(** ** The authorization policy of section 4.3, as the specification
    words it: "allow if actorRole == admin OR actorID == resourceOwnerID;
    deny otherwise". *)

Definition canMutate (actorID : uuid) (actorRole : gostring)
           (resourceOwnerID : uuid) : bool :=
  is_admin actorRole || (actorID =? resourceOwnerID)%N.

(** The permission error of the handlers. *)
Definition forbidden : Response :=
  JSON StatusForbidden (error_H "permission denied").

(** A handler run [r] on store [db] applies the policy decision [allowed]:
    it answers with the permission error exactly when the decision is to
    deny, and then leaves the store as it was. *)
Definition enforces (r : result) (db : Store.DB) (allowed : bool) : Prop :=
  (fst r = forbidden <-> allowed = false)
  /\ (allowed = false -> snd r = db).

(** The document does not carry a password anywhere. *)
Definition password_free (j : json) : Prop := json_mentions "password" j = false.

(** The role that a post's JSON document shows for its author. *)
Definition author_role (j : json) : option json :=
  match json_field "author" j with
  | Some a => json_field "role" a
  | None => None
  end.

(** The rows of the users table have the role they had, under the same
    primary key. *)
Definition roles_kept (before after : list User.t) : Prop :=
  forall u', In u' after ->
             exists u, In u before
                       /\ Store.id_of User.base u = Store.id_of User.base u'
                       /\ User.Role u = User.Role u'.

(** Every row of the users table has the role it had under the same
    primary key, or the default role [user]. *)
Definition roles_kept_or_default (before after : list User.t) : Prop :=
  forall u', In u' after ->
             (exists u, In u before
                        /\ Store.id_of User.base u = Store.id_of User.base u'
                        /\ User.Role u = User.Role u')
             \/ User.Role u' = str "user".

(** ** The publish timestamp of stored posts *)

(** The row of the posts table under a primary key, deleted or not. *)
Definition post_row (id : uuid) (db : Store.DB) : option Post.t :=
  List.find (Store.has_id Post.base id) (Store.posts db).

(** The primary-key constraint of the posts table. *)
Definition posts_pk (db : Store.DB) : Prop :=
  NoDup (List.map (Store.id_of Post.base) (Store.posts db)).

(** Every published post carries a publish timestamp. *)
Definition published_stamped (db : Store.DB) : Prop :=
  forall p, In p (Store.posts db) ->
            PostHandler.is_published (Post.Status p) = true ->
            Post.PublishedAt p <> None.

(** What one request may do to the timestamp of a stored post [p], which
    becomes [p']: a timestamp that is set stays; one that is not set stays
    unset or becomes the time of the request, on a change of status into
    [published]. *)
Definition timestamp_step (env : Env) (p p' : Post.t) : Prop :=
  Store.id_of Post.base p' = Store.id_of Post.base p
  /\ (forall t, Post.PublishedAt p = Some t -> Post.PublishedAt p' = Some t)
  /\ (Post.PublishedAt p = None ->
      Post.PublishedAt p' = None
      \/ (Post.PublishedAt p' = Some (time_Now env)
          /\ PostHandler.is_published (Post.Status p') = true
          /\ PostHandler.is_published (Post.Status p) = false))
  /\ (PostHandler.is_published (Post.Status p') = true ->
      Post.PublishedAt p' = None ->
      PostHandler.is_published (Post.Status p) = true
      /\ Post.PublishedAt p = None).

(** What one request may do to the posts table: every row takes a
    timestamp step, and at most one row is added, under a new key and
    stamped if and only if it is created as [published]. *)
Definition posts_step (env : Env) (before after : list Post.t) : Prop :=
  exists f created,
    after = List.map f before ++ created
    /\ (forall x, In x before -> timestamp_step env x (f x))
    /\ (created = []
        \/ exists p,
             created = [p]
             /\ existsb (Store.has_id Post.base (Store.id_of Post.base p)) before = false
             /\ Post.PublishedAt p
                = (if PostHandler.is_published (Post.Status p)
                   then Some (time_Now env) else None)).

(** ** Sample instances of the library functions and sample stores *)

Module Sample.

(** Case tables restricted to the two code points above ASCII whose
    lower case is an ASCII letter (KELVIN SIGN and I WITH DOT ABOVE). *)
Definition lower_nonascii (r : rune) : rune :=
  if r =? 8490 then 107 else if r =? 304 then 105 else r.

(** Identifiers written as one decimal digit. *)
Definition uuid_Parse (s : gostring) : option uuid :=
  match s with
  | [d] => if is_digit d then Some (Z.to_N (d - 48)) else None
  | _ => None
  end.

Definition HashPassword (p : gostring) : option gostring :=
  Some (str "$2a$14$" ++ p).

Definition is_email (s : gostring) : bool := existsb (fun r => r =? 64) s.

(** Tokens of four code points: user, role flag, expiry, signature. *)
Definition jwt_decode (tok : gostring) : option Auth.JWTClaim :=
  match tok with
  | [u; r; e; _] =>
      Some (Auth.mkClaim (Z.to_N u) (str "name") (str "name@example.org")
              (if r =? 1 then str "admin" else str "user")
              (Auth.mkRegistered (str "blog-api") (str "name") (Some e) None None))
  | _ => None
  end.

Definition jwt_verify (tok secret : gostring) : bool :=
  match tok with
  | [_; _; _; sg] => gostring_eqb [sg] secret
  | _ => false
  end.

Definition env : Env :=
  mkEnv (Some [115]) 1000 1001 1002 1003 (N.shiftl 3735928559 96) 9%N false.

Definition base (id : uuid) : Base.t := Base.mk id 10 10 None.

Definition alice : User.t :=
  User.mk (base 1%N) (str "alice") (str "alice@example.org") (str "$2a$14$hash")
          (str "Alice") (str "A") (str "user").
Definition bob : User.t :=
  User.mk (base 2%N) (str "bob") (str "bob@example.org") (str "$2a$14$hash2")
          (str "Bob") (str "B") (str "user").
Definition root : User.t :=
  User.mk (base 3%N) (str "root") (str "root@example.org") (str "$2a$14$hash3")
          (str "Root") (str "R") (str "admin").

Definition draft : Post.t :=
  Post.mk (base 4%N) (str "Draft") (str "text") (str "draft-post") 1%N User.zero
          (str "draft") None [] [].
Definition article : Post.t :=
  Post.mk (base 5%N) (str "Article") (str "text") (str "article") 1%N User.zero
          (str "published") (Some 20) [] [].
Definition other : Post.t :=
  Post.mk (base 6%N) (str "Other") (str "text") (str "other") 2%N User.zero
          (str "published") (Some 21) [] [].

Definition remark : Comment.t :=
  Comment.mk (base 7%N) (str "nice") 5%N 2%N User.zero None [].
Definition elsewhere : Comment.t :=
  Comment.mk (base 8%N) (str "hm") 6%N 1%N User.zero None [].

Definition db : Store.DB :=
  Store.mk [alice; bob; root] [draft; article; other] [] [remark; elsewhere] [].

(** The context that [AuthMiddleware] leaves for a user. *)
Definition ctx (id : uuid) (role : string) : Context :=
  Set_ "role" (AnyString (str role))
    (Set_ "email" (AnyString (str "name@example.org"))
       (Set_ "username" (AnyString (str "name"))
          (Set_ "userID" (AnyUUID id) []))).

(** A user update that also asks for the admin role. *)
Definition update : UpdateData.t :=
  UpdateData.mk (str "Bobby") [] [] (str "pass-2") (str "admin").

Definition registration : RegisterRequest.t :=
  RegisterRequest.mk (str "carol") (str "carol@example.org") (str "secret1")
                     (str "Carol") (str "C").

(** The Authorization header of a sample token that expires at 2000. *)
Definition token (user : Z) (admin : bool) : gostring :=
  str "Bearer " ++ [user; if admin then 1 else 0; 2000; 115].

(** Alice edits her published article, keeping it published. *)
Definition edit : Request :=
  mkRequest (token 1 false)
    (PUT_posts (str "5")
       (Some (PostRequest.mk (str "Article, revised") (str "text") []
                             (str "published") []))).

(** Alice withdraws her article; a post is published. *)
Definition withdraw : Request :=
  mkRequest (token 1 false)
    (PUT_posts (str "5")
       (Some (PostRequest.mk (str "Article") (str "text") [] (str "draft") []))).
Definition publish (id : string) : Request :=
  mkRequest (token 1 false)
    (PUT_posts (str id)
       (Some (PostRequest.mk (str "Title") (str "text") [] (str "published") []))).

Definition serve :=
  Routes.serve lower_nonascii uuid_Parse HashPassword is_email jwt_decode jwt_verify.

End Sample.

(** ** Categories ([api/handlers], the category handler) *)

Module CategoryRequest.
Record t := mk {
  Name : gostring;
  Slug : gostring }.
End CategoryRequest.

Module CategoryHandler.

Definition set_categories (v : list Category.t) (d : Store.DB) : Store.DB :=
  Store.mk (Store.users d) (Store.posts d) v (Store.comments d)
           (Store.post_categories d).

Definition category_set_base (v : Base.t) (c : Category.t) : Category.t :=
  Category.mk v (Category.Name c) (Category.Slug c).
Definition category_set_Name (v : gostring) (c : Category.t) : Category.t :=
  Category.mk (Category.base c) v (Category.Slug c).
Definition category_set_Slug (v : gostring) (c : Category.t) : Category.t :=
  Category.mk (Category.base c) (Category.Name c) v.

(** [Model(&category).Association("Posts").Clear()]: the rows of the join
    table that name the category are removed. *)
Definition association_Posts_Clear (cat_id : uuid) (d : Store.DB) : Store.DB :=
  Store.set_post_categories
    (List.filter (fun pc => negb (snd pc =? cat_id)%N) (Store.post_categories d)) d.

Section WithLibraries.
Variable lower_nonascii : rune -> rune.
Variable uuid_Parse : gostring -> option uuid.

Definition generateCategorySlug (title : gostring) : gostring :=
  let slug := Slug.strings_ToLower lower_nonascii title in
  let slug := Slug.replace_spaces slug in
  let slug := Slug.removeSpecialChars slug in
  let slug := Slug.collapse_loop slug in
  Slug.Trim slug.

(** [c.ShouldBindJSON(&req)] with the [binding] tags of
    [CategoryRequest]. *)
Definition bind_CategoryRequest (body : option CategoryRequest.t)
  : option CategoryRequest.t :=
  match body with
  | None => None
  | Some req => if nonempty (CategoryRequest.Name req) then Some req else None
  end.

(** The check that opens the three mutating handlers: the response that
    turns the caller away, if any. *)
Definition admin_only (c : Context) : option Response :=
  match Get "role" c with
  | None => Some (JSON StatusUnauthorized (error_H "unauthorized"))
  | Some (AnyString roleStr) =>
      if negb (is_admin roleStr)
      then Some (JSON StatusForbidden (error_H "permission denied"))
      else None
  | Some _ => Some (JSON StatusForbidden (error_H "permission denied"))
  end.

Definition slug_is (slug : gostring) (cat : Category.t) : bool :=
  gostring_eqb (Category.Slug cat) slug.

Definition with_suffix (env : Env) (slug : gostring) : gostring :=
  slug ++ str "-" ++ uuid_prefix8 (uuid_New env).

Definition CreateCategory (env : Env) (c : Context)
           (body : option CategoryRequest.t) (db : Store.DB) : result :=
  match admin_only c with
  | Some rejection => (rejection, db)
  | None =>
  match bind_CategoryRequest body with
  | None => (JSON StatusBadRequest (gin_H_err "bind"), db)
  | Some req =>
  let slug :=
    if negb (nonempty (CategoryRequest.Slug req))
    then generateCategorySlug (CategoryRequest.Name req)
    else generateCategorySlug (CategoryRequest.Slug req) in
  let slug :=
    match Store.First_category (slug_is slug) (Store.categories db) with
    | Some _ => with_suffix env slug
    | None => slug
    end in
  let category := Category.mk Base.zero (CategoryRequest.Name req) slug in
  match Store.Create Category.base category_set_base Store.same
          (store_refuses env) (hook_uuid env) (gorm_Now env)
          category (Store.categories db) with
  | None => (JSON StatusInternalServerError (error_H "failed to create category"), db)
  | Some (category, categories') =>
      (JSON StatusCreated (marshal_Category category),
       set_categories categories' db)
  end end end.

Definition GetAllCategories (db : Store.DB) : result :=
  let categories := Store.Find_category (fun _ => true) (Store.categories db) in
  (JSON StatusOK (JArray (List.map marshal_Category categories)), db).

Definition GetCategoryByID (id : gostring) (db : Store.DB) : result :=
  match uuid_Parse id with
  | None => (JSON StatusBadRequest (error_H "invalid category ID format"), db)
  | Some categoryUUID =>
      match Store.First_category (Store.has_id Category.base categoryUUID)
                                 (Store.categories db) with
      | None => (JSON StatusNotFound (error_H "category not found"), db)
      | Some category => (JSON StatusOK (marshal_Category category), db)
      end
  end.

Definition GetCategoryBySlug (slug : gostring) (db : Store.DB) : result :=
  match Store.First_category (slug_is slug) (Store.categories db) with
  | None => (JSON StatusNotFound (error_H "category not found"), db)
  | Some category => (JSON StatusOK (marshal_Category category), db)
  end.

Definition UpdateCategory (env : Env) (c : Context) (id : gostring)
           (body : option CategoryRequest.t) (db : Store.DB) : result :=
  match admin_only c with
  | Some rejection => (rejection, db)
  | None =>
  match uuid_Parse id with
  | None => (JSON StatusBadRequest (error_H "invalid category ID format"), db)
  | Some categoryUUID =>
  match Store.First_category (Store.has_id Category.base categoryUUID)
                             (Store.categories db) with
  | None => (JSON StatusNotFound (error_H "category not found"), db)
  | Some category =>
  match bind_CategoryRequest body with
  | None => (JSON StatusBadRequest (gin_H_err "bind"), db)
  | Some req =>
  let category :=
    if nonempty (CategoryRequest.Name req)
    then category_set_Name (CategoryRequest.Name req) category else category in
  let category :=
    if nonempty (CategoryRequest.Slug req)
    then category_set_Slug (generateCategorySlug (CategoryRequest.Slug req)) category
    else if nonempty (CategoryRequest.Name req)
         then category_set_Slug (generateCategorySlug (CategoryRequest.Name req))
                                category
         else category in
  let category :=
    match Store.First_category
            (fun x => slug_is (Category.Slug category) x
                      && negb (Store.has_id Category.base categoryUUID x))
            (Store.categories db) with
    | Some _ => category_set_Slug (with_suffix env (Category.Slug category)) category
    | None => category
    end in
  match Store.Save Category.base category_set_base Store.same
          (store_refuses env) (gorm_Now env) category (Store.categories db) with
  | None => (JSON StatusInternalServerError (error_H "failed to update category"), db)
  | Some (category, categories') =>
      (JSON StatusOK (marshal_Category category), set_categories categories' db)
  end end end end end.

(** The associations are cleared before the delete, whose failure does
    not bring them back. *)
Definition DeleteCategory (env : Env) (c : Context) (id : gostring)
           (db : Store.DB) : result :=
  match admin_only c with
  | Some rejection => (rejection, db)
  | None =>
  match uuid_Parse id with
  | None => (JSON StatusBadRequest (error_H "invalid category ID format"), db)
  | Some categoryUUID =>
  match Store.First_category (Store.has_id Category.base categoryUUID)
                             (Store.categories db) with
  | None => (JSON StatusNotFound (error_H "category not found"), db)
  | Some category =>
  let db := association_Posts_Clear (Store.id_of Category.base category) db in
  match Store.Delete Category.base category_set_base
          (store_refuses env) (gorm_Now env) category (Store.categories db) with
  | None => (JSON StatusInternalServerError (error_H "failed to delete category"), db)
  | Some categories' =>
      (JSON StatusOK (gin_H "message" "category deleted successfully"),
       set_categories categories' db)
  end end end end.

End WithLibraries.

End CategoryHandler.

(** ** The public list of posts ([PostHandler.GetAllPosts]) *)

Fixpoint digits_value (acc : Z) (s : gostring) : option Z :=
  match s with
  | [] => Some acc
  | d :: t => if is_digit d then digits_value (10 * acc + (d - 48)) t else None
  end.

(** [strconv.Atoi] with a 64-bit [int]: an optional sign and decimal
    digits; [None] is a syntax or range error. *)
Definition strconv_Atoi (s : gostring) : option Z :=
  let parse (neg : bool) (ds : gostring) : option Z :=
    match ds with
    | [] => None
    | _ =>
        match digits_value 0 ds with
        | None => None
        | Some v =>
            let v := if neg then - v else v in
            if (- 9223372036854775808 <=? v) && (v <=? 9223372036854775807)
            then Some v else None
        end
    end in
  match s with
  | [] => None
  | c :: t =>
      if c =? 45 then parse true t
      else if c =? 43 then parse false t
      else parse false s
  end.

Module PostList.

Section WithStore.
(** Whether [Limit(0)] writes [LIMIT 0] or no clause depends on the
    version of GORM; a negative limit and an offset that is not positive
    write no clause. *)
Variable limit_zero_applies : bool.

Definition db_Offset {A : Type} (offset : Z) (rows : list A) : list A :=
  if 0 <? offset then List.skipn (Z.to_nat offset) rows else rows.

Definition db_Limit {A : Type} (limit : Z) (rows : list A) : list A :=
  if 0 <? limit then List.firstn (Z.to_nat limit) rows
  else if (limit =? 0) && limit_zero_applies then [] else rows.

(** [pageQuery] and [limitQuery] are the results of [c.GetQuery], [None]
    when the parameter is absent; [status] is the result of [c.Query].
    The page stays 1 whatever [c.Get(pageQuery)] finds. *)
Definition GetAllPosts (c : Context) (pageQuery limitQuery : option gostring)
           (status : gostring) (db : Store.DB) : result :=
  let page := 1 in
  let page :=
    match pageQuery with
    | Some _ => 1
    | None => page
    end in
  let limit := 10 in
  let limit :=
    match limitQuery with
    | Some limitStr =>
        match strconv_Atoi limitStr with
        | Some limitVal => limitVal
        | None => limit
        end
    | None => limit
    end in
  let offset := (page - 1) * limit in
  let wanted := if nonempty status then status else str "published" in
  let posts :=
    List.map (PostHandler.preload_author_categories db)
      (db_Limit limit
         (db_Offset offset
            (Store.Find_post (fun p => gostring_eqb (Post.Status p) wanted)
                             (Store.posts db)))) in
  let posts := List.map PostHandler.clean_author posts in
  (JSON StatusOK (JArray (List.map marshal_Post posts)), db).

End WithStore.

End PostList.

(** ** Login and the issue of tokens *)

Module LoginRequest.
Record t := mk {
  Username : gostring;
  Password : gostring }.
End LoginRequest.

Definition marshal_TokenResponse (token tokenType : gostring) : json :=
  JObject [("token", JString token); ("token_type", JString tokenType)]%string.

(** Instants are counted in nanoseconds, the unit of [time.Duration]. *)
Definition time_Second : Z := 1000000000.
Definition time_Hour : Z := 3600 * time_Second.

Module Issue.

Section WithLibraries.
(** [jwt.NewNumericDate], which cuts the instant to the precision of
    the token library. *)
Variable NewNumericDate : time -> time.
(** [jwt.NewWithClaims(jwt.SigningMethodHS256, claims).SignedString(key)];
    [None] when it errors. *)
Variable jwt_sign : Auth.JWTClaim -> gostring -> option gostring.
(** [auth.CheckPasswordHash password hash]: bcrypt's comparison. *)
Variable CheckPasswordHash : gostring -> gostring -> bool.

(** The claims that [GenerateToken] signs; [now1], [now2], [now3] are
    the three readings of [time.Now()], in the order of the source. *)
Definition claims (now1 now2 now3 : time) (user : User.t) : Auth.JWTClaim :=
  let expirationTime := now1 + 24 * time_Hour in
  Auth.mkClaim (Base.ID (User.base user)) (User.Username user)
               (User.Email user) (User.Role user)
               (Auth.mkRegistered (str "blog-api") (User.Username user)
                  (Some (NewNumericDate expirationTime))
                  (Some (NewNumericDate now3))
                  (Some (NewNumericDate now2))).

Definition GenerateToken (now1 now2 now3 : time) (user : User.t)
           (jwtSecret : gostring) : option gostring :=
  jwt_sign (claims now1 now2 now3 user) jwtSecret.

(** [c.ShouldBindJSON(&req)] with the [binding] tags of [LoginRequest]. *)
Definition bind_LoginRequest (body : option LoginRequest.t)
  : option LoginRequest.t :=
  match body with
  | None => None
  | Some req =>
      if nonempty (LoginRequest.Username req) && nonempty (LoginRequest.Password req)
      then Some req else None
  end.

Definition Login (env : Env) (now1 now2 now3 : time)
           (body : option LoginRequest.t) (db : Store.DB) : result :=
  match bind_LoginRequest body with
  | None => (JSON StatusBadRequest (gin_H_err "bind"), db)
  | Some req =>
  match Store.First_user
          (fun u => gostring_eqb (User.Username u) (LoginRequest.Username req))
          (Store.users db) with
  | None => (JSON StatusUnauthorized (error_H "invalid credentials"), db)
  | Some user =>
  if negb (CheckPasswordHash (LoginRequest.Password req) (User.Password user))
  then (JSON StatusUnauthorized (error_H "invalid credentials"), db)
  else
  match config_JWTSecret env with
  | None => (JSON StatusInternalServerError (error_H "couldn't load config"), db)
  | Some secret =>
  match GenerateToken now1 now2 now3 user secret with
  | None => (JSON StatusInternalServerError (error_H "failed to generate token"), db)
  | Some token =>
      (JSON StatusOK (marshal_TokenResponse token (str "Bearer")), db)
  end end end end.

End WithLibraries.

End Issue.

(** ** Notions used by the further properties *)

(** Hyphens stand alone and inside: no two in a row, none at either end. *)
Definition well_hyphenated (slug : gostring) : Prop :=
  Slug.contains_dd slug = false
  /\ (forall a t, slug = a :: t -> is_hyphen a = false)
  /\ (forall t a, slug = t ++ [a] -> is_hyphen a = false).

(** A lower-cased code point that leaves something in the slug: a letter,
    a digit, or whitespace other than the space. *)
Definition leaves_a_mark (l : rune) : bool :=
  Slug.kept_by_regexp l && negb (is_hyphen l) && negb (l =? space).

(** The eight characters appended to a slug that is taken. *)
Definition is_lower_hex (r : rune) : bool :=
  is_digit r || ((97 <=? r) && (r <=? 102)).

(** The routes registered with the method GET. *)
Definition is_GET (e : Endpoint) : bool :=
  match e with
  | GET_users_me | GET_users | GET_posts_id _ | GET_posts_user _
  | GET_posts_slug _ | GET_posts_own | GET_comment_posts _ | GET_comment _ => true
  | _ => false
  end.

(** The context that [AuthMiddleware] hands to the next handler for the
    claims of a token. *)
Definition context_of (claims : Auth.JWTClaim) (c : Context) : Context :=
  Set_ "role" (AnyString (Auth.Role claims))
    (Set_ "email" (AnyString (Auth.Email claims))
       (Set_ "username" (AnyString (Auth.Username claims))
          (Set_ "userID" (AnyUUID (Auth.UserID claims)) c))).

Definition has_space (s : gostring) : bool := existsb (fun r => r =? space) s.


(** The answer of the category handlers to a caller who is not an
    administrator. *)
Definition not_admin_response (c : Context) : Response :=
  match Get "role" c with
  | None => JSON StatusUnauthorized (error_H "unauthorized")
  | Some _ => JSON StatusForbidden (error_H "permission denied")
  end.

Definition admin_context (c : Context) : bool :=
  match Get "role" c with
  | Some (AnyString roleStr) => is_admin roleStr
  | _ => false
  end.

(** A category that is in the store and not deleted. *)
Definition category_exists (id : uuid) (db : Store.DB) : Prop :=
  Store.First_category (Store.has_id Category.base id) (Store.categories db)
  <> None.

(** ** What one request may do to a table

    Every row is kept, as [kept] relates the row before and after, and at
    most one row is added, under a new key and as [added] allows. *)
Definition table_step {R : Type} (base : R -> Base.t)
           (kept : R -> R -> Prop) (added : R -> list R -> Prop)
           (before after : list R) : Prop :=
  exists f created,
    after = List.map f before ++ created
    /\ (forall x, In x before -> kept x (f x))
    /\ (created = []
        \/ exists p,
             created = [p]
             /\ existsb (Store.has_id base (Store.id_of base p)) before = false
             /\ added p before).

(** The primary-key constraint of the comments table. *)
Definition comments_pk (db : Store.DB) : Prop :=
  NoDup (List.map (Store.id_of Comment.base) (Store.comments db)).

(** The parent that a comment names is a comment of the rows, on the same
    post. *)
Definition parent_among (c : Comment.t) (rows : list Comment.t) : Prop :=
  forall parentID,
    Comment.ParentID c = Some parentID ->
    exists parent,
      In parent rows
      /\ Store.id_of Comment.base parent = parentID
      /\ Comment.PostID parent = Comment.PostID c.

(** Replies stay inside the thread of their post. *)
Definition replies_linked (db : Store.DB) : Prop :=
  forall c, In c (Store.comments db) -> parent_among c (Store.comments db).

(** What no request changes of a stored comment: its key, its post, its
    author, its parent and the time of its creation. *)
Definition comment_kept (x y : Comment.t) : Prop :=
  Store.id_of Comment.base y = Store.id_of Comment.base x
  /\ Comment.PostID y = Comment.PostID x
  /\ Comment.AuthorID y = Comment.AuthorID x
  /\ Comment.ParentID y = Comment.ParentID x
  /\ Base.CreatedAt (Comment.base y) = Base.CreatedAt (Comment.base x).

(** What no request changes of a stored post: its key, its author and
    the time of its creation. *)
Definition post_kept (x y : Post.t) : Prop :=
  Store.id_of Post.base y = Store.id_of Post.base x
  /\ Post.AuthorID y = Post.AuthorID x
  /\ Base.CreatedAt (Post.base y) = Base.CreatedAt (Post.base x).

(** The primary-key constraint of the users table. *)
Definition users_pk (db : Store.DB) : Prop :=
  NoDup (List.map (Store.id_of User.base) (Store.users db)).

(** What no request changes of a stored user: the key, the user name and
    the time of creation. *)
Definition user_kept (x y : User.t) : Prop :=
  Store.id_of User.base y = Store.id_of User.base x
  /\ User.Username y = User.Username x
  /\ Base.CreatedAt (User.base y) = Base.CreatedAt (User.base x).

(** ** Further sample data *)

Module Fixture.

Definition tech : Category.t :=
  Category.mk (Sample.base 9%N) (str "Tech") (str "tech").

(** The sample store with a category that the published article of
    Alice belongs to. *)
Definition db : Store.DB :=
  Store.mk (Store.users Sample.db) (Store.posts Sample.db) [tech]
           (Store.comments Sample.db) [(5%N, 9%N)].

(** An environment whose store refuses the checked write. *)
Definition refusing : Env :=
  mkEnv (Some [115]) 1000 1001 1002 1003 (N.shiftl 3735928559 96) 9%N true.

(** Instants cut to whole seconds. *)
Definition NewNumericDate (t : time) : time := t / time_Second * time_Second.

(** A password matches the hash that [Sample.HashPassword] gives it. *)
Definition CheckPasswordHash (password hash : gostring) : bool :=
  gostring_eqb hash (str "$2a$14$" ++ password).

(** One ticket, for the claims of Alice issued at the instants 100, 101
    and 102. *)
Definition ticket : gostring := [7; 7; 7].
Definition alice_claims : Auth.JWTClaim :=
  Issue.claims NewNumericDate 100 101 102 Sample.alice.
Definition jwt_sign (claims : Auth.JWTClaim) (secret : gostring)
  : option gostring := Some ticket.
Definition jwt_decode (tok : gostring) : option Auth.JWTClaim :=
  if gostring_eqb tok ticket then Some alice_claims else None.
Definition jwt_verify (tok secret : gostring) : bool := gostring_eqb secret [115].

Definition credentials (username password : string) : LoginRequest.t :=
  LoginRequest.mk (str username) (str password).

(** Alice's article again, now in the category. *)
Definition recategorize : PostRequest.t :=
  PostRequest.mk (str "Article") (str "text") [] [] [9%N; 3%N].

Definition reply : CommentRequest.t :=
  CommentRequest.mk (str "thanks") (Some 7%N).

End Fixture.

(** * Properties *)

(** ** Slug generation *)

Section SlugFacts.

Import Slug SlugSpec.

Variable lower_nonascii : rune -> rune.

Hypothesis lower_tables : lower_tables_ok lower_nonascii.

Lemma hcons_hyphen_twice (s : gostring) :
  hcons hyphen (hcons hyphen s) = hcons hyphen s.
Proof.
  destruct s as [|b t]; [reflexivity|].
  cbn [hcons]. destruct (is_hyphen b) eqn:E.
  - change (is_hyphen hyphen) with true. cbn [andb]. cbn [hcons]. rewrite E. reflexivity.
  - change (is_hyphen hyphen) with true. cbn [andb]. reflexivity.
Qed.

Lemma is_hyphen_eq (a : rune) : is_hyphen a = true -> a = hyphen.
Proof. unfold is_hyphen. intro H. apply Z.eqb_eq in H. exact H. Qed.

Lemma squeeze_fixed (s : gostring) :
  contains_dd s = false -> squeeze s = s.
Proof.
  induction s as [|a r IH]; [reflexivity|].
  destruct r as [|b t]; [reflexivity|].
  rewrite contains_dd_cons2. intro H.
  apply orb_false_iff in H. destruct H as [H1 H2].
  cbn [squeeze] in *. rewrite (IH H2).
  cbn [hcons]. rewrite H1. reflexivity.
Qed.

Lemma squeeze_replace_dd (n : nat) :
  forall s, (List.length s <= n)%nat -> squeeze (replace_dd s) = squeeze s.
Proof.
  induction n as [|n IH]; intros s Hn.
  - destruct s; [reflexivity | cbn [List.length] in Hn; lia].
  - destruct s as [|a [|b t]]; [reflexivity | reflexivity |].
    rewrite replace_dd_cons2.
    destruct (is_hyphen a && is_hyphen b) eqn:E.
    + apply andb_true_iff in E. destruct E as [Ea Eb].
      apply is_hyphen_eq in Ea, Eb. subst a b.
      cbn [squeeze]. rewrite (IH t) by (cbn [List.length] in Hn; lia).
      symmetry. apply hcons_hyphen_twice.
    + change (squeeze (a :: replace_dd (b :: t)))
        with (hcons a (squeeze (replace_dd (b :: t)))).
      rewrite (IH (b :: t)) by (cbn [List.length] in *; lia).
      reflexivity.
Qed.

Lemma collapse_loop_squeeze (s : gostring) : collapse_loop s = squeeze s.
Proof.
  funelim (collapse_loop s).
  - rewrite H. apply (squeeze_replace_dd (List.length s)). apply le_n.
  - symmetry. apply squeeze_fixed. assumption.
Qed.

(** *** What survives the pipeline *)

Lemma lowered_not_upper (r : rune) : is_upper (unicode_ToLower lower_nonascii r) = false.
Proof.
  unfold unicode_ToLower.
  destruct (r <=? 127) eqn:E.
  - destruct (is_upper r) eqn:U; [|exact U].
    unfold is_upper in *. lia.
  - apply Z.leb_gt in E. destruct (lower_tables r) as [H|H]; [lia| |].
    + unfold is_upper. lia.
    + unfold is_upper, is_lower in *. lia.
Qed.


Lemma kept_after_replace (l : rune) :
  is_upper l = false ->
  kept_by_regexp (if l =? space then hyphen else l) = true ->
  slug_char (if l =? space then hyphen else l) = true.
Proof.
  unfold kept_by_regexp, slug_char, in_slug_alphabet, is_kept_space,
    is_perl_space, is_lower, is_upper, is_digit, is_hyphen, hyphen, space.
  intros U K. destruct (l =? 32) eqn:E; lia.
Qed.

Lemma stripped_slug_chars (x : gostring) :
  Forall (fun r => slug_char r = true)
         (removeSpecialChars (replace_spaces (strings_ToLower lower_nonascii x))).
Proof.
  unfold removeSpecialChars, replace_spaces, strings_ToLower.
  rewrite List.map_map. induction x as [|a t IH]; cbn [List.map List.filter].
  - constructor.
  - destruct (kept_by_regexp _) eqn:K; [|exact IH].
    constructor; [|exact IH].
    apply kept_after_replace; [apply lowered_not_upper | exact K].
Qed.

Lemma Forall_hcons (P : rune -> Prop) (a : rune) (s : gostring) :
  P a -> Forall P s -> Forall P (hcons a s).
Proof.
  intros Ha Hs. destruct s as [|b t]; cbn [hcons]; [auto|].
  destruct (is_hyphen a && is_hyphen b); auto.
Qed.

Lemma Forall_squeeze (P : rune -> Prop) (s : gostring) :
  Forall P s -> Forall P (squeeze s).
Proof.
  induction 1; cbn [squeeze]; [constructor | apply Forall_hcons; assumption].
Qed.

Lemma Forall_TrimLeft (P : rune -> Prop) (s : gostring) :
  Forall P s -> Forall P (TrimLeft s).
Proof.
  induction 1 as [|a t Ha Ht IH]; cbn [TrimLeft]; [constructor|].
  destruct (is_hyphen a); auto.
Qed.

Lemma Forall_TrimRight (P : rune -> Prop) (s : gostring) :
  Forall P s -> Forall P (TrimRight s).
Proof.
  induction 1 as [|a t Ha Ht IH]; cbn [TrimRight]; [constructor|].
  destruct (TrimRight t) eqn:E.
  - destruct (is_hyphen a); auto.
  - auto.
Qed.

Lemma Forall_Trim (P : rune -> Prop) (s : gostring) :
  Forall P s -> Forall P (Trim s).
Proof. intro H. apply Forall_TrimRight, Forall_TrimLeft, H. Qed.

Lemma generateSlug_slug_chars (x : gostring) :
  Forall (fun r => slug_char r = true) (generateSlug lower_nonascii x).
Proof.
  unfold generateSlug. apply Forall_Trim.
  rewrite collapse_loop_squeeze. apply Forall_squeeze, stripped_slug_chars.
Qed.

(** *** The slug is a fixed point of every stage *)

Lemma contains_dd_collapse (s : gostring) : contains_dd (collapse_loop s) = false.
Proof. funelim (collapse_loop s); assumption. Qed.

Lemma contains_dd_tail (a : rune) (s : gostring) :
  contains_dd (a :: s) = false -> contains_dd s = false.
Proof.
  destruct s as [|b t]; [reflexivity|].
  rewrite contains_dd_cons2. intro H. apply orb_false_iff in H. apply H.
Qed.

Lemma contains_dd_TrimLeft (s : gostring) :
  contains_dd s = false -> contains_dd (TrimLeft s) = false.
Proof.
  induction s as [|a t IH]; [reflexivity|].
  intro H. cbn [TrimLeft]. destruct (is_hyphen a); [|exact H].
  apply IH. apply (contains_dd_tail a). exact H.
Qed.

Lemma TrimRight_head (a : rune) (t : gostring) :
  TrimRight (a :: t) = [] \/ exists t', TrimRight (a :: t) = a :: t'.
Proof.
  cbn [TrimRight]. destruct (TrimRight t) as [|b r].
  - destruct (is_hyphen a); eauto.
  - eauto.
Qed.

Lemma contains_dd_TrimRight (s : gostring) :
  contains_dd s = false -> contains_dd (TrimRight s) = false.
Proof.
  induction s as [|a t IH]; [reflexivity|].
  intro H. pose proof (contains_dd_tail _ _ H) as Ht. specialize (IH Ht).
  cbn [TrimRight]. destruct (TrimRight t) as [|b r] eqn:E.
  - destruct (is_hyphen a); reflexivity.
  - destruct t as [|b' t']; [discriminate|].
    destruct (TrimRight_head b' t') as [E'|[r' E']]; rewrite E' in E;
      [discriminate|]. injection E as -> ->.
    rewrite contains_dd_cons2 in *. apply orb_false_iff in H.
    destruct H as [H1 _]. rewrite H1. exact IH.
Qed.

Lemma TrimRight_idem (s : gostring) : TrimRight (TrimRight s) = TrimRight s.
Proof.
  induction s as [|a t IH]; [reflexivity|].
  cbn [TrimRight]. destruct (TrimRight t) as [|b r] eqn:E.
  - destruct (is_hyphen a) eqn:Ha; [reflexivity|].
    cbn [TrimRight]. rewrite Ha. reflexivity.
  - change (TrimRight (a :: b :: r))
      with (match TrimRight (b :: r) with
            | [] => if is_hyphen a then [] else [a]
            | r' => a :: r' end).
    rewrite IH. reflexivity.
Qed.

Lemma TrimLeft_fixed (s : gostring) :
  match s with [] => True | a :: _ => is_hyphen a = false end ->
  TrimLeft s = s.
Proof. destruct s as [|a t]; [reflexivity|]. cbn [TrimLeft]. intros ->. reflexivity. Qed.

Lemma TrimLeft_head (s : gostring) :
  match TrimLeft s with [] => True | a :: _ => is_hyphen a = false end.
Proof.
  induction s as [|a t IH]; [exact I|].
  cbn [TrimLeft]. destruct (is_hyphen a) eqn:E; [exact IH | exact E].
Qed.

Lemma Trim_head (s : gostring) :
  match Trim s with [] => True | a :: _ => is_hyphen a = false end.
Proof.
  unfold Trim. pose proof (TrimLeft_head s) as H.
  destruct (TrimLeft s) as [|a t]; [exact I|].
  destruct (TrimRight_head a t) as [E|[t' E]]; rewrite E; [exact I | exact H].
Qed.

Lemma Trim_idem (s : gostring) : Trim (Trim s) = Trim s.
Proof.
  unfold Trim at 1. rewrite (TrimLeft_fixed (Trim s) (Trim_head s)).
  unfold Trim. apply TrimRight_idem.
Qed.

Lemma slug_char_fixed_by_lower (s : gostring) :
  Forall (fun r => slug_char r = true) s -> strings_ToLower lower_nonascii s = s.
Proof.
  induction 1 as [|a t Ha Ht IH]; [reflexivity|].
  unfold strings_ToLower in *. cbn [List.map]. rewrite IH. f_equal.
  unfold unicode_ToLower, slug_char, in_slug_alphabet, is_kept_space, is_lower,
    is_digit, is_hyphen, hyphen, is_upper in *.
  destruct (a <=? 127) eqn:E; [|lia].
  destruct ((65 <=? a) && (a <=? 90)) eqn:U; [lia | reflexivity].
Qed.

Lemma slug_char_fixed_by_replace (s : gostring) :
  Forall (fun r => slug_char r = true) s -> replace_spaces s = s.
Proof.
  induction 1 as [|a t Ha Ht IH]; [reflexivity|].
  unfold replace_spaces in *. cbn [List.map]. rewrite IH. f_equal.
  unfold slug_char, in_slug_alphabet, is_kept_space, is_lower,
    is_digit, is_hyphen, hyphen, space in *.
  destruct (a =? 32) eqn:E; [lia | reflexivity].
Qed.

Lemma slug_char_fixed_by_regexp (s : gostring) :
  Forall (fun r => slug_char r = true) s -> removeSpecialChars s = s.
Proof.
  induction 1 as [|a t Ha Ht IH]; [reflexivity|].
  unfold removeSpecialChars in *. cbn [List.filter]. rewrite IH.
  replace (kept_by_regexp a) with true; [reflexivity|].
  unfold kept_by_regexp, slug_char, in_slug_alphabet, is_kept_space, is_perl_space,
    is_lower, is_upper, is_digit, is_hyphen, hyphen in *. lia.
Qed.

Lemma generateSlug_no_double_hyphen (x : gostring) :
  contains_dd (generateSlug lower_nonascii x) = false.
Proof.
  unfold generateSlug, Trim.
  apply contains_dd_TrimRight, contains_dd_TrimLeft, contains_dd_collapse.
Qed.

(** *** Agreement with the specification's pipeline *)








(** C9: slugify is idempotent: for every input text x,
    slugify(slugify(x)) equals slugify(x). *)
Theorem C9_generateSlug_idempotent (x : gostring) :
  generateSlug lower_nonascii (generateSlug lower_nonascii x)
  = generateSlug lower_nonascii x.
Proof.
  pose proof (generateSlug_slug_chars x) as Hc.
  pose proof (generateSlug_no_double_hyphen x) as Hd.
  set (y := generateSlug lower_nonascii x) in *.
  assert (Trim y = y) as Ht by (subst y; unfold generateSlug; apply Trim_idem).
  unfold generateSlug at 1.
  rewrite (slug_char_fixed_by_lower y Hc), (slug_char_fixed_by_replace y Hc),
    (slug_char_fixed_by_regexp y Hc), collapse_loop_squeeze,
    (squeeze_fixed y Hd).
  exact Ht.
Qed.

End SlugFacts.

Lemma sample_lower_tables_ok : SlugSpec.lower_tables_ok Sample.lower_nonascii.
Proof.
  intros r Hr. unfold Sample.lower_nonascii, is_lower.
  destruct (r =? 8490) eqn:E1; [right; reflexivity|].
  destruct (r =? 304) eqn:E2; [right; reflexivity|].
  left. exact Hr.
Qed.



Lemma C9_generateSlug_idempotent_witness :
  SlugSpec.lower_tables_ok Sample.lower_nonascii
  /\ Slug.generateSlug Sample.lower_nonascii
       (Slug.generateSlug Sample.lower_nonascii (str " --Hello,  World! 2024- "))
     = Slug.generateSlug Sample.lower_nonascii (str " --Hello,  World! 2024- ").
Proof.
  split; [exact sample_lower_tables_ok|].
  apply (C9_generateSlug_idempotent Sample.lower_nonascii sample_lower_tables_ok).
Defined.

(** ** Token validation *)

Section TokenFacts.

Variable jwt_decode : gostring -> option Auth.JWTClaim.
Variable jwt_verify : gostring -> gostring -> bool.

Lemma strings_Split_nonempty (s : gostring) : strings_Split s <> [].
Proof.
  destruct s as [|r t]; cbn [strings_Split]; [discriminate|].
  destruct (r =? space); [discriminate|].
  destruct (strings_Split t); discriminate.
Qed.

Lemma strings_Split_single (s p : gostring) : strings_Split s = [p] -> p = s.
Proof.
  revert p. induction s as [|r t IH]; intros p; cbn [strings_Split].
  - intro H. injection H as <-. reflexivity.
  - destruct (r =? space).
    + intro H. injection H as _ H. exfalso. exact (strings_Split_nonempty t H).
    + destruct (strings_Split t) as [|q qs] eqn:E.
      * exfalso. exact (strings_Split_nonempty t E).
      * intro H. injection H as <- ->. f_equal. apply IH. reflexivity.
Qed.

Lemma strings_Split_Bearer (tok : gostring) :
  exists q qs, strings_Split tok = q :: qs
               /\ strings_Split (str "Bearer " ++ tok) = str "Bearer" :: q :: qs.
Proof.
  destruct (strings_Split tok) as [|q qs] eqn:E.
  - exfalso. exact (strings_Split_nonempty tok E).
  - exists q, qs. split; [reflexivity|].
    change (str "Bearer " ++ tok)
      with (66 :: 101 :: 97 :: 114 :: 101 :: 114 :: 32 :: tok).
    cbn [strings_Split]. change (32 =? space) with true.
    change (66 =? space) with false. change (101 =? space) with false.
    change (97 =? space) with false. change (114 =? space) with false.
    cbv iota. rewrite E. reflexivity.
Qed.

Lemma ValidateToken_rejects (tok secret : gostring) (t_lib t_now : time) :
  jwt_decode tok = None
  \/ jwt_verify tok secret = false
  \/ (exists c e, jwt_decode tok = Some c
                  /\ Auth.ExpiresAt (Auth.Registered c) = Some e
                  /\ (e <= t_lib \/ e < t_now)) ->
  exists err, Auth.ValidateToken jwt_decode jwt_verify tok secret t_lib t_now
              = Auth.Err err.
Proof.
  unfold Auth.ValidateToken, Auth.ParseWithClaims.
  intros [H | [H | (c & e & Hd & He & Ht)]].
  - rewrite H. eauto.
  - destruct (jwt_decode tok) as [c|]; [|eauto].
    rewrite H. cbn [negb]. rewrite !orb_true_r. eauto.
  - rewrite Hd. unfold Auth.expired. rewrite He.
    destruct (negb (t_lib <? e) || _ || _ || _) eqn:E; [eauto|].
    rewrite He. destruct (e <? t_now) eqn:L; [eauto|].
    exfalso. apply orb_false_iff in E. destruct E as [E _].
    apply orb_false_iff in E. destruct E as [E _].
    apply orb_false_iff in E. destruct E as [E _].
    apply negb_false_iff in E. lia.
Qed.

(** C8: for every signed token, validation fails with an authentication
    error whenever the signature is invalid, the token structure is
    unparseable, or the token's expiry timestamp is at or before the
    validation time (the instant [t_lib] at which validation reads the
    clock); in particular a token validated exactly at its expiry instant,
    or any time after it, is rejected. The authentication middleware then
    answers 401 and the handler does not run. *)
Theorem C8_invalid_or_expired_token_rejected
        (tok secret : gostring) (t_lib t_now : time) :
  jwt_decode tok = None
  \/ jwt_verify tok secret = false
  \/ (exists c e, jwt_decode tok = Some c
                  /\ Auth.ExpiresAt (Auth.Registered c) = Some e
                  /\ (e <= t_lib \/ e < t_now)) ->
  (exists err, Auth.ValidateToken jwt_decode jwt_verify tok secret t_lib t_now
               = Auth.Err err)
  /\ (forall env c,
        config_JWTSecret env = Some secret ->
        jwt_TimeFunc env = t_lib -> auth_Now env = t_now ->
        exists body,
          Middleware.AuthMiddleware jwt_decode jwt_verify env
                                    (str "Bearer " ++ tok) c
          = Middleware.Abort (JSON StatusUnauthorized body)).
Proof.
  intro H. pose proof (ValidateToken_rejects tok secret t_lib t_now H) as [err Herr].
  split; [eauto|].
  intros env c Hs Hl Hn. unfold Middleware.AuthMiddleware. rewrite Hs.
  change (gostring_eqb (str "Bearer " ++ tok) []) with false. cbv iota.
  destruct (strings_Split_Bearer tok) as (q & qs & Hq & ->).
  destruct qs as [|q' qs']; [|eauto].
  change (negb (gostring_eqb (str "Bearer") (str "Bearer"))) with false. cbv iota.
  apply strings_Split_single in Hq. subst q.
  rewrite Hl, Hn, Herr. destruct err; eauto.
Qed.

(** A request passes the middleware only with a token that validates; the
    handler then finds the identity and the role of the token's claims in
    the context. *)
Lemma AuthMiddleware_Next env header c c' :
  Middleware.AuthMiddleware jwt_decode jwt_verify env header c = Middleware.Next c' ->
  exists tok secret claims,
    Auth.ValidateToken jwt_decode jwt_verify tok secret
                       (jwt_TimeFunc env) (auth_Now env) = Auth.Ok claims
    /\ Get "userID" c' = Some (AnyUUID (Auth.UserID claims))
    /\ Get "role" c' = Some (AnyString (Auth.Role claims)).
Proof.
  unfold Middleware.AuthMiddleware.
  destruct (config_JWTSecret env) as [secret|]; [|discriminate].
  destruct (gostring_eqb header []); [discriminate|].
  destruct (strings_Split header) as [|p0 [|p1 [|p2 ps]]]; try discriminate.
  destruct (negb _); [discriminate|].
  destruct (Auth.ValidateToken _ _ p1 secret _ _) as [claims|err|] eqn:E;
    [|destruct err; discriminate|discriminate].
  intro H. injection H as <-. exists p1, secret, claims.
  split; [exact E|]. split; reflexivity.
Qed.

End TokenFacts.

Lemma C8_invalid_or_expired_token_rejected_witness :
  (exists c e, Sample.jwt_decode [1; 0; 1000; 115] = Some c
               /\ Auth.ExpiresAt (Auth.Registered c) = Some e
               /\ (e <= 1000 \/ e < 1001))
  /\ (exists err, Auth.ValidateToken Sample.jwt_decode Sample.jwt_verify
                                     [1; 0; 1000; 115] [115] 1000 1001
                  = Auth.Err err)
  /\ Sample.jwt_verify [1; 0; 1000; 115] [115] = true.
Proof.
  assert (exists c e, Sample.jwt_decode [1; 0; 1000; 115] = Some c
                      /\ Auth.ExpiresAt (Auth.Registered c) = Some e
                      /\ (e <= 1000 \/ e < 1001)) as H.
  { eexists. exists 1000. split; [reflexivity|]. split; [reflexivity|]. left. lia. }
  split; [exact H|]. split; [|reflexivity].
  exact (proj1 (C8_invalid_or_expired_token_rejected
                  Sample.jwt_decode Sample.jwt_verify
                  [1; 0; 1000; 115] [115] 1000 1001 (or_intror (or_intror H)))).
Defined.

(** ** Authorization of the mutating handlers *)

(** Follow the control flow of a handler down to the status it answers
    with. *)
Ltac follow_status :=
  repeat (cbn [fst snd status body JSON];
          match goal with
          | |- context [match ?x with _ => _ end] => destruct x
          end);
  cbn [fst snd status body JSON].

Ltac not_forbidden :=
  let E := fresh "E" in
  intro E; apply (f_equal status) in E; revert E;
  follow_status; unfold forbidden; cbn [status JSON]; discriminate.

Lemma denied_canMutate (actor : uuid) (role : gostring) (owner : uuid) :
  denied (AnyUUID actor) (AnyString role) owner = negb (canMutate actor role owner).
Proof.
  unfold denied, canMutate. rewrite negb_orb, (N.eqb_sym actor owner).
  apply andb_comm.
Qed.

Section AuthorizationFacts.

Variable lower_nonascii : rune -> rune.
Variable uuid_Parse : gostring -> option uuid.
Variable HashPassword : gostring -> option gostring.

Variables (env : Env) (c : Context) (actor : uuid) (role : gostring).
Hypothesis actor_id : Get "userID" c = Some (AnyUUID actor).
Hypothesis actor_role : Get "role" c = Some (AnyString role).

Lemma UpdatePost_enforces id body db postUUID post :
  uuid_Parse id = Some postUUID ->
  Store.First_post (Store.has_id Post.base postUUID) (Store.posts db) = Some post ->
  enforces (PostHandler.UpdatePost lower_nonascii uuid_Parse env c id body db) db
           (canMutate actor role (Post.AuthorID post)).
Proof.
  intros Hp Hf. unfold enforces, PostHandler.UpdatePost.
  rewrite Hp, Hf, actor_id, actor_role, denied_canMutate.
  destruct (canMutate actor role (Post.AuthorID post)); cbn [negb].
  - split; [split; [not_forbidden | discriminate] | discriminate].
  - split; [split; reflexivity | reflexivity].
Qed.

Lemma DeletePost_enforces id db postUUID post :
  uuid_Parse id = Some postUUID ->
  Store.First_post (Store.has_id Post.base postUUID) (Store.posts db) = Some post ->
  enforces (PostHandler.DeletePost uuid_Parse env c id db) db
           (canMutate actor role (Post.AuthorID post)).
Proof.
  intros Hp Hf. unfold enforces, PostHandler.DeletePost.
  rewrite Hp, Hf, actor_id, actor_role, denied_canMutate.
  destruct (canMutate actor role (Post.AuthorID post)); cbn [negb].
  - split; [split; [not_forbidden | discriminate] | discriminate].
  - split; [split; reflexivity | reflexivity].
Qed.

Lemma UpdateComment_enforces id body db commentUUID comment :
  uuid_Parse id = Some commentUUID ->
  CommentHandler.comment_by_id commentUUID db = Some comment ->
  enforces (CommentHandler.UpdateComment uuid_Parse env c id body db) db
           (canMutate actor role (Comment.AuthorID comment)).
Proof.
  intros Hp Hf. unfold enforces, CommentHandler.UpdateComment.
  rewrite Hp, Hf, actor_id, actor_role.
  change (Comment.AuthorID (CommentHandler.preload_author db comment))
    with (Comment.AuthorID comment).
  rewrite denied_canMutate.
  destruct (canMutate actor role (Comment.AuthorID comment)); cbn [negb].
  - split; [split; [not_forbidden | discriminate] | discriminate].
  - split; [split; reflexivity | reflexivity].
Qed.

Lemma DeleteComment_enforces id db commentUUID comment :
  uuid_Parse id = Some commentUUID ->
  CommentHandler.comment_by_id commentUUID db = Some comment ->
  enforces (CommentHandler.DeleteComment uuid_Parse env c id db) db
           (canMutate actor role (Comment.AuthorID comment)).
Proof.
  intros Hp Hf. unfold enforces, CommentHandler.DeleteComment.
  rewrite Hp, Hf, actor_id, actor_role, denied_canMutate.
  destruct (canMutate actor role (Comment.AuthorID comment)); cbn [negb].
  - split; [split; [not_forbidden | discriminate] | discriminate].
  - split; [split; reflexivity | reflexivity].
Qed.

Lemma user_gate (userUUID : uuid) :
  negb (userUUID =? actor)%N && negb (is_admin (UserHandler.role_or_empty c))
  = negb (canMutate actor role userUUID).
Proof.
  unfold UserHandler.role_or_empty. rewrite actor_role.
  apply (denied_canMutate actor role userUUID).
Qed.

Lemma UpdateUser_enforces id body db userUUID :
  uuid_Parse id = Some userUUID ->
  enforces (UserHandler.UpdateUser uuid_Parse HashPassword env c id body db) db
           (canMutate actor role userUUID).
Proof.
  intros Hp. unfold enforces, UserHandler.UpdateUser.
  rewrite actor_id, Hp, user_gate.
  destruct (canMutate actor role userUUID); cbn [negb].
  - split; [split; [not_forbidden | discriminate] | discriminate].
  - split; [split; reflexivity | reflexivity].
Qed.

Lemma DeleteUser_enforces id db userUUID :
  uuid_Parse id = Some userUUID ->
  enforces (UserHandler.DeleteUser uuid_Parse env c id db) db
           (canMutate actor role userUUID).
Proof.
  intros Hp. unfold enforces, UserHandler.DeleteUser.
  rewrite actor_id, Hp, user_gate.
  destruct (canMutate actor role userUUID); cbn [negb].
  - split; [split; [not_forbidden | discriminate] | discriminate].
  - split; [split; reflexivity | reflexivity].
Qed.

(** C1: for every mutating request on a post (update, delete), a comment
    (update, delete), or a user profile (update, delete), made by an
    authenticated actor on an existing resource, the operation is
    permitted if and only if the actor's role is admin or the actor's ID
    equals the resource owner's (author's) ID; every other combination of
    role and ownership is denied with the permission error (403
    "permission denied"), and the store is left as it was. *)
Theorem C1_mutation_permitted_iff_admin_or_owner :
  (forall id body db postUUID post,
      uuid_Parse id = Some postUUID ->
      Store.First_post (Store.has_id Post.base postUUID) (Store.posts db) = Some post ->
      enforces (PostHandler.UpdatePost lower_nonascii uuid_Parse env c id body db) db
               (canMutate actor role (Post.AuthorID post))
      /\ enforces (PostHandler.DeletePost uuid_Parse env c id db) db
                  (canMutate actor role (Post.AuthorID post)))
  /\ (forall id body db commentUUID comment,
         uuid_Parse id = Some commentUUID ->
         CommentHandler.comment_by_id commentUUID db = Some comment ->
         enforces (CommentHandler.UpdateComment uuid_Parse env c id body db) db
                  (canMutate actor role (Comment.AuthorID comment))
         /\ enforces (CommentHandler.DeleteComment uuid_Parse env c id db) db
                     (canMutate actor role (Comment.AuthorID comment)))
  /\ (forall id body db userUUID,
         uuid_Parse id = Some userUUID ->
         enforces (UserHandler.UpdateUser uuid_Parse HashPassword env c id body db) db
                  (canMutate actor role userUUID)
         /\ enforces (UserHandler.DeleteUser uuid_Parse env c id db) db
                     (canMutate actor role userUUID)).
Proof.
  split; [|split].
  - intros. split; [eapply UpdatePost_enforces | eapply DeletePost_enforces]; eassumption.
  - intros. split; [eapply UpdateComment_enforces | eapply DeleteComment_enforces];
      eassumption.
  - intros. split; [eapply UpdateUser_enforces | eapply DeleteUser_enforces];
      eassumption.
Qed.

End AuthorizationFacts.

Lemma C1_mutation_permitted_iff_admin_or_owner_witness :
  Get "userID" (Sample.ctx 2%N "user") = Some (AnyUUID 2%N)
  /\ Get "role" (Sample.ctx 2%N "user") = Some (AnyString (str "user"))
  /\ enforces (PostHandler.DeletePost Sample.uuid_Parse Sample.env
                 (Sample.ctx 2%N "user") (str "5") Sample.db) Sample.db false
  /\ enforces (PostHandler.DeletePost Sample.uuid_Parse Sample.env
                 (Sample.ctx 2%N "user") (str "6") Sample.db) Sample.db true.
Proof.
  pose (T := C1_mutation_permitted_iff_admin_or_owner
               Sample.lower_nonascii Sample.uuid_Parse Sample.HashPassword
               Sample.env (Sample.ctx 2%N "user") 2%N (str "user") eq_refl eq_refl).
  split; [reflexivity|]. split; [reflexivity|]. split.
  - exact (proj2 (proj1 T (str "5") None Sample.db 5%N Sample.article eq_refl eq_refl)).
  - exact (proj2 (proj1 T (str "6") None Sample.db 6%N Sample.other eq_refl eq_refl)).
Defined.

(** ** Visibility of unpublished posts *)

Lemma GetPostByID_unpublished_not_found uuid_Parse id db postUUID post :
  uuid_Parse id = Some postUUID ->
  Store.First_post (Store.has_id Post.base postUUID) (Store.posts db) = Some post ->
  PostHandler.is_published (Post.Status post) = false ->
  PostHandler.GetPostByID uuid_Parse id db
  = (JSON StatusNotFound (error_H "post not published yet from author"), db).
Proof.
  intros Hp Hf Hs. unfold PostHandler.GetPostByID. rewrite Hp, Hf.
  change (Post.Status (PostHandler.preload_all db post)) with (Post.Status post).
  rewrite Hs. reflexivity.
Qed.

Lemma GetPostBySlug_any_status slug db post :
  Store.First_post (PostHandler.slug_is slug) (Store.posts db) = Some post ->
  status (fst (PostHandler.GetPostBySlug slug db)) = StatusOK
  /\ json_field "status" (body (fst (PostHandler.GetPostBySlug slug db)))
     = Some (JString (Post.Status post)).
Proof.
  intro Hf. unfold PostHandler.GetPostBySlug. rewrite Hf. split; reflexivity.
Qed.

(** C2 (the code at the failing input): a draft is hidden by the read by
    ID, which answers not-found, but the read by slug serves it with
    status 200. *)
Theorem C2_GetPostBySlug_serves_draft :
  PostHandler.GetPostByID Sample.uuid_Parse (str "4") Sample.db
  = (JSON StatusNotFound (error_H "post not published yet from author"), Sample.db)
  /\ status (fst (PostHandler.GetPostBySlug (str "draft-post") Sample.db)) = StatusOK
  /\ json_field "id" (body (fst (PostHandler.GetPostBySlug (str "draft-post") Sample.db)))
     = Some (JUUID 4%N)
  /\ json_field "status" (body (fst (PostHandler.GetPostBySlug (str "draft-post") Sample.db)))
     = Some (JString (str "draft")).
Proof. repeat split; vm_compute; reflexivity. Qed.

(** ** What a response discloses about users *)

Lemma mentions_fields_app k (l1 l2 : list (string * json)) :
  json_mentions k (JObject (l1 ++ l2))
  = json_mentions k (JObject l1) || json_mentions k (JObject l2).
Proof. cbn [json_mentions]. apply existsb_app. Qed.

Lemma User_password_free (u : User.t) : password_free (marshal_User u).
Proof. reflexivity. Qed.

Lemma Category_password_free (c : Category.t) : password_free (marshal_Category c).
Proof. reflexivity. Qed.

Lemma array_password_free (l : list json) :
  Forall password_free l -> password_free (JArray l).
Proof.
  unfold password_free. cbn [json_mentions].
  induction 1 as [|j t Hj Ht IH]; [reflexivity|].
  cbn [existsb]. rewrite Hj, IH. reflexivity.
Qed.

Lemma map_password_free {A} (f : A -> json) (l : list A) :
  (forall x, password_free (f x)) -> password_free (JArray (List.map f l)).
Proof.
  intro H. apply array_password_free. induction l; constructor; auto.
Qed.

Lemma omitempty_array_password_free k (l : list json) :
  String.eqb k "password" = false ->
  Forall password_free l -> password_free (JObject (omitempty_array k l)).
Proof.
  intros Hk H. destruct l as [|j t]; [reflexivity|].
  unfold password_free. cbn [omitempty_array json_mentions existsb].
  rewrite Hk. cbn [orb].
  change (existsb (json_mentions "password") (j :: t))
    with (json_mentions "password" (JArray (j :: t))).
  rewrite (array_password_free _ H). reflexivity.
Qed.

Lemma Comment_password_free : forall c : Comment.t, password_free (marshal_Comment c).
Proof.
  fix IH 1. intros [b content post_id author_id author parent_id replies].
  unfold password_free. cbn [marshal_Comment].
  rewrite !mentions_fields_app.
  assert (Forall password_free (List.map marshal_Comment replies)) as Hr.
  { induction replies as [|r t IHt]; constructor; [apply IH | exact IHt]. }
  rewrite (omitempty_array_password_free "replies" _ eq_refl Hr).
  destruct parent_id; reflexivity.
Qed.

Lemma Post_password_free (p : Post.t) : password_free (marshal_Post p).
Proof.
  unfold password_free, marshal_Post. rewrite !mentions_fields_app.
  rewrite (omitempty_array_password_free "comments" _ eq_refl).
  - cbn [json_mentions existsb].
    change (existsb (json_mentions "password")
                    (List.map marshal_Category (Post.Categories p)))
      with (json_mentions "password"
                          (JArray (List.map marshal_Category (Post.Categories p)))).
    rewrite (map_password_free marshal_Category _ Category_password_free).
    destruct (Post.PublishedAt p); reflexivity.
  - induction (Post.Comments p); constructor; [apply Comment_password_free | assumption].
Qed.

Create HintDb handlers.
#[local] Hint Unfold
  UserHandler.Register UserHandler.GetMe UserHandler.GetAll
  UserHandler.UpdateUser UserHandler.DeleteUser
  PostHandler.CreatePost PostHandler.GetPostByID PostHandler.GetPostBySlug
  PostHandler.GetOwnPosts PostHandler.GetPostsByUserID
  PostHandler.UpdatePost PostHandler.DeletePost
  CommentHandler.CreateComment CommentHandler.GetAllCommentsFromPostId
  CommentHandler.GetCommentById CommentHandler.UpdateComment
  CommentHandler.DeleteComment CommentHandler.check_parent
  Middleware.RoleMiddleware Middleware.AuthMiddleware : handlers.

(** Case analysis along the control flow of a handler, down to the
    response of each branch. *)
Ltac destruct_innermost x :=
  lazymatch x with
  | match ?y with _ => _ end => destruct_innermost y
  | _ => destruct x
  end.

Ltac destruct_innermost_eqn x E :=
  lazymatch x with
  | match ?y with _ => _ end => destruct_innermost_eqn y E
  | _ => destruct x eqn:E
  end.

Ltac head_cases :=
  repeat (cbn [fst snd body JSON];
          match goal with
          | |- json_mentions _ (body (fst (match ?x with _ => _ end))) = false =>
              destruct_innermost x
          end);
  cbn [fst snd body JSON].

Ltac close_body :=
  unfold password_free; cbv beta;
  lazymatch goal with
  | |- json_mentions _ (marshal_User _) = false => apply User_password_free
  | |- json_mentions _ (marshal_Post _) = false => apply Post_password_free
  | |- json_mentions _ (marshal_Comment _) = false => apply Comment_password_free
  | |- json_mentions _ (JArray (List.map _ _)) = false =>
      apply map_password_free; intro; close_body
  | |- _ => reflexivity
  end.

Ltac free_body := head_cases; close_body.

Section DisclosureFacts.

Variable lower_nonascii : rune -> rune.
Variable uuid_Parse : gostring -> option uuid.
Variable HashPassword : gostring -> option gostring.
Variable is_email : gostring -> bool.
Variable jwt_decode : gostring -> option Auth.JWTClaim.
Variable jwt_verify : gostring -> gostring -> bool.

Let handle := Routes.handle lower_nonascii uuid_Parse HashPassword is_email.
Let serve :=
  Routes.serve lower_nonascii uuid_Parse HashPassword is_email jwt_decode jwt_verify.

Lemma handle_password_free env c e db :
  password_free (body (fst (handle env c e db))).
Proof.
  unfold handle, password_free.
  destruct e; cbn [Routes.handle]; autounfold with handlers; free_body.
Qed.

Lemma AuthMiddleware_abort_password_free env header c r :
  Middleware.AuthMiddleware jwt_decode jwt_verify env header c = Middleware.Abort r ->
  password_free (body r).
Proof.
  unfold Middleware.AuthMiddleware. intro E.
  repeat match type of E with
         | context [match ?x with _ => _ end] => destruct x
         end;
    first [ discriminate E | injection E as <-; reflexivity ].
Qed.

Lemma serve_password_free env req db :
  password_free (body (fst (serve env req db))).
Proof.
  unfold serve, Routes.serve.
  destruct (Routes.protected (endpoint req)); [|apply handle_password_free].
  destruct (Middleware.AuthMiddleware _ _ _ _ _) eqn:E.
  - apply handle_password_free.
  - cbn [fst]. eapply AuthMiddleware_abort_password_free. exact E.
Qed.

Lemma GetPostByID_author_role id db :
  status (fst (PostHandler.GetPostByID uuid_Parse id db)) = StatusOK ->
  author_role (body (fst (PostHandler.GetPostByID uuid_Parse id db)))
  = Some (JString []).
Proof.
  unfold PostHandler.GetPostByID.
  destruct (uuid_Parse id); [|discriminate].
  destruct (Store.First_post _ _); [|discriminate].
  destruct (negb _); [discriminate|]. intros _. reflexivity.
Qed.

Lemma GetPostBySlug_author_role slug db :
  status (fst (PostHandler.GetPostBySlug slug db)) = StatusOK ->
  author_role (body (fst (PostHandler.GetPostBySlug slug db)))
  = Some (JString []).
Proof.
  unfold PostHandler.GetPostBySlug.
  destruct (Store.First_post _ _); [|discriminate].
  intros _. reflexivity.
Qed.

Lemma GetMe_role c id user db :
  Get "userID" c = Some (AnyUUID id) ->
  Store.user_by_id id db = Some user ->
  UserHandler.GetMe c db
  = (JSON StatusOK (marshal_User (User.set_Password [] user)), db)
  /\ json_field "role" (body (fst (UserHandler.GetMe c db)))
     = Some (JString (User.Role user)).
Proof.
  intros Hc Hu. unfold UserHandler.GetMe. rewrite Hc, Hu. split; reflexivity.
Qed.

Lemma Register_role env reqbody db :
  status (fst (UserHandler.Register HashPassword is_email env reqbody db))
  = StatusCreated ->
  json_field "role"
    (body (fst (UserHandler.Register HashPassword is_email env reqbody db)))
  = Some (JString (str "user")).
Proof.
  unfold UserHandler.Register, Store.Create.
  repeat match goal with
         | |- context [fst (match ?x with _ => _ end)] => destruct_innermost x
         end; cbn [fst status JSON]; try discriminate.
  intros _. reflexivity.
Qed.

(** C4 (amended): for every read path that returns a User
    representation, whether top-level (register, get-me, get-all-users,
    user update) or nested as Post.Author or Comment.Author, the returned
    representation does not contain the password field. The role is
    blanked in Post.Author by the reads of a post by ID and by slug; it is
    part of the top-level representation: get-me returns the stored role
    and register returns the role [user]. *)
Theorem C4_password_never_disclosed :
  (forall env req db, password_free (body (fst (serve env req db))))
  /\ (forall (u : User.t) (p : Post.t) (cm : Comment.t),
         password_free (marshal_User u)
         /\ password_free (marshal_Post p)
         /\ password_free (marshal_Comment cm))
  /\ (forall id db,
         status (fst (PostHandler.GetPostByID uuid_Parse id db)) = StatusOK ->
         author_role (body (fst (PostHandler.GetPostByID uuid_Parse id db)))
         = Some (JString []))
  /\ (forall slug db,
         status (fst (PostHandler.GetPostBySlug slug db)) = StatusOK ->
         author_role (body (fst (PostHandler.GetPostBySlug slug db)))
         = Some (JString []))
  /\ (forall c id user db,
         Get "userID" c = Some (AnyUUID id) ->
         Store.user_by_id id db = Some user ->
         json_field "role" (body (fst (UserHandler.GetMe c db)))
         = Some (JString (User.Role user)))
  /\ (forall env reqbody db,
         status (fst (UserHandler.Register HashPassword is_email env reqbody db))
         = StatusCreated ->
         json_field "role"
           (body (fst (UserHandler.Register HashPassword is_email env reqbody db)))
         = Some (JString (str "user"))).
Proof.
  split; [exact serve_password_free|].
  split; [intros; split; [|split];
          [apply User_password_free | apply Post_password_free
           | apply Comment_password_free]|].
  split; [exact GetPostByID_author_role|].
  split; [exact GetPostBySlug_author_role|].
  split; [intros c id user db Hc Hu; exact (proj2 (GetMe_role c id user db Hc Hu))|].
  exact Register_role.
Qed.

End DisclosureFacts.

Lemma C4_password_never_disclosed_witness :
  status (fst (PostHandler.GetPostByID Sample.uuid_Parse (str "5") Sample.db))
  = StatusOK
  /\ author_role (body (fst (PostHandler.GetPostByID Sample.uuid_Parse (str "5")
                                                      Sample.db)))
     = Some (JString [])
  /\ Get "userID" (Sample.ctx 3%N "admin") = Some (AnyUUID 3%N)
  /\ Store.user_by_id 3%N Sample.db = Some Sample.root
  /\ json_field "role" (body (fst (UserHandler.GetMe (Sample.ctx 3%N "admin") Sample.db)))
     = Some (JString (str "admin")).
Proof.
  pose (T := C4_password_never_disclosed
               Sample.lower_nonascii Sample.uuid_Parse Sample.HashPassword
               Sample.is_email Sample.jwt_decode Sample.jwt_verify).
  split; [reflexivity|].
  split; [exact (proj1 (proj2 (proj2 T)) (str "5") Sample.db eq_refl)|].
  split; [reflexivity|]. split; [reflexivity|].
  exact (proj1 (proj2 (proj2 (proj2 (proj2 T))))
               (Sample.ctx 3%N "admin") 3%N Sample.root Sample.db eq_refl eq_refl).
Defined.

(** The claim of C4 as the specification states it fails on the role:
    get-me returns the role of the caller. *)
Lemma C4_counterexample :
  json_field "role" (body (fst (UserHandler.GetMe (Sample.ctx 1%N "user") Sample.db)))
  = Some (JString (str "user"))
  /\ json_mentions "role"
       (body (fst (UserHandler.GetMe (Sample.ctx 1%N "user") Sample.db))) = true
  /\ json_mentions "password"
       (body (fst (UserHandler.GetMe (Sample.ctx 1%N "user") Sample.db))) = false.
Proof. repeat split; vm_compute; reflexivity. Qed.

(** ** Creation of comments *)

Section CommentFacts.

Variable uuid_Parse : gostring -> option uuid.

Lemma bind_CommentRequest_Some body req :
  CommentHandler.bind_CommentRequest body = Some req -> body = Some req.
Proof.
  unfold CommentHandler.bind_CommentRequest. destruct body as [r|]; [|discriminate].
  destruct (nonempty _); [|discriminate]. intro H. exact H.
Qed.

Lemma check_parent_rejects postUUID parentID db :
  CommentHandler.comment_by_id parentID db = None
  \/ (exists parent, CommentHandler.comment_by_id parentID db = Some parent
                     /\ Comment.PostID parent <> postUUID) ->
  exists msg, CommentHandler.check_parent postUUID (Some parentID) db
              = Some (JSON StatusBadRequest (error_H msg)).
Proof.
  unfold CommentHandler.check_parent. intros [H | (parent & H & Hne)]; rewrite H.
  - eauto.
  - destruct (Comment.PostID parent =? postUUID)%N eqn:E.
    + apply N.eqb_eq in E. contradiction.
    + cbn [negb]. eauto.
Qed.

Lemma CreateComment_rejection_keeps_store env c postID body db :
  status (fst (CommentHandler.CreateComment uuid_Parse env c postID body db))
  <> StatusCreated ->
  snd (CommentHandler.CreateComment uuid_Parse env c postID body db) = db.
Proof.
  unfold CommentHandler.CreateComment.
  repeat match goal with
         | |- context [fst (match ?x with _ => _ end)] => destruct_innermost x
         end; cbn [fst snd status JSON]; try reflexivity.
  intro H. exfalso. apply H. reflexivity.
Qed.

Lemma CreateComment_bad_parent env c postID db req parentID postUUID :
  uuid_Parse postID = Some postUUID ->
  CommentRequest.ParentID req = Some parentID ->
  (CommentHandler.comment_by_id parentID db = None
   \/ (exists parent, CommentHandler.comment_by_id parentID db = Some parent
                      /\ Comment.PostID parent <> postUUID)) ->
  status (fst (CommentHandler.CreateComment uuid_Parse env c postID (Some req) db))
  <> StatusCreated.
Proof.
  intros Hp Hpar Hbad.
  destruct (check_parent_rejects postUUID parentID db Hbad) as [msg Hmsg].
  unfold CommentHandler.CreateComment. rewrite Hp.
  destruct (Store.First_post _ _); [|discriminate].
  destruct (negb _); [discriminate|].
  destruct (Get "userID" c) as [[a|a]|]; try discriminate.
  destruct (CommentHandler.bind_CommentRequest (Some req)) as [req'|] eqn:Hb;
    [|discriminate].
  apply bind_CommentRequest_Some in Hb. injection Hb as <-.
  rewrite Hpar, Hmsg. discriminate.
Qed.

(** C7: for every comment-creation request: it is rejected when the
    target post's status is not [published]; and when a parent comment ID
    is supplied, it is rejected with a validation error (400) when the
    parent does not exist or the parent's post differs from the target
    post; in every rejection case the comment is not persisted (the store
    is unchanged). *)
Theorem C7_CreateComment_rejections env c postID db postUUID post :
  uuid_Parse postID = Some postUUID ->
  Store.First_post (Store.has_id Post.base postUUID) (Store.posts db) = Some post ->
  (forall body,
      gostring_eqb (Post.Status post) (str "published") = false ->
      CommentHandler.CreateComment uuid_Parse env c postID body db
      = (JSON StatusBadRequest (error_H "cannot comment on unpublished posts"), db))
  /\ (forall req parentID,
         CommentRequest.ParentID req = Some parentID ->
         (CommentHandler.comment_by_id parentID db = None
          \/ (exists parent, CommentHandler.comment_by_id parentID db = Some parent
                             /\ Comment.PostID parent <> postUUID)) ->
         status (fst (CommentHandler.CreateComment uuid_Parse env c postID (Some req) db))
         <> StatusCreated
         /\ snd (CommentHandler.CreateComment uuid_Parse env c postID (Some req) db) = db
         /\ (forall authorID,
                gostring_eqb (Post.Status post) (str "published") = true ->
                Get "userID" c = Some (AnyUUID authorID) ->
                nonempty (CommentRequest.Content req) = true ->
                exists msg,
                  CommentHandler.CreateComment uuid_Parse env c postID (Some req) db
                  = (JSON StatusBadRequest (error_H msg), db)))
  /\ (forall body,
         status (fst (CommentHandler.CreateComment uuid_Parse env c postID body db))
         <> StatusCreated ->
         snd (CommentHandler.CreateComment uuid_Parse env c postID body db) = db).
Proof.
  intros Hp Hf. split; [|split].
  - intros body Hs. unfold CommentHandler.CreateComment. rewrite Hp, Hf, Hs.
    reflexivity.
  - intros req parentID Hpar Hbad.
    pose proof (CreateComment_bad_parent env c postID db req parentID postUUID
                  Hp Hpar Hbad) as Hrej.
    split; [exact Hrej|]. split.
    + apply CreateComment_rejection_keeps_store. exact Hrej.
    + intros authorID Hs Hc Hn.
      destruct (check_parent_rejects postUUID parentID db Hbad) as [msg Hmsg].
      exists msg. unfold CommentHandler.CreateComment.
      rewrite Hp, Hf, Hs, Hc. cbn [negb].
      unfold CommentHandler.bind_CommentRequest. rewrite Hn, Hpar, Hmsg.
      reflexivity.
  - intro body. apply CreateComment_rejection_keeps_store.
Qed.

End CommentFacts.

Lemma C7_CreateComment_rejections_witness :
  Sample.uuid_Parse (str "5") = Some 5%N
  /\ Store.First_post (Store.has_id Post.base 5%N) (Store.posts Sample.db)
     = Some Sample.article
  /\ CommentRequest.ParentID (CommentRequest.mk (str "x") (Some 8%N)) = Some 8%N
  /\ (exists parent, CommentHandler.comment_by_id 8%N Sample.db = Some parent
                     /\ Comment.PostID parent <> 5%N)
  /\ snd (CommentHandler.CreateComment Sample.uuid_Parse Sample.env
             (Sample.ctx 2%N "user") (str "5")
             (Some (CommentRequest.mk (str "x") (Some 8%N))) Sample.db)
     = Sample.db.
Proof.
  assert (exists parent, CommentHandler.comment_by_id 8%N Sample.db = Some parent
                         /\ Comment.PostID parent <> 5%N) as Hbad.
  { exists Sample.elsewhere. split; [reflexivity|]. vm_compute. discriminate. }
  split; [reflexivity|]. split; [reflexivity|]. split; [reflexivity|].
  split; [exact Hbad|].
  exact (proj1 (proj2 (proj1 (proj2
           (C7_CreateComment_rejections Sample.uuid_Parse Sample.env
              (Sample.ctx 2%N "user") (str "5") Sample.db 5%N Sample.article
              eq_refl eq_refl))
           (CommentRequest.mk (str "x") (Some 8%N)) 8%N eq_refl (or_intror Hbad)))).
Defined.

(** ** Tables *)

Section TableFacts.

Context {R : Type} (base : R -> Base.t) (set_base : Base.t -> R -> R)
        (columns : R -> R).

Lemma lowest_In (l : list R) (r : R) : Store.lowest base l = Some r -> In r l.
Proof.
  revert r. induction l as [|a t IH]; [discriminate|].
  intros r. cbn [Store.lowest]. destruct (Store.lowest base t) as [m|].
  - destruct (_ <=? _)%N; intro H; injection H as <-; [left; reflexivity|].
    right. apply IH. reflexivity.
  - intro H. injection H as <-. left. reflexivity.
Qed.

Lemma lowest_const (l : list R) (a : R) :
  l <> [] -> (forall x, In x l -> x = a) -> Store.lowest base l = Some a.
Proof.
  induction l as [|r t IH]; [congruence|]. intros _ H.
  assert (r = a) as -> by (apply H; left; reflexivity).
  cbn [Store.lowest]. destruct (Store.lowest base t) as [m|] eqn:E; [|reflexivity].
  apply lowest_In in E. assert (m = a) as -> by (apply H; right; exact E).
  destruct (_ <=? _)%N; reflexivity.
Qed.

Lemma First_Some cond rows r :
  Store.First base columns cond rows = Some r ->
  exists row, In row rows /\ Store.live base row = true /\ cond row = true
              /\ r = columns row.
Proof.
  unfold Store.First, Store.Find. intro H. apply lowest_In in H.
  apply in_map_iff in H. destruct H as (row & <- & H).
  apply filter_In in H. destruct H as [Hin Hc].
  apply andb_true_iff in Hc. destruct Hc. exists row. auto.
Qed.

End TableFacts.

(** ** The users table *)

Lemma map_same {A} (l : list A) : List.map Store.same l = l.
Proof. induction l as [|a t IH]; [reflexivity|]. cbn [List.map]. rewrite IH. reflexivity. Qed.

Lemma Save_user_found rows id u u1 now :
  Store.First_user (Store.has_id User.base id) rows = Some u ->
  User.base u1 = User.base u ->
  let u1' := User.set_base (Store.stamp_update now (User.base u1)) u1 in
  Store.Save User.base User.set_base Store.same false now u1 rows
  = Some (u1', List.map (fun x => if Store.has_id User.base id x then u1' else x) rows)
  /\ Store.First_user (Store.has_id User.base id)
       (List.map (fun x => if Store.has_id User.base id x then u1' else x) rows)
     = Some u1'.
Proof.
  intros Hf Hb u1'.
  destruct (First_Some User.base Store.same _ _ _ Hf) as (row & Hin & Hl & Hid & ->).
  unfold Store.same in Hb.
  assert (Store.id_of User.base u1' = id) as Hid'.
  { unfold Store.has_id in Hid. apply N.eqb_eq in Hid. unfold Store.id_of in *.
    subst u1'. destruct u1. cbn in *. rewrite Hb. exact Hid. }
  assert (Store.live User.base u1' = true) as Hl'.
  { unfold Store.live in *. subst u1'. destruct u1. cbn in *. rewrite Hb. exact Hl. }
  split.
  - unfold Store.Save. fold u1'. cbn [negb]. rewrite Hid'.
    replace (existsb (Store.has_id User.base id) rows) with true; [reflexivity|].
    symmetry. apply existsb_exists. exists row. auto.
  - unfold Store.First_user, Store.First, Store.Find. rewrite map_same.
    apply lowest_const.
    + intro E.
      assert (In u1' (List.filter
                        (fun r => Store.live User.base r && Store.has_id User.base id r)
                        (List.map (fun x => if Store.has_id User.base id x
                                            then u1' else x) rows))) as Hm.
      { apply filter_In. split.
        - apply in_map_iff. exists row. rewrite Hid. auto.
        - rewrite Hl'. unfold Store.has_id. rewrite Hid', N.eqb_refl. reflexivity. }
      rewrite E in Hm. exact Hm.
    + intros x Hx. apply filter_In in Hx. destruct Hx as [Hx Hc].
      apply in_map_iff in Hx. destruct Hx as (y & Hy & _).
      destruct (Store.has_id User.base id y) eqn:Ey; [congruence|].
      subst x. rewrite Ey, andb_false_r in Hc. discriminate.
Qed.

Lemma roles_kept_refl rows : roles_kept rows rows.
Proof. intros u Hu. exists u. auto. Qed.

Lemma roles_kept_Save refuses now u u1 id rows u1' rows' :
  Store.First_user (Store.has_id User.base id) rows = Some u ->
  User.base u1 = User.base u -> User.Role u1 = User.Role u ->
  Store.Save User.base User.set_base Store.same refuses now u1 rows
  = Some (u1', rows') ->
  roles_kept rows rows'.
Proof.
  intros Hf Hb Hr Hs.
  destruct (First_Some User.base Store.same _ _ _ Hf) as (row & Hin & Hl & Hid & ->).
  unfold Store.same in *.
  assert (forall x, Store.same (User.set_base (Store.stamp_update now (User.base u1)) u1) = x ->
                    Store.id_of User.base row = Store.id_of User.base x
                    /\ User.Role row = User.Role x) as Hnew.
  { intros x <-. unfold Store.same, Store.id_of. destruct u1. cbn in *.
    rewrite Hb, Hr. auto. }
  unfold Store.Save in Hs. destruct refuses; [discriminate|].
  destruct (existsb _ rows); injection Hs as <- <-; intros x Hx.
  - apply in_map_iff in Hx. destruct Hx as (y & Hy & Hyin).
    destruct (Store.has_id _ _ y).
    + exists row. destruct (Hnew x Hy). auto.
    + subst x. exists y. auto.
  - apply in_app_iff in Hx. destruct Hx as [Hx|[Hx|[]]].
    + exists x. auto.
    + exists row. destruct (Hnew x Hx). auto.
Qed.

Lemma roles_kept_Delete refuses now u rows rows' :
  Store.Delete User.base User.set_base refuses now u rows = Some rows' ->
  roles_kept rows rows'.
Proof.
  unfold Store.Delete. destruct refuses; [discriminate|].
  intro H. injection H as <-. intros x Hx.
  apply in_map_iff in Hx. destruct Hx as (y & Hy & Hyin).
  exists y. split; [exact Hyin|].
  destruct (_ && _); subst x; [|auto]. destruct y. split; reflexivity.
Qed.

Lemma roles_kept_default before after :
  roles_kept before after -> roles_kept_or_default before after.
Proof. intros H u Hu. left. exact (H u Hu). Qed.

Lemma attach_categories_tables post_id ids d :
  Store.users (Store.attach_categories post_id ids d) = Store.users d
  /\ Store.posts (Store.attach_categories post_id ids d) = Store.posts d
  /\ Store.comments (Store.attach_categories post_id ids d) = Store.comments d.
Proof.
  revert d. induction ids as [|cid rest IH]; intro d; cbn [Store.attach_categories].
  - auto.
  - destruct (Store.First_category _ _); [|apply IH].
    destruct (IH (Store.association_Append post_id (Store.id_of Category.base t) d))
      as (H1 & H2 & H3).
    rewrite H1, H2, H3. unfold Store.association_Append.
    destruct (existsb _ _); auto.
Qed.

Lemma attach_categories_users post_id ids d :
  Store.users (Store.attach_categories post_id ids d) = Store.users d.
Proof. apply attach_categories_tables. Qed.

Lemma attach_categories_posts post_id ids d :
  Store.posts (Store.attach_categories post_id ids d) = Store.posts d.
Proof. apply attach_categories_tables. Qed.

Lemma attach_categories_comments post_id ids d :
  Store.comments (Store.attach_categories post_id ids d) = Store.comments d.
Proof. apply attach_categories_tables. Qed.

(** Case analysis along the control flow of a handler, for a property of
    the store it leaves behind. *)
Ltac walk_store :=
  repeat (cbn [fst snd];
          match goal with
          | |- context [snd (match ?x with _ => _ end)] =>
              let E := fresh "E" in destruct_innermost_eqn x E
          end);
  cbn [fst snd].

Section UserFacts.

Variable lower_nonascii : rune -> rune.
Variable uuid_Parse : gostring -> option uuid.
Variable HashPassword : gostring -> option gostring.
Variable is_email : gostring -> bool.
Variable jwt_decode : gostring -> option Auth.JWTClaim.
Variable jwt_verify : gostring -> gostring -> bool.

Let UpdateUser := UserHandler.UpdateUser uuid_Parse HashPassword.
Let Register := UserHandler.Register HashPassword is_email.
Let handle := Routes.handle lower_nonascii uuid_Parse HashPassword is_email.
Let serve :=
  Routes.serve lower_nonascii uuid_Parse HashPassword is_email jwt_decode jwt_verify.

Lemma UpdateUser_role_ignored env c id data role db :
  is_admin (UserHandler.role_or_empty c) = false ->
  UpdateUser env c id (Some (UpdateData.set_Role role data)) db
  = UpdateUser env c id (Some data) db.
Proof.
  intro H. unfold UpdateUser, UserHandler.UpdateUser.
  cbn [UpdateData.FirstName UpdateData.LastName UpdateData.Email UpdateData.Password
       UpdateData.Role UpdateData.set_Role].
  rewrite H, (andb_false_r (nonempty role)),
    (andb_false_r (nonempty (UpdateData.Role data))).
  reflexivity.
Qed.

Lemma UpdateUser_nonadmin_roles_kept env c id body db :
  is_admin (UserHandler.role_or_empty c) = false ->
  roles_kept (Store.users db) (Store.users (snd (UpdateUser env c id body db))).
Proof.
  intro H. unfold UpdateUser, UserHandler.UpdateUser.
  cbv zeta. rewrite H.
  walk_store; try apply roles_kept_refl.
  all: cbn [Store.users Store.set_users].
  all: match goal with
       | Hf : Store.user_by_id _ _ = Some ?u,
         Hs : Store.Save _ _ _ _ _ _ _ = Some _ |- _ =>
           apply (roles_kept_Save _ _ u _ _ _ _ _ Hf) in Hs; [exact Hs | |]
       end.
  all: repeat match goal with
              | Hm : option_map _ ?o = Some _ |- _ =>
                  destruct o; cbn [option_map] in Hm; [|discriminate Hm]
              | Hm : Some _ = Some _ |- _ => injection Hm as <-
              end.
  all: repeat match goal with
              | |- context [?b && false] => rewrite (andb_false_r b)
              end.
  all: repeat match goal with
              | |- context [if ?b then _ else _] => destruct b
              end; reflexivity.
Qed.

Lemma gostring_eqb_eq (a b : gostring) : gostring_eqb a b = true -> a = b.
Proof.
  revert b. induction a as [|x a IH]; intros [|y b]; cbn [gostring_eqb];
    try discriminate; [reflexivity|].
  intro H. apply andb_true_iff in H. destruct H as [H1 H2].
  apply Z.eqb_eq in H1. rewrite H1, (IH b H2). reflexivity.
Qed.

Lemma UpdateUser_applies env c id data db requester user :
  is_admin (UserHandler.role_or_empty c) = false ->
  Get "userID" c = Some (AnyUUID requester) ->
  uuid_Parse id = Some requester ->
  Store.user_by_id requester db = Some user ->
  (nonempty (UpdateData.Email data)
   && negb (gostring_eqb (UpdateData.Email data) (User.Email user)) = true ->
   Store.First_user
     (fun u => gostring_eqb (User.Email u) (UpdateData.Email data)
               && negb (Store.has_id User.base requester u))
     (Store.users db) = None) ->
  (nonempty (UpdateData.Password data) = true ->
   HashPassword (UpdateData.Password data) <> None) ->
  store_refuses env = false ->
  exists user',
    fst (UpdateUser env c id (Some data) db)
    = JSON StatusOK (marshal_User (User.set_Password [] user'))
    /\ Store.user_by_id requester (snd (UpdateUser env c id (Some data) db))
       = Some user'
    /\ User.Role user' = User.Role user
    /\ User.FirstName user'
       = (if nonempty (UpdateData.FirstName data)
          then UpdateData.FirstName data else User.FirstName user)
    /\ User.LastName user'
       = (if nonempty (UpdateData.LastName data)
          then UpdateData.LastName data else User.LastName user)
    /\ User.Email user'
       = (if nonempty (UpdateData.Email data)
          then UpdateData.Email data else User.Email user)
    /\ (if nonempty (UpdateData.Password data)
        then HashPassword (UpdateData.Password data) = Some (User.Password user')
        else User.Password user' = User.Password user).
Proof.
  intros Hadm Hc Hp Hu Hmail Hhash Hstore.
  unfold UpdateUser, UserHandler.UpdateUser. cbv zeta.
  rewrite Hc, Hp, N.eqb_refl, Hu, Hadm, Hstore.
  rewrite (andb_false_r (nonempty (UpdateData.Role data))).
  cbn [negb andb].
  assert (User.Email
            (if nonempty (UpdateData.LastName data)
             then User.set_LastName (UpdateData.LastName data)
                    (if nonempty (UpdateData.FirstName data)
                     then User.set_FirstName (UpdateData.FirstName data) user
                     else user)
             else if nonempty (UpdateData.FirstName data)
                  then User.set_FirstName (UpdateData.FirstName data) user
                  else user) = User.Email user) as Hem
      by (destruct (nonempty (UpdateData.LastName data)),
                   (nonempty (UpdateData.FirstName data)); reflexivity).
  rewrite Hem.
  assert (forall u1 : User.t,
             User.base u1 = User.base user ->
             exists user' users',
               Store.Save User.base User.set_base Store.same false
                          (gorm_Now env) u1 (Store.users db) = Some (user', users')
               /\ Store.user_by_id requester (Store.set_users users' db) = Some user'
               /\ User.Role user' = User.Role u1
               /\ User.FirstName user' = User.FirstName u1
               /\ User.LastName user' = User.LastName u1
               /\ User.Email user' = User.Email u1
               /\ User.Password user' = User.Password u1) as Hsave.
  { intros u1 Hb.
    destruct (Save_user_found (Store.users db) requester user u1 (gorm_Now env) Hu Hb)
      as [Hs Hfirst].
    eexists. eexists. split; [exact Hs|].
    split; [exact Hfirst|]. destruct u1. repeat split; reflexivity. }
  destruct (nonempty (UpdateData.Email data)
            && negb (gostring_eqb (UpdateData.Email data) (User.Email user))) eqn:Ech.
  - rewrite (Hmail eq_refl).
    apply andb_true_iff in Ech. destruct Ech as [Ene _]. rewrite Ene.
    destruct (nonempty (UpdateData.Password data)) eqn:Epw.
    + destruct (HashPassword (UpdateData.Password data)) as [h|] eqn:Eh;
        [|exfalso; apply (Hhash eq_refl); reflexivity].
      cbn [option_map].
      match goal with
      | |- context [Store.Save _ _ _ _ _ ?u _] =>
          destruct (Hsave u) as (user' & users' & H1 & H2 & H3 & H4 & H5 & H6 & H7)
      end.
      { destruct (nonempty (UpdateData.LastName data)),
          (nonempty (UpdateData.FirstName data)); reflexivity. }
      exists user'. rewrite H1. cbn [fst snd]. rewrite H2, H3, H4, H5, H6, H7.
      destruct (nonempty (UpdateData.LastName data)),
        (nonempty (UpdateData.FirstName data)); repeat split; reflexivity.
    + match goal with
      | |- context [Store.Save _ _ _ _ _ ?u _] =>
          destruct (Hsave u) as (user' & users' & H1 & H2 & H3 & H4 & H5 & H6 & H7)
      end.
      { destruct (nonempty (UpdateData.LastName data)),
          (nonempty (UpdateData.FirstName data)); reflexivity. }
      exists user'. rewrite H1. cbn [fst snd]. rewrite H2, H3, H4, H5, H6, H7.
      destruct (nonempty (UpdateData.LastName data)),
        (nonempty (UpdateData.FirstName data)); repeat split; reflexivity.
  - assert ((if nonempty (UpdateData.Email data)
             then UpdateData.Email data else User.Email user) = User.Email user)
      as Hsame.
    { destruct (nonempty (UpdateData.Email data)); [|reflexivity].
      cbn [andb] in Ech. apply negb_false_iff in Ech.
      apply gostring_eqb_eq in Ech. exact Ech. }
    rewrite Hsame.
    destruct (nonempty (UpdateData.Password data)) eqn:Epw.
    + destruct (HashPassword (UpdateData.Password data)) as [h|] eqn:Eh;
        [|exfalso; apply (Hhash eq_refl); reflexivity].
      cbn [option_map].
      match goal with
      | |- context [Store.Save _ _ _ _ _ ?u _] =>
          destruct (Hsave u) as (user' & users' & H1 & H2 & H3 & H4 & H5 & H6 & H7)
      end.
      { destruct (nonempty (UpdateData.LastName data)),
          (nonempty (UpdateData.FirstName data)); reflexivity. }
      exists user'. rewrite H1. cbn [fst snd]. rewrite H2, H3, H4, H5, H6, H7.
      destruct (nonempty (UpdateData.LastName data)),
        (nonempty (UpdateData.FirstName data)); repeat split; reflexivity.
    + match goal with
      | |- context [Store.Save _ _ _ _ _ ?u _] =>
          destruct (Hsave u) as (user' & users' & H1 & H2 & H3 & H4 & H5 & H6 & H7)
      end.
      { destruct (nonempty (UpdateData.LastName data)),
          (nonempty (UpdateData.FirstName data)); reflexivity. }
      exists user'. rewrite H1. cbn [fst snd]. rewrite H2, H3, H4, H5, H6, H7.
      destruct (nonempty (UpdateData.LastName data)),
        (nonempty (UpdateData.FirstName data)); repeat split; reflexivity.
Qed.

(** C3: for every user-update request whose caller's role is not admin
    and whose body supplies a non-empty [role] value, the role attempt is
    ignored without an error: the request is served exactly as the same
    request without the role, every stored role is unchanged, and when the
    request is otherwise acceptable (own profile, e-mail not taken,
    password hashed, write accepted by the store) the operation succeeds
    with every other provided field (first name, last name, email,
    password) applied. *)
Theorem C3_nonadmin_role_attempt_ignored env c id data db :
  is_admin (UserHandler.role_or_empty c) = false ->
  nonempty (UpdateData.Role data) = true ->
  UpdateUser env c id (Some data) db
  = UpdateUser env c id (Some (UpdateData.set_Role [] data)) db
  /\ roles_kept (Store.users db)
                (Store.users (snd (UpdateUser env c id (Some data) db)))
  /\ (forall requester user,
         Get "userID" c = Some (AnyUUID requester) ->
         uuid_Parse id = Some requester ->
         Store.user_by_id requester db = Some user ->
         (nonempty (UpdateData.Email data)
          && negb (gostring_eqb (UpdateData.Email data) (User.Email user)) = true ->
          Store.First_user
            (fun u => gostring_eqb (User.Email u) (UpdateData.Email data)
                      && negb (Store.has_id User.base requester u))
            (Store.users db) = None) ->
         (nonempty (UpdateData.Password data) = true ->
          HashPassword (UpdateData.Password data) <> None) ->
         store_refuses env = false ->
         exists user',
           fst (UpdateUser env c id (Some data) db)
           = JSON StatusOK (marshal_User (User.set_Password [] user'))
           /\ Store.user_by_id requester (snd (UpdateUser env c id (Some data) db))
              = Some user'
           /\ User.Role user' = User.Role user
           /\ User.FirstName user'
              = (if nonempty (UpdateData.FirstName data)
                 then UpdateData.FirstName data else User.FirstName user)
           /\ User.LastName user'
              = (if nonempty (UpdateData.LastName data)
                 then UpdateData.LastName data else User.LastName user)
           /\ User.Email user'
              = (if nonempty (UpdateData.Email data)
                 then UpdateData.Email data else User.Email user)
           /\ (if nonempty (UpdateData.Password data)
               then HashPassword (UpdateData.Password data)
                    = Some (User.Password user')
               else User.Password user' = User.Password user)).
Proof.
  intros Hadm _. split; [|split].
  - symmetry. apply UpdateUser_role_ignored. exact Hadm.
  - apply UpdateUser_nonadmin_roles_kept. exact Hadm.
  - intros requester user Hc Hp Hu Hmail Hhash Hstore.
    apply UpdateUser_applies; assumption.
Qed.

(** *** Roles across all routes *)

Lemma roles_kept_or_default_refl rows : roles_kept_or_default rows rows.
Proof. apply roles_kept_default, roles_kept_refl. Qed.

Lemma Register_users env body db :
  (status (fst (Register env body db)) = StatusCreated ->
   exists u, Store.users (snd (Register env body db)) = Store.users db ++ [u]
             /\ User.Role u = str "user")
  /\ (status (fst (Register env body db)) <> StatusCreated ->
      snd (Register env body db) = db)
  /\ roles_kept_or_default (Store.users db)
                           (Store.users (snd (Register env body db))).
Proof.
  unfold Register, UserHandler.Register, Store.Create.
  repeat match goal with
         | |- context [fst (match ?x with _ => _ end)] => destruct_innermost x
         end;
    cbn [fst snd status JSON Store.users Store.set_users];
    (split; [try discriminate | split; [try reflexivity | try apply roles_kept_or_default_refl]]).
  - intros _. eexists. split; [reflexivity|]. reflexivity.
  - intro H. exfalso. apply H. reflexivity.
  - intros u Hu. apply in_app_iff in Hu. destruct Hu as [Hu|[<-|[]]].
    + left. exists u. auto.
    + right. reflexivity.
Qed.

Ltac users_unchanged :=
  cbn [Store.users Store.set_posts Store.set_comments Store.set_users];
  repeat match goal with
         | |- context [Store.users (match ?x with _ => _ end)] => destruct x
         end;
  rewrite ?attach_categories_users;
  cbn [Store.users Store.set_posts Store.set_comments Store.set_users
       Store.association_Clear Store.set_post_categories];
  apply roles_kept_or_default_refl.

Lemma handle_roles env c e db :
  roles_kept_or_default (Store.users db) (Store.users (snd (handle env c e db)))
  \/ (exists id body, e = PUT_users id body
                      /\ is_admin (UserHandler.role_or_empty c) = true).
Proof.
  destruct e; cbn [handle Routes.handle].
  4: { destruct (is_admin (UserHandler.role_or_empty c)) eqn:Hadm.
       - right. eauto.
       - left. apply roles_kept_default.
         apply UpdateUser_nonadmin_roles_kept. exact Hadm. }
  1: { left. apply Register_users. }
  all: left; autounfold with handlers; walk_store.
  all: try users_unchanged.
  all: cbn [Store.users Store.set_users]; apply roles_kept_default.
  all: eapply roles_kept_Delete; eassumption.
Qed.

Lemma serve_roles env req db :
  roles_kept_or_default (Store.users db) (Store.users (snd (serve env req db)))
  \/ (exists id body c,
         endpoint req = PUT_users id body
         /\ Middleware.AuthMiddleware jwt_decode jwt_verify env
                                      (Authorization req) [] = Middleware.Next c
         /\ is_admin (UserHandler.role_or_empty c) = true).
Proof.
  unfold serve, Routes.serve. destruct (Routes.protected (endpoint req)).
  - destruct (Middleware.AuthMiddleware _ _ _ _ _) as [c|r] eqn:E.
    + destruct (handle_roles env c (endpoint req) db) as [H|(id & body & He & Ha)].
      * left. exact H.
      * right. exists id, body, c. auto.
    + left. apply roles_kept_or_default_refl.
  - destruct (handle_roles env [] (endpoint req) db) as [H|(id & body & He & Ha)].
    + left. exact H.
    + discriminate Ha.
Qed.

(** C10: every user record created through registration has role
    [user]: the registration request carries no role field, so for every
    registration input the stored role is [user] regardless of anything
    the client supplies; and across all routes every stored role stays
    what it was (or is the default of a new registration) unless the
    request is a user update by a caller authenticated as admin. *)
Theorem C10_registered_role_is_user :
  (forall env body db,
      status (fst (Register env body db)) = StatusCreated ->
      exists u, Store.users (snd (Register env body db)) = Store.users db ++ [u]
                /\ User.Role u = str "user")
  /\ (forall env body db,
         status (fst (Register env body db)) <> StatusCreated ->
         snd (Register env body db) = db)
  /\ (forall env req db,
         roles_kept_or_default (Store.users db)
                               (Store.users (snd (serve env req db)))
         \/ (exists id body c,
                endpoint req = PUT_users id body
                /\ Middleware.AuthMiddleware jwt_decode jwt_verify env
                                             (Authorization req) [] = Middleware.Next c
                /\ is_admin (UserHandler.role_or_empty c) = true)).
Proof.
  split; [|split].
  - intros env body db. apply Register_users.
  - intros env body db. apply Register_users.
  - exact serve_roles.
Qed.

End UserFacts.

Lemma C3_nonadmin_role_attempt_ignored_witness :
  is_admin (UserHandler.role_or_empty (Sample.ctx 2%N "user")) = false
  /\ nonempty (UpdateData.Role Sample.update) = true
  /\ UserHandler.UpdateUser Sample.uuid_Parse Sample.HashPassword Sample.env
       (Sample.ctx 2%N "user") (str "2") (Some Sample.update) Sample.db
     = UserHandler.UpdateUser Sample.uuid_Parse Sample.HashPassword Sample.env
         (Sample.ctx 2%N "user") (str "2")
         (Some (UpdateData.set_Role [] Sample.update)) Sample.db
  /\ status (fst (UserHandler.UpdateUser Sample.uuid_Parse Sample.HashPassword
                    Sample.env (Sample.ctx 2%N "user") (str "2")
                    (Some Sample.update) Sample.db)) = StatusOK.
Proof.
  split; [reflexivity|]. split; [reflexivity|]. split.
  - exact (proj1 (C3_nonadmin_role_attempt_ignored
                    Sample.uuid_Parse Sample.HashPassword Sample.env
                    (Sample.ctx 2%N "user") (str "2") Sample.update Sample.db
                    eq_refl eq_refl)).
  - vm_compute. reflexivity.
Defined.

Lemma C10_registered_role_is_user_witness :
  status (fst (UserHandler.Register Sample.HashPassword Sample.is_email Sample.env
                 (Some Sample.registration) Sample.db)) = StatusCreated
  /\ exists u,
       Store.users (snd (UserHandler.Register Sample.HashPassword Sample.is_email
                           Sample.env (Some Sample.registration) Sample.db))
       = Store.users Sample.db ++ [u]
       /\ User.Role u = str "user".
Proof.
  split; [vm_compute; reflexivity|].
  exact (proj1 (C10_registered_role_is_user
                  Sample.lower_nonascii Sample.uuid_Parse Sample.HashPassword
                  Sample.is_email Sample.jwt_decode Sample.jwt_verify)
               Sample.env (Some Sample.registration) Sample.db eq_refl).
Defined.

(** ** The publish timestamp *)

Lemma gostring_eqb_refl (a : gostring) : gostring_eqb a a = true.
Proof.
  induction a as [|x a IH]; [reflexivity|].
  cbn [gostring_eqb]. rewrite Z.eqb_refl, IH. reflexivity.
Qed.

Lemma timestamp_step_refl env p : timestamp_step env p p.
Proof. unfold timestamp_step. repeat split; auto. Qed.

Lemma posts_step_same env before after :
  after = before -> posts_step env before after.
Proof.
  intros ->. exists (fun x => x), []. rewrite List.map_id, app_nil_r.
  split; [reflexivity|]. split; [|left; reflexivity].
  intros x _. apply timestamp_step_refl.
Qed.

Lemma NoDup_ids_eq (l : list Post.t) (x y : Post.t) :
  NoDup (List.map (Store.id_of Post.base) l) ->
  In x l -> In y l ->
  Store.id_of Post.base x = Store.id_of Post.base y -> x = y.
Proof.
  induction l as [|a t IH]; [intros _ []|].
  cbn [List.map]. intros Hnd Hx Hy Hid.
  apply NoDup_cons_iff in Hnd. destruct Hnd as [Hni Hnd].
  destruct Hx as [->|Hx], Hy as [->|Hy].
  - reflexivity.
  - exfalso. apply Hni. rewrite Hid. apply in_map. exact Hy.
  - exfalso. apply Hni. rewrite <- Hid. apply in_map. exact Hx.
  - apply IH; assumption.
Qed.

Section PostFacts.

Variable lower_nonascii : rune -> rune.
Variable uuid_Parse : gostring -> option uuid.
Variable HashPassword : gostring -> option gostring.
Variable is_email : gostring -> bool.
Variable jwt_decode : gostring -> option Auth.JWTClaim.
Variable jwt_verify : gostring -> gostring -> bool.

Let CreatePost := PostHandler.CreatePost lower_nonascii.
Let UpdatePost := PostHandler.UpdatePost lower_nonascii uuid_Parse.
Let DeletePost := PostHandler.DeletePost uuid_Parse.
Let handle := Routes.handle lower_nonascii uuid_Parse HashPassword is_email.
Let serve :=
  Routes.serve lower_nonascii uuid_Parse HashPassword is_email jwt_decode jwt_verify.

Lemma update_text_frame env postUUID req db post :
  Post.base (PostHandler.update_text lower_nonascii env postUUID req db post)
  = Post.base post
  /\ Post.Status (PostHandler.update_text lower_nonascii env postUUID req db post)
     = Post.Status post
  /\ Post.PublishedAt (PostHandler.update_text lower_nonascii env postUUID req db post)
     = Post.PublishedAt post.
Proof.
  unfold PostHandler.update_text. cbv zeta.
  destruct (Store.First_post _ _);
    destruct (nonempty (PostRequest.Slug req)),
      (nonempty (PostRequest.Content req)),
      (nonempty (PostRequest.Title req)); repeat split; reflexivity.
Qed.

Lemma update_status_step env req post :
  Post.base (PostHandler.update_status env req post) = Post.base post
  /\ (forall t, Post.PublishedAt post = Some t ->
                Post.PublishedAt (PostHandler.update_status env req post) = Some t)
  /\ (Post.PublishedAt post = None ->
      Post.PublishedAt (PostHandler.update_status env req post) = None
      \/ (Post.PublishedAt (PostHandler.update_status env req post)
          = Some (time_Now env)
          /\ PostHandler.is_published
               (Post.Status (PostHandler.update_status env req post)) = true
          /\ PostHandler.is_published (Post.Status post) = false))
  /\ (PostHandler.is_published
        (Post.Status (PostHandler.update_status env req post)) = true ->
      Post.PublishedAt (PostHandler.update_status env req post) = None ->
      PostHandler.is_published (Post.Status post) = true
      /\ Post.PublishedAt post = None).
Proof.
  unfold PostHandler.update_status. cbv zeta.
  destruct (nonempty (PostRequest.Status req)
            && negb (gostring_eqb (PostRequest.Status req) (Post.Status post)))
           eqn:Ech.
  - apply andb_true_iff in Ech. destruct Ech as [_ Hne].
    apply negb_true_iff in Hne.
    cbn [Post.PublishedAt Post.set_Status].
    destruct (PostHandler.is_published (PostRequest.Status req)) eqn:Ep;
      destruct (Post.PublishedAt post) as [t|] eqn:Et; cbn [andb];
      cbn [Post.base Post.PublishedAt Post.Status Post.set_Status Post.set_PublishedAt];
      rewrite ?Et, ?Ep.
    + repeat split; intros; try congruence.
    + repeat split; intros; try congruence.
      right. repeat split.
      destruct (PostHandler.is_published (Post.Status post)) eqn:Es; [|reflexivity].
      unfold PostHandler.is_published in *.
      apply gostring_eqb_eq in Ep, Es. rewrite Ep, Es, gostring_eqb_refl in Hne.
      discriminate Hne.
    + repeat split; intros; try congruence.
    + repeat split; intros; try congruence. left. reflexivity.
  - repeat split; auto.
Qed.

Lemma update_fields_step env postUUID req db row b :
  Base.ID b = Base.ID (Post.base row) ->
  timestamp_step env row
    (Post.columns
       (Post.set_base b
          (PostHandler.update_fields lower_nonascii env postUUID req db
                                     (Post.columns row)))).
Proof.
  intro Hb. unfold PostHandler.update_fields.
  set (text := PostHandler.update_text lower_nonascii env postUUID req db
                                       (Post.columns row)).
  destruct (update_text_frame env postUUID req db (Post.columns row))
    as (_ & Hs & Hp). fold text in Hs, Hp.
  destruct (update_status_step env req text) as (_ & H2 & H3 & H4).
  cbn [Post.Status Post.PublishedAt Post.columns] in Hs, Hp.
  rewrite Hs, Hp in *.
  unfold timestamp_step, Store.id_of.
  cbn [Post.base Post.PublishedAt Post.Status Post.columns Post.set_base].
  auto.
Qed.

Lemma Create_post_shape refuses fresh now post rows r' rows' :
  Store.Create Post.base Post.set_base Post.columns refuses fresh now post rows
  = Some (r', rows') ->
  rows' = rows ++ [Post.columns r']
  /\ existsb (Store.has_id Post.base (Store.id_of Post.base (Post.columns r'))) rows
     = false
  /\ Post.Status r' = Post.Status post
  /\ Post.PublishedAt r' = Post.PublishedAt post.
Proof.
  unfold Store.Create. destruct (refuses || _) eqn:E; [discriminate|].
  intro H. injection H as <- <-.
  apply orb_false_iff in E. destruct E as [_ E].
  repeat split; auto.
Qed.

Lemma CreatePost_posts env c body db :
  posts_step env (Store.posts db) (Store.posts (snd (CreatePost env c body db))).
Proof.
  unfold CreatePost, PostHandler.CreatePost. cbv zeta.
  walk_store; try (apply posts_step_same; reflexivity).
  rewrite attach_categories_posts. cbn [Store.posts Store.set_posts].
  match goal with
  | H : Store.Create _ _ _ _ _ _ _ _ = Some _ |- _ =>
      apply Create_post_shape in H; destruct H as (-> & Hfresh & Hs & Hp)
  end.
  exists (fun x => x). eexists. rewrite List.map_id.
  split; [reflexivity|]. split; [intros x _; apply timestamp_step_refl|].
  right. eexists. split; [reflexivity|]. split; [exact Hfresh|].
  cbn [Post.PublishedAt Post.Status Post.columns]. rewrite Hs, Hp.
  match goal with
  | |- context [PostHandler.is_published ?st] =>
      destruct (PostHandler.is_published st) eqn:Est
  end; cbn [Post.PublishedAt Post.Status Post.set_PublishedAt]; rewrite ?Est;
    reflexivity.
Qed.

Lemma Save_post_shape refuses now post rows r' rows' row :
  Store.Save Post.base Post.set_base Post.columns refuses now post rows
  = Some (r', rows') ->
  In row rows ->
  Store.id_of Post.base row = Store.id_of Post.base post ->
  r' = Post.set_base (Store.stamp_update now (Post.base post)) post
  /\ rows' = List.map (fun x => if Store.has_id Post.base (Store.id_of Post.base post) x
                                then Post.columns r' else x) rows.
Proof.
  unfold Store.Save. intros H Hin Hid. destruct refuses; [discriminate|].
  assert (Store.id_of Post.base
            (Post.set_base (Store.stamp_update now (Post.base post)) post)
          = Store.id_of Post.base post) as Hid' by (destruct post; reflexivity).
  rewrite Hid' in H.
  replace (existsb (Store.has_id Post.base (Store.id_of Post.base post)) rows)
    with true in H.
  - injection H as <- <-. split; reflexivity.
  - symmetry. apply existsb_exists. exists row. split; [exact Hin|].
    unfold Store.has_id. rewrite Hid. apply N.eqb_refl.
Qed.

Lemma update_fields_base env postUUID req db post :
  Post.base (PostHandler.update_fields lower_nonascii env postUUID req db post)
  = Post.base post.
Proof.
  unfold PostHandler.update_fields.
  rewrite (proj1 (update_status_step env req _)).
  apply update_text_frame.
Qed.

Lemma posts_after_categories (ids : list uuid) (post_id : uuid) (d : Store.DB) :
  Store.posts
    match ids with
    | [] => d
    | cid :: rest =>
        Store.attach_categories post_id (cid :: rest)
                                (Store.association_Clear post_id d)
    end
  = Store.posts d.
Proof.
  destruct ids; [reflexivity|]. rewrite attach_categories_posts. reflexivity.
Qed.

Lemma UpdatePost_posts env c id body db :
  posts_pk db ->
  posts_step env (Store.posts db) (Store.posts (snd (UpdatePost env c id body db))).
Proof.
  intro Hpk. unfold UpdatePost, PostHandler.UpdatePost. cbv zeta.
  walk_store; try (apply posts_step_same; reflexivity).
  match goal with
  | Hf : Store.First_post _ _ = Some ?post,
    Hs : Store.Save _ _ _ _ _ _ _ = Some _ |- _ =>
      destruct (First_Some Post.base Post.columns _ _ _ Hf)
        as (row & Hin & Hlive & Hid & ->);
      apply (Save_post_shape _ _ _ _ _ _ row) in Hs;
      [destruct Hs as [Hr ->] | exact Hin | ]
  end.
  - match goal with
    | |- context [PostRequest.CategoryIDs ?req] =>
        rewrite (posts_after_categories (PostRequest.CategoryIDs req))
    end.
    cbn [Store.posts Store.set_posts].
    eexists. exists []. rewrite app_nil_r. split; [reflexivity|].
    split; [|left; reflexivity].
    intros x Hx. cbv beta.
    destruct (Store.has_id Post.base _ x) eqn:Ex; [|apply timestamp_step_refl].
    assert (x = row) as ->.
    { apply (NoDup_ids_eq (Store.posts db)); try assumption.
      unfold Store.has_id in Ex. apply N.eqb_eq in Ex. rewrite Ex.
      unfold Store.id_of. rewrite update_fields_base. reflexivity. }
    rewrite Hr. apply update_fields_step.
    cbn [Store.stamp_update Base.ID]. rewrite update_fields_base. reflexivity.
  - unfold Store.id_of. rewrite update_fields_base. reflexivity.
Qed.

Lemma DeletePost_posts env c id db :
  posts_step env (Store.posts db) (Store.posts (snd (DeletePost env c id db))).
Proof.
  unfold DeletePost, PostHandler.DeletePost.
  walk_store; try (apply posts_step_same; reflexivity).
  cbn [Store.posts Store.set_posts].
  match goal with
  | H : Store.Delete _ _ _ _ _ _ = Some _ |- _ =>
      unfold Store.Delete in H; destruct (store_refuses env); [discriminate H|];
      injection H as <-
  end.
  eexists. exists []. rewrite app_nil_r. split; [reflexivity|].
  split; [|left; reflexivity].
  intros x _. cbv beta. destruct (_ && _); [|apply timestamp_step_refl].
  destruct x. unfold timestamp_step. repeat split; auto.
Qed.

Lemma handle_posts env c e db :
  posts_pk db ->
  posts_step env (Store.posts db) (Store.posts (snd (handle env c e db))).
Proof.
  intro Hpk. destruct e; cbn [handle Routes.handle].
  10: apply CreatePost_posts.
  10: apply UpdatePost_posts; exact Hpk.
  10: apply DeletePost_posts.
  all: apply posts_step_same; autounfold with handlers; walk_store;
    cbn [Store.posts Store.set_users Store.set_comments]; reflexivity.
Qed.

Lemma serve_posts env req db :
  posts_pk db ->
  posts_step env (Store.posts db) (Store.posts (snd (serve env req db))).
Proof.
  intro Hpk. unfold serve, Routes.serve.
  destruct (Routes.protected (endpoint req)); [|apply handle_posts, Hpk].
  destruct (Middleware.AuthMiddleware _ _ _ _ _).
  - apply handle_posts, Hpk.
  - apply posts_step_same. reflexivity.
Qed.

End PostFacts.

(** *** What a step of the posts table means for a row *)

Lemma find_map_ids (f : Post.t -> Post.t) (l : list Post.t) (id : uuid) :
  (forall x, In x l -> Store.id_of Post.base (f x) = Store.id_of Post.base x) ->
  List.find (Store.has_id Post.base id) (List.map f l)
  = option_map f (List.find (Store.has_id Post.base id) l).
Proof.
  induction l as [|a t IH]; intro H; [reflexivity|].
  cbn [List.map List.find]. unfold Store.has_id at 1 3.
  rewrite (H a (or_introl eq_refl)).
  destruct (_ =? id)%N; [reflexivity|].
  apply IH. intros x Hx. apply H. right. exact Hx.
Qed.

Lemma find_app_post (l1 l2 : list Post.t) (g : Post.t -> bool) :
  List.find g (l1 ++ l2)
  = match List.find g l1 with Some x => Some x | None => List.find g l2 end.
Proof.
  induction l1 as [|a t IH]; [reflexivity|].
  cbn [app List.find]. destruct (g a); [reflexivity | exact IH].
Qed.

Lemma posts_step_row env before after id p :
  posts_step env before after ->
  List.find (Store.has_id Post.base id) before = Some p ->
  exists p', List.find (Store.has_id Post.base id) after = Some p'
             /\ timestamp_step env p p'.
Proof.
  intros (f & created & -> & Hstep & _) Hfind.
  exists (f p). rewrite find_app_post, find_map_ids, Hfind.
  - split; [reflexivity|]. apply Hstep. apply (find_some _ _ Hfind).
  - intros x Hx. apply (Hstep x Hx).
Qed.

Lemma posts_step_new env before after id p' :
  posts_step env before after ->
  List.find (Store.has_id Post.base id) before = None ->
  List.find (Store.has_id Post.base id) after = Some p' ->
  Post.PublishedAt p'
  = (if PostHandler.is_published (Post.Status p')
     then Some (time_Now env) else None).
Proof.
  intros (f & created & -> & Hstep & Hc) Hnone.
  rewrite find_app_post, find_map_ids, Hnone by (intros x Hx; apply (Hstep x Hx)).
  cbn [option_map]. destruct Hc as [->|(p & -> & _ & Hp)]; [discriminate|].
  cbn [List.find]. destruct (Store.has_id _ _ p); [|discriminate].
  intro H. injection H as <-. exact Hp.
Qed.

Lemma posts_step_stamped env before after :
  posts_step env before after ->
  (forall p, In p before -> PostHandler.is_published (Post.Status p) = true ->
             Post.PublishedAt p <> None) ->
  forall p, In p after -> PostHandler.is_published (Post.Status p) = true ->
            Post.PublishedAt p <> None.
Proof.
  intros (f & created & -> & Hstep & Hc) Hinv p Hin Hpub Hnone.
  apply in_app_iff in Hin. destruct Hin as [Hin|Hin].
  - apply in_map_iff in Hin. destruct Hin as (x & <- & Hx).
    destruct (Hstep x Hx) as (_ & _ & _ & H4).
    destruct (H4 Hpub Hnone) as [Hp Hn]. exact (Hinv x Hx Hp Hn).
  - destruct Hc as [->|(q & -> & _ & Hq)]; [exact Hin|].
    destruct Hin as [<-|[]]. rewrite Hpub in Hq. congruence.
Qed.

Lemma posts_step_pk env before after :
  posts_step env before after ->
  NoDup (List.map (Store.id_of Post.base) before) ->
  NoDup (List.map (Store.id_of Post.base) after).
Proof.
  intros (f & created & -> & Hstep & Hc) Hnd.
  assert (List.map (Store.id_of Post.base) (List.map f before)
          = List.map (Store.id_of Post.base) before) as Hids.
  { rewrite List.map_map. apply List.map_ext_in. intros x Hx. apply (Hstep x Hx). }
  rewrite List.map_app, Hids.
  destruct Hc as [->|(p & -> & Hfresh & _)].
  - cbn [List.map]. rewrite app_nil_r. exact Hnd.
  - cbn [List.map].
    assert (~ In (Store.id_of Post.base p) (List.map (Store.id_of Post.base) before))
      as Hni.
    { intro Hin. apply in_map_iff in Hin. destruct Hin as (x & Hx & Hxin).
      assert (existsb (Store.has_id Post.base (Store.id_of Post.base p)) before = true)
        as Ht.
      { apply existsb_exists. exists x. split; [exact Hxin|].
        unfold Store.has_id. rewrite Hx. apply N.eqb_refl. }
      congruence. }
    clear Hids Hfresh Hstep.
    induction (List.map (Store.id_of Post.base) before) as [|a t IH].
    + constructor; [intros []|constructor].
    + cbn [app]. apply NoDup_cons_iff in Hnd. destruct Hnd as [Ha Ht].
      constructor.
      * intro Hin. apply in_app_iff in Hin. destruct Hin as [Hin|[Hin|[]]].
        -- exact (Ha Hin).
        -- apply Hni. left. symmetry. exact Hin.
      * apply IH; [exact Ht|]. intro Hin. apply Hni. right. exact Hin.
Qed.

Section TimestampFacts.

Variable lower_nonascii : rune -> rune.
Variable uuid_Parse : gostring -> option uuid.
Variable HashPassword : gostring -> option gostring.
Variable is_email : gostring -> bool.
Variable jwt_decode : gostring -> option Auth.JWTClaim.
Variable jwt_verify : gostring -> gostring -> bool.

Let serve :=
  Routes.serve lower_nonascii uuid_Parse HashPassword is_email jwt_decode jwt_verify.

(** C6: for every post, the publish timestamp is set exactly once, at the
    first transition into status [published] (whether at creation or by a
    later update), and once it is non-null it is never overwritten. For
    every request served on a store whose posts have distinct primary
    keys: a post created by the request is stamped with the time of the
    request if and only if it is created as [published]; a stored
    timestamp is kept, whether the post stays [published], leaves that
    status or returns to it; a post without a timestamp gets one, the time
    of the request, only by a change of status into [published]; and every
    published post has a timestamp afterwards if that held before. *)
Theorem C6_publish_timestamp_set_once env req db :
  posts_pk db ->
  posts_pk (snd (serve env req db))
  /\ (published_stamped db -> published_stamped (snd (serve env req db)))
  /\ (forall id p,
         post_row id db = Some p ->
         exists p',
           post_row id (snd (serve env req db)) = Some p'
           /\ (forall t, Post.PublishedAt p = Some t -> Post.PublishedAt p' = Some t)
           /\ (Post.PublishedAt p = None ->
               Post.PublishedAt p' = None
               \/ (Post.PublishedAt p' = Some (time_Now env)
                   /\ PostHandler.is_published (Post.Status p') = true
                   /\ PostHandler.is_published (Post.Status p) = false)))
  /\ (forall id p',
         post_row id db = None ->
         post_row id (snd (serve env req db)) = Some p' ->
         Post.PublishedAt p'
         = (if PostHandler.is_published (Post.Status p')
            then Some (time_Now env) else None)).
Proof.
  intro Hpk.
  pose proof (serve_posts lower_nonascii uuid_Parse HashPassword is_email
                          jwt_decode jwt_verify env req db Hpk) as Hstep.
  fold serve in Hstep.
  split; [|split; [|split]].
  - exact (posts_step_pk env _ _ Hstep Hpk).
  - intro Hinv. exact (posts_step_stamped env _ _ Hstep Hinv).
  - intros id p Hp. unfold post_row in *.
    destruct (posts_step_row env _ _ id p Hstep Hp) as (p' & Hp' & _ & H2 & H3 & _).
    exists p'. auto.
  - intros id p' Hn Hp'. unfold post_row in *.
    exact (posts_step_new env _ _ id p' Hstep Hn Hp').
Qed.

End TimestampFacts.

Lemma sample_posts_pk : posts_pk Sample.db.
Proof.
  unfold posts_pk. vm_compute.
  repeat constructor; cbn [In]; intuition discriminate.
Qed.

Lemma C6_publish_timestamp_set_once_witness :
  posts_pk Sample.db
  /\ post_row 5%N Sample.db = Some Sample.article
  /\ exists p',
       post_row 5%N (snd (Sample.serve Sample.env Sample.edit Sample.db)) = Some p'
       /\ (forall t, Post.PublishedAt Sample.article = Some t ->
                     Post.PublishedAt p' = Some t)
       /\ (Post.PublishedAt Sample.article = None ->
           Post.PublishedAt p' = None
           \/ (Post.PublishedAt p' = Some (time_Now Sample.env)
               /\ PostHandler.is_published (Post.Status p') = true
               /\ PostHandler.is_published (Post.Status Sample.article) = false)).
Proof.
  split; [exact sample_posts_pk|]. split; [reflexivity|].
  exact (proj1 (proj2 (proj2
           (C6_publish_timestamp_set_once
              Sample.lower_nonascii Sample.uuid_Parse Sample.HashPassword
              Sample.is_email Sample.jwt_decode Sample.jwt_verify
              Sample.env Sample.edit Sample.db sample_posts_pk)))
           5%N Sample.article eq_refl).
Defined.

(** The life of a timestamp on the sample store: the draft is stamped when
    it is first published; the article keeps its stamp through an edit,
    and through a withdrawal followed by a second publication. *)
Example timestamp_lifecycle :
  option_map Post.PublishedAt
    (post_row 4%N (snd (Sample.serve Sample.env (Sample.publish "4") Sample.db)))
  = Some (Some 1002)
  /\ option_map Post.PublishedAt
       (post_row 5%N (snd (Sample.serve Sample.env Sample.edit Sample.db)))
     = Some (Some 20)
  /\ option_map (fun p => (Post.Status p, Post.PublishedAt p))
       (post_row 5%N (snd (Sample.serve Sample.env Sample.withdraw Sample.db)))
     = Some (str "draft", Some 20)
  /\ option_map (fun p => (Post.Status p, Post.PublishedAt p))
       (post_row 5%N
          (snd (Sample.serve Sample.env (Sample.publish "5")
                  (snd (Sample.serve Sample.env Sample.withdraw Sample.db)))))
     = Some (str "published", Some 20).
Proof. repeat split; vm_compute; reflexivity. Qed.

(** ** The end-to-end scenarios of the specification, on the sample store *)

Example end_to_end_slug :
  let create :=
    mkRequest (Sample.token 1 false)
      (POST_posts (Some (PostRequest.mk (str "Hello, World! 2024") (str "text")
                                        [] [] []))) in
  let later :=
    mkEnv (Some [115]) 1000 1001 1002 1003 (N.shiftl 3735928559 96) 10%N false in
  let first := Sample.serve Sample.env create Sample.db in
  let second := Sample.serve later create (snd first) in
  json_field "slug" (body (fst first)) = Some (JString (str "hello-world-2024"))
  /\ json_field "slug" (body (fst second))
     = Some (JString (str "hello-world-2024-deadbeef")).
Proof. split; vm_compute; reflexivity. Qed.

Example end_to_end_delete :
  fst (Sample.serve Sample.env (mkRequest (Sample.token 2 false) (DELETE_posts (str "5")))
                    Sample.db)
  = forbidden
  /\ status (fst (Sample.serve Sample.env
                    (mkRequest (Sample.token 3 true) (DELETE_posts (str "5")))
                    Sample.db))
     = StatusOK.
Proof. split; vm_compute; reflexivity. Qed.

(** * Further properties of the code *)

(** ** The shape of generated slugs *)

Section SlugShape.

Variable lower_nonascii : rune -> rune.

Lemma TrimRight_last (s t : gostring) (a : rune) :
  Slug.TrimRight s = t ++ [a] -> is_hyphen a = false.
Proof.
  revert t. induction s as [|b r IH]; intros t E.
  - destruct t; discriminate.
  - cbn [Slug.TrimRight] in E. destruct (Slug.TrimRight r) as [|c r'] eqn:Er.
    + destruct (is_hyphen b) eqn:Hb.
      * destruct t; discriminate.
      * destruct t as [|x [|y t]]; try discriminate.
        injection E as <-. exact Hb.
    + destruct t as [|x t].
      * discriminate.
      * injection E as _ E. apply (IH t). exact E.
Qed.

Lemma well_hyphenated_generateSlug (x : gostring) :
  well_hyphenated (Slug.generateSlug lower_nonascii x).
Proof.
  repeat split.
  - apply generateSlug_no_double_hyphen.
  - intros a t E. unfold Slug.generateSlug in E.
    pose proof (Trim_head
                  (Slug.collapse_loop
                     (Slug.removeSpecialChars
                        (Slug.replace_spaces
                           (Slug.strings_ToLower lower_nonascii x))))) as H.
    rewrite E in H. exact H.
  - intros t a E. unfold Slug.generateSlug, Slug.Trim in E.
    apply TrimRight_last in E. exact E.
Qed.

(** X1: a slug generated for a post or a category never has two hyphens
    in a row and neither starts nor ends with a hyphen, whatever the
    input. *)
Theorem generated_slugs_well_hyphenated (x : gostring) :
  well_hyphenated (PostHandler.generateSlug lower_nonascii x)
  /\ well_hyphenated (CategoryHandler.generateCategorySlug lower_nonascii x).
Proof. split; apply well_hyphenated_generateSlug. Qed.

Lemma hcons_length (a : rune) (s : gostring) :
  (List.length (SlugSpec.hcons a s) <= S (List.length s))%nat.
Proof.
  destruct s as [|b t]; cbn [SlugSpec.hcons List.length]; [lia|].
  destruct (is_hyphen a && is_hyphen b); cbn [List.length]; lia.
Qed.

Lemma squeeze_length (s : gostring) :
  (List.length (SlugSpec.squeeze s) <= List.length s)%nat.
Proof.
  induction s as [|a t IH]; cbn [SlugSpec.squeeze List.length]; [lia|].
  pose proof (hcons_length a (SlugSpec.squeeze t)). lia.
Qed.

Lemma TrimLeft_length (s : gostring) :
  (List.length (Slug.TrimLeft s) <= List.length s)%nat.
Proof.
  induction s as [|a t IH]; cbn [Slug.TrimLeft List.length]; [lia|].
  destruct (is_hyphen a); cbn [List.length]; lia.
Qed.

Lemma TrimRight_length (s : gostring) :
  (List.length (Slug.TrimRight s) <= List.length s)%nat.
Proof.
  induction s as [|a t IH]; cbn [Slug.TrimRight List.length]; [lia|].
  destruct (Slug.TrimRight t) as [|b r].
  - destruct (is_hyphen a); cbn [List.length] in *; lia.
  - cbn [List.length] in *. lia.
Qed.

(** X2: a generated slug is never longer than the text it is generated
    from, counted in code points. *)
Theorem generateSlug_not_longer (x : gostring) :
  (List.length (PostHandler.generateSlug lower_nonascii x) <= List.length x)%nat.
Proof.
  unfold PostHandler.generateSlug, Slug.generateSlug, Slug.Trim.
  rewrite collapse_loop_squeeze.
  set (l := Slug.removeSpecialChars _).
  pose proof (TrimRight_length (Slug.TrimLeft (SlugSpec.squeeze l))).
  pose proof (TrimLeft_length (SlugSpec.squeeze l)).
  pose proof (squeeze_length l).
  assert (List.length l <= List.length x)%nat.
  { subst l. unfold Slug.removeSpecialChars, Slug.replace_spaces,
      Slug.strings_ToLower.
    etransitivity; [apply List.filter_length_le|].
    rewrite !List.length_map. lia. }
  lia.
Qed.

Lemma squeeze_all_hyphens (s : gostring) :
  Forall (fun r => is_hyphen r = true) (SlugSpec.squeeze s)
  <-> Forall (fun r => is_hyphen r = true) s.
Proof.
  split; [|apply Forall_squeeze].
  induction s as [|a t IH]; [constructor|].
  cbn [SlugSpec.squeeze]. intro H.
  destruct (SlugSpec.squeeze t) as [|b r] eqn:E.
  - cbn [SlugSpec.hcons] in H. inversion H; subst.
    constructor; [assumption|]. apply IH. constructor.
  - cbn [SlugSpec.hcons] in H.
    destruct (is_hyphen a && is_hyphen b) eqn:Hab.
    + apply andb_true_iff in Hab. destruct Hab as [Ha _].
      constructor; [exact Ha|]. apply IH. exact H.
    + inversion H; subst. constructor; [assumption|]. apply IH. assumption.
Qed.

Lemma TrimLeft_nil (s : gostring) :
  Slug.TrimLeft s = [] <-> Forall (fun r => is_hyphen r = true) s.
Proof.
  induction s as [|a t IH]; [split; [constructor | reflexivity]|].
  cbn [Slug.TrimLeft]. destruct (is_hyphen a) eqn:Ha.
  - rewrite IH. split; intro H; [constructor; assumption | inversion H; assumption].
  - split; [discriminate|]. intro H. inversion H; subst. congruence.
Qed.

Lemma TrimRight_nil (s : gostring) :
  Slug.TrimRight s = [] <-> Forall (fun r => is_hyphen r = true) s.
Proof.
  induction s as [|a t IH]; [split; [constructor | reflexivity]|].
  cbn [Slug.TrimRight]. destruct (Slug.TrimRight t) as [|b r] eqn:E.
  - destruct (is_hyphen a) eqn:Ha.
    + split; [|reflexivity]. intros _. constructor; [exact Ha|].
      apply IH. reflexivity.
    + split; [discriminate|]. intro H. inversion H; subst. congruence.
  - split; [discriminate|]. intro H. inversion H; subst.
    destruct IH as [_ IH]. specialize (IH H3). discriminate.
Qed.

Lemma Trim_nil (s : gostring) :
  Slug.Trim s = [] <-> Forall (fun r => is_hyphen r = true) s.
Proof.
  unfold Slug.Trim. rewrite TrimRight_nil. split.
  - intro H. apply TrimLeft_nil.
    pose proof (TrimLeft_head s) as Hh.
    destruct (Slug.TrimLeft s) as [|a t]; [reflexivity|].
    inversion H; subst. congruence.
  - intro H. apply TrimLeft_nil in H. rewrite H. constructor.
Qed.

(** X3: the generated slug is empty exactly when no code point of the
    text lower-cases to a letter, a digit or whitespace other than the
    space: such a title or name gets the empty slug. *)
Theorem generateSlug_empty_iff (x : gostring) :
  PostHandler.generateSlug lower_nonascii x = []
  <-> forallb (fun r => negb (leaves_a_mark (Slug.unicode_ToLower lower_nonascii r)))
              x = true.
Proof.
  unfold PostHandler.generateSlug, Slug.generateSlug.
  rewrite collapse_loop_squeeze, Trim_nil, squeeze_all_hyphens.
  unfold Slug.removeSpecialChars, Slug.replace_spaces, Slug.strings_ToLower.
  rewrite List.map_map, forallb_forall, Forall_forall.
  assert (Hc : forall r,
             (Slug.kept_by_regexp
                (if Slug.unicode_ToLower lower_nonascii r =? space
                 then hyphen else Slug.unicode_ToLower lower_nonascii r) = true ->
              is_hyphen (if Slug.unicode_ToLower lower_nonascii r =? space
                         then hyphen else Slug.unicode_ToLower lower_nonascii r)
              = true)
             <-> negb (leaves_a_mark (Slug.unicode_ToLower lower_nonascii r)) = true).
  { intro r. unfold leaves_a_mark.
    destruct (Slug.unicode_ToLower lower_nonascii r =? space) eqn:Es.
    - rewrite andb_false_r. split; reflexivity.
    - rewrite andb_true_r.
      destruct (Slug.kept_by_regexp (Slug.unicode_ToLower lower_nonascii r));
        destruct (is_hyphen (Slug.unicode_ToLower lower_nonascii r));
        cbn; split; auto; discriminate. }
  split.
  - intros H r Hr. apply Hc. intro Hk. apply H.
    apply filter_In. split; [|exact Hk].
    apply in_map_iff. exists r. split; [reflexivity | exact Hr].
  - intros H l Hl. apply filter_In in Hl. destruct Hl as [Hin Hk].
    apply in_map_iff in Hin. destruct Hin as [r [<- Hr]].
    apply Hc; [apply H; exact Hr | exact Hk].
Qed.

End SlugShape.

(** ** Requests that fail leave nothing behind *)

Ltac walk_result :=
  repeat (cbn [fst snd];
          match goal with
          | |- context [snd (match ?x with _ => _ end)] => destruct_innermost x
          end);
  cbn [fst snd status JSON].

Ltac kept_or_succeeded :=
  lazymatch goal with
  | |- ?d = ?d \/ _ => left; reflexivity
  | |- _ => right; split; [reflexivity | auto]
  end.

Section AtomicityFacts.

Variable lower_nonascii : rune -> rune.
Variable uuid_Parse : gostring -> option uuid.
Variable HashPassword : gostring -> option gostring.
Variable is_email : gostring -> bool.
Variable jwt_decode : gostring -> option Auth.JWTClaim.
Variable jwt_verify : gostring -> gostring -> bool.

Let handle := Routes.handle lower_nonascii uuid_Parse HashPassword is_email.
Let serve :=
  Routes.serve lower_nonascii uuid_Parse HashPassword is_email jwt_decode jwt_verify.

Lemma handle_writes_on_success env c e db :
  snd (handle env c e db) = db
  \/ (is_GET e = false
      /\ (status (fst (handle env c e db)) = StatusOK
          \/ status (fst (handle env c e db)) = StatusCreated)).
Proof.
  unfold handle, Routes.handle.
  destruct e; autounfold with handlers; walk_result; kept_or_succeeded.
Qed.

(** X4: on every route, a request changes the store only if the route is
    not a GET route and the response has status 200 or 201: reads write
    nothing, and a request that is turned away or fails leaves the
    store as it was. *)
Theorem serve_writes_only_on_success env req db :
  snd (serve env req db) = db
  \/ (is_GET (endpoint req) = false
      /\ (status (fst (serve env req db)) = StatusOK
          \/ status (fst (serve env req db)) = StatusCreated)).
Proof.
  unfold serve, Routes.serve.
  destruct (Routes.protected (endpoint req)).
  - destruct (Middleware.AuthMiddleware jwt_decode jwt_verify env
                (Authorization req) []) as [c|r].
    + apply handle_writes_on_success.
    + left. reflexivity.
  - apply handle_writes_on_success.
Qed.

End AtomicityFacts.

(** ** Authentication in front of the protected routes *)



Lemma strings_Split_whole (u : gostring) :
  has_space u = false -> strings_Split u = [u].
Proof.
  induction u as [|a u IH]; [reflexivity|].
  unfold has_space. cbn [existsb strings_Split].
  destruct (a =? space); [discriminate|]. cbn [orb]. intro H.
  rewrite (IH H). reflexivity.
Qed.

Section GateFacts.

Variable lower_nonascii : rune -> rune.
Variable uuid_Parse : gostring -> option uuid.
Variable HashPassword : gostring -> option gostring.
Variable is_email : gostring -> bool.
Variable jwt_decode : gostring -> option Auth.JWTClaim.
Variable jwt_verify : gostring -> gostring -> bool.

Let handle := Routes.handle lower_nonascii uuid_Parse HashPassword is_email.
Let serve :=
  Routes.serve lower_nonascii uuid_Parse HashPassword is_email jwt_decode jwt_verify.
Let AuthMiddleware := Middleware.AuthMiddleware jwt_decode jwt_verify.
Let ValidateToken := Auth.ValidateToken jwt_decode jwt_verify.


Lemma AuthMiddleware_accepts env tok secret claims c :
  config_JWTSecret env = Some secret ->
  has_space tok = false ->
  ValidateToken tok secret (jwt_TimeFunc env) (auth_Now env) = Auth.Ok claims ->
  AuthMiddleware env (str "Bearer " ++ tok) c = Middleware.Next (context_of claims c).
Proof.
  intros Hc Hs Hv. unfold AuthMiddleware, Middleware.AuthMiddleware.
  rewrite Hc.
  destruct (strings_Split_Bearer tok) as [q [qs [E1 E2]]].
  rewrite (strings_Split_whole _ Hs) in E1. injection E1 as <- <-.
  rewrite E2.
  change (gostring_eqb (str "Bearer " ++ tok) []) with false. cbv iota.
  change (gostring_eqb (str "Bearer") (str "Bearer")) with true. cbn [negb].
  fold ValidateToken. rewrite Hv. reflexivity.
Qed.



End GateFacts.

(** ** Soft deletion *)

Section SoftDelete.

Context {R : Type} (base : R -> Base.t) (set_base : Base.t -> R -> R)
        (columns : R -> R).
Hypothesis base_set_base : forall b r, base (set_base b r) = b.

Lemma Find_nil (cond : R -> bool) (rows : list R) :
  (forall x, In x rows -> Store.live base x && cond x = false) ->
  Store.Find base columns cond rows = [].
Proof.
  intro H. unfold Store.Find.
  induction rows as [|a t IH]; [reflexivity|].
  cbn [List.filter]. rewrite (H a (or_introl eq_refl)).
  apply IH. intros x Hx. apply H. right. exact Hx.
Qed.

Lemma Delete_hides refuses now r rows rows' :
  Store.Delete base set_base refuses now r rows = Some rows' ->
  Store.First base columns (Store.has_id base (Store.id_of base r)) rows' = None
  /\ List.map (Store.id_of base) rows' = List.map (Store.id_of base) rows.
Proof.
  unfold Store.Delete. destruct refuses; [discriminate|].
  intro H. injection H as <-. split.
  - unfold Store.First. rewrite Find_nil; [reflexivity|].
    intros x Hx. apply in_map_iff in Hx. destruct Hx as [y [<- _]].
    destruct (Store.has_id base (Store.id_of base r) y && Store.live base y) eqn:E.
    + unfold Store.live at 1. rewrite base_set_base. reflexivity.
    + rewrite andb_comm. exact E.
  - rewrite List.map_map. apply List.map_ext. intro y.
    destruct (Store.has_id base (Store.id_of base r) y && Store.live base y);
      [|reflexivity].
    unfold Store.id_of. rewrite base_set_base. reflexivity.
Qed.

Lemma First_has_id cond rows r :
  Store.First base columns cond rows = Some r ->
  (forall x, base (columns x) = base x) ->
  forall id, (forall x, cond x = true -> Store.id_of base x = id) ->
  Store.id_of base r = id.
Proof.
  intros H Hc id Hid. apply First_Some in H.
  destruct H as (row & _ & _ & Hcond & ->).
  unfold Store.id_of. rewrite Hc. apply Hid. exact Hcond.
Qed.

End SoftDelete.

Lemma First_post_id id rows post :
  Store.First_post (Store.has_id Post.base id) rows = Some post ->
  Store.id_of Post.base post = id.
Proof.
  intro H. apply (First_has_id Post.base Post.columns _ _ _ H).
  - reflexivity.
  - intros x Hx. apply N.eqb_eq. exact Hx.
Qed.

Section DeletePostFacts.

Variable lower_nonascii : rune -> rune.
Variable uuid_Parse : gostring -> option uuid.

Let DeletePost := PostHandler.DeletePost uuid_Parse.
Let GetPostByID := PostHandler.GetPostByID uuid_Parse.
Let UpdatePost := PostHandler.UpdatePost lower_nonascii uuid_Parse.
Let CreateComment := CommentHandler.CreateComment uuid_Parse.

(** X7: once [DeletePost] has answered 200, the post is gone for the
    other handlers: reading it, updating it, deleting it again and
    commenting on it all answer 404 "post not found". The row itself
    stays in the table (soft delete), and no other table changes. *)
Theorem deleted_post_not_found env c id db :
  status (fst (DeletePost env c id db)) = StatusOK ->
  let db' := snd (DeletePost env c id db) in
  let not_found := JSON StatusNotFound (error_H "post not found") in
  fst (GetPostByID id db') = not_found
  /\ (forall env' c' body, fst (UpdatePost env' c' id body db') = not_found)
  /\ (forall env' c', fst (DeletePost env' c' id db') = not_found)
  /\ (forall env' c' body, fst (CreateComment env' c' id body db') = not_found)
  /\ List.map (Store.id_of Post.base) (Store.posts db')
     = List.map (Store.id_of Post.base) (Store.posts db)
  /\ Store.users db' = Store.users db
  /\ Store.comments db' = Store.comments db
  /\ Store.categories db' = Store.categories db
  /\ Store.post_categories db' = Store.post_categories db.
Proof.
  unfold DeletePost, GetPostByID, UpdatePost, CreateComment,
    PostHandler.DeletePost, PostHandler.GetPostByID, PostHandler.UpdatePost,
    CommentHandler.CreateComment.
  destruct (uuid_Parse id) as [postUUID|]; [|discriminate].
  destruct (Store.First_post _ (Store.posts db)) as [post|] eqn:Ef; [|discriminate].
  destruct (Get "userID" c) as [userID|]; [|discriminate].
  destruct (Get "role" c) as [userRole|]; [|discriminate].
  destruct (denied userID userRole (Post.AuthorID post)); [discriminate|].
  destruct (Store.Delete _ _ _ _ post (Store.posts db)) as [posts'|] eqn:Ed;
    [|discriminate].
  intros _. cbn [fst snd Store.posts Store.set_posts Store.users Store.comments
                 Store.categories Store.post_categories].
  apply First_post_id in Ef.
  apply (Delete_hides Post.base Post.set_base Post.columns) in Ed;
    [|reflexivity].
  rewrite Ef in Ed. destruct Ed as [Eh Eids].
  unfold Store.First_post. rewrite Eh.
  repeat split; auto.
Qed.

End DeletePostFacts.

(** ** Categories *)

Lemma First_category_id id rows cat :
  Store.First_category (Store.has_id Category.base id) rows = Some cat ->
  Store.id_of Category.base cat = id.
Proof.
  intro H. apply (First_has_id Category.base Store.same _ _ _ H).
  - reflexivity.
  - intros x Hx. apply N.eqb_eq. exact Hx.
Qed.

Section CategoryFacts.

Variable lower_nonascii : rune -> rune.
Variable uuid_Parse : gostring -> option uuid.

Let CreateCategory := CategoryHandler.CreateCategory lower_nonascii.
Let UpdateCategory := CategoryHandler.UpdateCategory lower_nonascii uuid_Parse.
Let DeleteCategory := CategoryHandler.DeleteCategory uuid_Parse.
Let GetCategoryByID := CategoryHandler.GetCategoryByID uuid_Parse.

Lemma admin_only_cases c :
  (admin_context c = true /\ CategoryHandler.admin_only c = None)
  \/ (admin_context c = false
      /\ CategoryHandler.admin_only c = Some (not_admin_response c)).
Proof.
  unfold admin_context, CategoryHandler.admin_only, not_admin_response.
  destruct (Get "role" c) as [[u|roleStr]|]; auto.
  destruct (is_admin roleStr); auto.
Qed.

(** X8: creating, updating and deleting a category is for administrators
    only, and this is checked before anything else: whatever the
    identifier and the body, a caller whose context has no role is
    answered 401, one whose role is not [admin] is answered 403, and the
    store stays as it was. A change of the store implies the role
    [admin]. *)
Theorem category_mutations_admin_only env c id body db :
  (admin_context c = false ->
   CreateCategory env c body db = (not_admin_response c, db)
   /\ UpdateCategory env c id body db = (not_admin_response c, db)
   /\ DeleteCategory env c id db = (not_admin_response c, db))
  /\ (snd (CreateCategory env c body db) <> db
      \/ snd (UpdateCategory env c id body db) <> db
      \/ snd (DeleteCategory env c id db) <> db ->
      Get "role" c = Some (AnyString (str "admin"))).
Proof.
  assert (G : admin_context c = false ->
              CreateCategory env c body db = (not_admin_response c, db)
              /\ UpdateCategory env c id body db = (not_admin_response c, db)
              /\ DeleteCategory env c id db = (not_admin_response c, db)).
  { intro H. unfold CreateCategory, UpdateCategory, DeleteCategory,
      CategoryHandler.CreateCategory, CategoryHandler.UpdateCategory,
      CategoryHandler.DeleteCategory.
    destruct (admin_only_cases c) as [[Ha _]|[_ ->]]; [congruence|].
    repeat split. }
  split; [exact G|].
  intro H. destruct (admin_context c) eqn:Ea.
  - unfold admin_context in Ea.
    destruct (Get "role" c) as [[u|roleStr]|]; try discriminate.
    apply gostring_eqb_eq in Ea. rewrite Ea. reflexivity.
  - destruct (G eq_refl) as (E1 & E2 & E3). rewrite E1, E2, E3 in H.
    cbn [snd] in H. tauto.
Qed.

Lemma association_Posts_Clear_spec cat_id d p c :
  In (p, c) (Store.post_categories (CategoryHandler.association_Posts_Clear cat_id d))
  <-> In (p, c) (Store.post_categories d) /\ c <> cat_id.
Proof.
  unfold CategoryHandler.association_Posts_Clear.
  cbn [Store.post_categories Store.set_post_categories].
  rewrite filter_In. cbn [snd]. rewrite negb_true_iff, N.eqb_neq. reflexivity.
Qed.

(** X9: when [DeleteCategory] has passed the admin check and found the
    category, the links between posts and that category are removed
    whether or not the delete that follows succeeds: if the store
    refuses the delete, the answer is 500, the category is still there
    and its links are gone all the same. If the delete succeeds, the
    category is no longer found. *)
Theorem DeleteCategory_unlinks_posts env c id db categoryUUID category :
  admin_context c = true ->
  uuid_Parse id = Some categoryUUID ->
  Store.First_category (Store.has_id Category.base categoryUUID)
                       (Store.categories db) = Some category ->
  let r := DeleteCategory env c id db in
  (forall p k, In (p, k) (Store.post_categories (snd r))
               <-> In (p, k) (Store.post_categories db) /\ k <> categoryUUID)
  /\ Store.posts (snd r) = Store.posts db
  /\ (store_refuses env = true ->
      fst r = JSON StatusInternalServerError (error_H "failed to delete category")
      /\ Store.categories (snd r) = Store.categories db)
  /\ (store_refuses env = false ->
      fst r = JSON StatusOK (gin_H "message" "category deleted successfully")
      /\ fst (GetCategoryByID id (snd r))
         = JSON StatusNotFound (error_H "category not found")).
Proof.
  intros Ha Hp Hf. unfold DeleteCategory, GetCategoryByID,
    CategoryHandler.DeleteCategory, CategoryHandler.GetCategoryByID.
  destruct (admin_only_cases c) as [[_ ->]|[Hn _]]; [|congruence].
  rewrite Hp, Hf. pose proof (First_category_id _ _ _ Hf) as Hid.
  rewrite Hid. cbv zeta.
  destruct (store_refuses env) eqn:Er.
  - cbn [Store.Delete fst snd].
    split; [intros p k; apply association_Posts_Clear_spec|].
    split; [reflexivity|]. split; [|discriminate].
    intros _. split; reflexivity.
  - destruct (Store.Delete Category.base CategoryHandler.category_set_base false
                (gorm_Now env) category
                (Store.categories
                   (CategoryHandler.association_Posts_Clear categoryUUID db)))
      as [categories'|] eqn:Ed; [|discriminate].
    apply (Delete_hides Category.base CategoryHandler.category_set_base Store.same)
      in Ed; [|reflexivity].
    rewrite Hid in Ed. destruct Ed as [Eh _].
    cbn [fst snd].
    split; [intros p k; apply association_Posts_Clear_spec|].
    split; [reflexivity|]. split; [discriminate|].
    intros _. split; [reflexivity|].
    cbn [Store.categories CategoryHandler.set_categories].
    unfold Store.First_category. rewrite Eh. reflexivity.
Qed.

End CategoryFacts.

(** ** The public list of posts *)

Lemma In_firstn_list {A : Type} (n : nat) (l : list A) (x : A) :
  In x (List.firstn n l) -> In x l.
Proof.
  intro H. rewrite <- (List.firstn_skipn n l). apply in_or_app. left. exact H.
Qed.

Lemma In_skipn_list {A : Type} (n : nat) (l : list A) (x : A) :
  In x (List.skipn n l) -> In x l.
Proof.
  intro H. rewrite <- (List.firstn_skipn n l). apply in_or_app. right. exact H.
Qed.

Lemma In_Find_post cond rows p :
  In p (Store.Find_post cond rows) ->
  exists row, In row rows /\ Store.live Post.base row = true /\ cond row = true
              /\ p = Post.columns row.
Proof.
  unfold Store.Find_post, Store.Find. intro H.
  apply in_map_iff in H. destruct H as [row [<- H]].
  apply filter_In in H. destruct H as [Hin Hc].
  apply andb_true_iff in Hc. destruct Hc as [Hl Hc].
  exists row. repeat split; assumption.
Qed.

Section PostListFacts.

Variable limit_zero_applies : bool.

Let GetAllPosts := PostList.GetAllPosts limit_zero_applies.

Lemma In_db_Limit {A : Type} limit (rows : list A) x :
  In x (PostList.db_Limit limit_zero_applies limit rows) -> In x rows.
Proof.
  unfold PostList.db_Limit. destruct (0 <? limit).
  - apply In_firstn_list.
  - destruct ((limit =? 0) && limit_zero_applies); [intros []|auto].
Qed.

Lemma db_Limit_length {A : Type} limit (rows : list A) :
  0 < limit ->
  Z.of_nat (List.length (PostList.db_Limit limit_zero_applies limit rows)) <= limit.
Proof.
  intro H. unfold PostList.db_Limit.
  destruct (0 <? limit) eqn:E; [|apply Z.ltb_ge in E; lia].
  pose proof (List.firstn_le_length (Z.to_nat limit) rows). lia.
Qed.

(** X10: the public list of posts answers 200 with posts that all carry
    the status asked for in the query, and [published] when none is
    asked for: a query for [draft] lists drafts to anyone. The author's
    role is blanked and no password is shown. The list holds at most 10
    posts, or the positive number given as limit, and the page parameter
    has no effect. *)
Theorem GetAllPosts_lists_requested_status c pageQuery limitQuery status db :
  let wanted := if nonempty status then status else str "published" in
  exists elems,
    GetAllPosts c pageQuery limitQuery status db = (JSON StatusOK (JArray elems), db)
    /\ GetAllPosts c None limitQuery status db = (JSON StatusOK (JArray elems), db)
    /\ (forall j, In j elems ->
                  json_field "status" j = Some (JString wanted)
                  /\ author_role j = Some (JString [])
                  /\ password_free j)
    /\ (match limitQuery with
        | None => Z.of_nat (List.length elems) <= 10
        | Some limitStr =>
            match strconv_Atoi limitStr with
            | None => Z.of_nat (List.length elems) <= 10
            | Some limitVal =>
                0 < limitVal -> Z.of_nat (List.length elems) <= limitVal
            end
        end).
Proof.
  intro wanted. unfold GetAllPosts, PostList.GetAllPosts. fold wanted.
  eexists. split; [reflexivity|].
  split; [destruct pageQuery; reflexivity|].
  split.
  - intros j Hj. rewrite !List.map_map in Hj.
    apply in_map_iff in Hj. destruct Hj as [p [<- Hp]].
    apply In_db_Limit in Hp.
    assert (Hf : In p (Store.Find_post
                         (fun p => gostring_eqb (Post.Status p) wanted)
                         (Store.posts db))).
    { destruct pageQuery; cbn [Z.sub Z.mul Z.add Z.opp Z.pos_sub] in Hp;
        unfold PostList.db_Offset in Hp;
        match type of Hp with
        | In _ (if ?b then _ else _) =>
            destruct b; [apply In_skipn_list in Hp|]; exact Hp
        end. }
    apply In_Find_post in Hf. destruct Hf as (row & _ & _ & Hc & ->).
    apply gostring_eqb_eq in Hc. split; [|split].
    + cbn. rewrite Hc. reflexivity.
    + reflexivity.
    + apply Post_password_free.
  - rewrite !List.length_map.
    destruct limitQuery as [limitStr|];
      [destruct (strconv_Atoi limitStr) as [limitVal|]; [intro Hpos|]|];
      apply db_Limit_length; lia.
Qed.

End PostListFacts.

(** ** Login and the tokens it issues *)

Section LoginFacts.

Variable uuid_Parse : gostring -> option uuid.
Variable NewNumericDate : time -> time.
Variable jwt_sign : Auth.JWTClaim -> gostring -> option gostring.
Variable CheckPasswordHash : gostring -> gostring -> bool.
Variable jwt_decode : gostring -> option Auth.JWTClaim.
Variable jwt_verify : gostring -> gostring -> bool.

(** The numeric dates of the token library are instants cut to whole
    seconds. *)
Hypothesis NewNumericDate_floor :
  forall t, NewNumericDate t <= t < NewNumericDate t + time_Second.

Let Login := Issue.Login NewNumericDate jwt_sign CheckPasswordHash.
Let claims := Issue.claims NewNumericDate.
Let AuthMiddleware := Middleware.AuthMiddleware jwt_decode jwt_verify.
Let ValidateToken := Auth.ValidateToken jwt_decode jwt_verify.

Lemma issued_claims_validate now1 now2 now3 user tok secret t_lib t_now :
  jwt_decode tok = Some (claims now1 now2 now3 user) ->
  jwt_verify tok secret = true ->
  now2 <= t_lib -> now3 <= t_lib ->
  t_lib <= now1 + 24 * time_Hour - time_Second ->
  t_now <= now1 + 24 * time_Hour - time_Second ->
  ValidateToken tok secret t_lib t_now = Auth.Ok (claims now1 now2 now3 user).
Proof.
  intros Hd Hv H2 H3 Hl Hn.
  unfold ValidateToken, Auth.ValidateToken, Auth.ParseWithClaims.
  rewrite Hd, Hv.
  unfold Auth.expired, Auth.not_valid_yet, Auth.used_before_issued, claims,
    Issue.claims.
  cbn [Auth.Registered Auth.ExpiresAt Auth.NotBefore Auth.IssuedAt negb].
  pose proof (NewNumericDate_floor (now1 + 24 * time_Hour)) as F1.
  pose proof (NewNumericDate_floor now2) as F2.
  pose proof (NewNumericDate_floor now3) as F3.
  replace (t_lib <? NewNumericDate (now1 + 24 * time_Hour)) with true
    by (symmetry; apply Z.ltb_lt; lia).
  replace (t_lib <? NewNumericDate now3) with false
    by (symmetry; apply Z.ltb_ge; lia).
  replace (t_lib <? NewNumericDate now2) with false
    by (symmetry; apply Z.ltb_ge; lia).
  cbn [negb orb Auth.Registered Auth.ExpiresAt].
  replace (NewNumericDate (now1 + 24 * time_Hour) <? t_now) with false
    by (symmetry; apply Z.ltb_ge; lia).
  reflexivity.
Qed.

(** X11: [Login] answers 200 only for the password of a live user, and
    the token it returns is the signature of that user's claims. Sent
    back as a bearer token, with the library decoding what it signed, it
    passes [AuthMiddleware] from the moment of issue until one second
    short of 24 hours later, and the handlers then see the identifier
    and the role stored for that user. *)
Theorem Login_token_authenticates env now1 now2 now3 body db :
  status (fst (Login env now1 now2 now3 body db)) = StatusOK ->
  exists req user secret tok,
    body = Some req
    /\ Store.First_user
         (fun u => gostring_eqb (User.Username u) (LoginRequest.Username req))
         (Store.users db) = Some user
    /\ CheckPasswordHash (LoginRequest.Password req) (User.Password user) = true
    /\ config_JWTSecret env = Some secret
    /\ jwt_sign (claims now1 now2 now3 user) secret = Some tok
    /\ Login env now1 now2 now3 body db
       = (JSON StatusOK (marshal_TokenResponse tok (str "Bearer")), db)
    /\ forall env' c,
         config_JWTSecret env' = Some secret ->
         jwt_decode tok = Some (claims now1 now2 now3 user) ->
         jwt_verify tok secret = true ->
         has_space tok = false ->
         now2 <= jwt_TimeFunc env' -> now3 <= jwt_TimeFunc env' ->
         jwt_TimeFunc env' <= now1 + 24 * time_Hour - time_Second ->
         auth_Now env' <= now1 + 24 * time_Hour - time_Second ->
         exists c',
           AuthMiddleware env' (str "Bearer " ++ tok) c = Middleware.Next c'
           /\ Get "userID" c' = Some (AnyUUID (Store.id_of User.base user))
           /\ Get "role" c' = Some (AnyString (User.Role user)).
Proof.
  unfold Login, Issue.Login, Issue.bind_LoginRequest.
  destruct body as [req|]; [|discriminate].
  destruct (nonempty (LoginRequest.Username req)
            && nonempty (LoginRequest.Password req)); [|discriminate].
  destruct (Store.First_user _ (Store.users db)) as [user|] eqn:Ef; [|discriminate].
  destruct (CheckPasswordHash _ _) eqn:Ec; cbn [negb]; [|discriminate].
  destruct (config_JWTSecret env) as [secret|] eqn:Es; [|discriminate].
  unfold Issue.GenerateToken.
  destruct (jwt_sign _ secret) as [tok|] eqn:Et; [|discriminate].
  intros _. exists req, user, secret, tok.
  repeat (split; [reflexivity || assumption|]).
  intros env' c Hs Hd Hv Hsp H2 H3 Hl Hn.
  exists (context_of (claims now1 now2 now3 user) c). split.
  - apply (AuthMiddleware_accepts jwt_decode jwt_verify env' tok secret);
      try assumption.
    apply issued_claims_validate; assumption.
  - split; reflexivity.
Qed.

Lemma Delete_user_hides_name refuses now user rows rows' name :
  Store.Delete User.base User.set_base refuses now user rows = Some rows' ->
  (forall v, In v rows -> User.Username v = name ->
             Store.id_of User.base v = Store.id_of User.base user) ->
  Store.First_user (fun u => gostring_eqb (User.Username u) name) rows' = None.
Proof.
  unfold Store.Delete. destruct refuses; [discriminate|].
  intros H Hu. injection H as <-.
  unfold Store.First_user, Store.First. rewrite Find_nil; [reflexivity|].
  intros x Hx. apply in_map_iff in Hx. destruct Hx as [y [<- Hy]].
  destruct (gostring_eqb (User.Username y) name) eqn:En.
  - apply gostring_eqb_eq in En. specialize (Hu y Hy En).
    unfold Store.has_id. rewrite Hu, N.eqb_refl. cbn [andb].
    destruct (Store.live User.base y) eqn:El.
    + reflexivity.
    + rewrite El. reflexivity.
  - destruct (Store.has_id User.base (Store.id_of User.base user) y
              && Store.live User.base y).
    + reflexivity.
    + rewrite En. apply andb_false_r.
Qed.

Let DeleteUser := UserHandler.DeleteUser uuid_Parse.

(** X12: a deleted account is closed: once [DeleteUser] has answered 200
    for a user, [GetMe] no longer finds the account behind that user's
    identifier, and [Login] answers 401 "invalid credentials" for every
    username that no other row of the users table carries, whatever the
    password. *)
Theorem deleted_user_cannot_log_in env c id db userUUID :
  status (fst (DeleteUser env c id db)) = StatusOK ->
  uuid_Parse id = Some userUUID ->
  let db' := snd (DeleteUser env c id db) in
  (forall c', Get "userID" c' = Some (AnyUUID userUUID) ->
              fst (UserHandler.GetMe c' db')
              = JSON StatusInternalServerError (error_H "failed to get user"))
  /\ (forall env' now1 now2 now3 req,
         nonempty (LoginRequest.Username req) = true ->
         nonempty (LoginRequest.Password req) = true ->
         (forall v, In v (Store.users db) ->
                    User.Username v = LoginRequest.Username req ->
                    Store.id_of User.base v = userUUID) ->
         fst (Login env' now1 now2 now3 (Some req) db')
         = JSON StatusUnauthorized (error_H "invalid credentials")).
Proof.
  unfold DeleteUser, UserHandler.DeleteUser.
  intros H Hp. rewrite Hp in *. revert H.
  destruct (Get "userID" c) as [[requester|s]|]; try discriminate.
  destruct (negb (userUUID =? requester)%N
            && negb (is_admin (UserHandler.role_or_empty c)));
    [discriminate|].
  destruct (Store.user_by_id userUUID db) as [user|] eqn:Ef; [|discriminate].
  destruct (Store.Delete _ _ _ _ user (Store.users db)) as [users'|] eqn:Ed;
    [|discriminate].
  intros _. cbn [snd].
  assert (Hid : Store.id_of User.base user = userUUID).
  { apply (First_has_id User.base Store.same _ _ _ Ef); [reflexivity|].
    intros x Hx. apply N.eqb_eq. exact Hx. }
  split.
  - intros c' Hc. unfold UserHandler.GetMe. rewrite Hc.
    unfold Store.user_by_id. cbn [Store.users Store.set_users].
    apply (Delete_hides User.base User.set_base Store.same) in Ed;
      [|reflexivity].
    rewrite Hid in Ed. destruct Ed as [Eh _].
    unfold Store.First_user. rewrite Eh. reflexivity.
  - intros env' now1 now2 now3 req Hu Hpw Huniq.
    unfold Login, Issue.Login, Issue.bind_LoginRequest.
    rewrite Hu, Hpw. cbn [andb Store.users Store.set_users].
    rewrite (Delete_user_hides_name _ _ _ _ _ _ Ed); [reflexivity|].
    intros v Hv Hn. rewrite Hid. apply Huniq; assumption.
Qed.

End LoginFacts.

(** ** Registration *)

Section FirstFound.

Context {R : Type} (base : R -> Base.t) (columns : R -> R).



End FirstFound.

Section RegisterFacts.

Variable HashPassword : gostring -> option gostring.
Variable is_email : gostring -> bool.

Let Register := UserHandler.Register HashPassword is_email.
Let bind_RegisterRequest := UserHandler.bind_RegisterRequest is_email.


End RegisterFacts.

(** ** The post that [CreatePost] stores *)

Lemma hex_digit_lower_hex (n : N) :
  (n < 16)%N -> is_lower_hex (hex_digit n) = true.
Proof.
  intro H. unfold is_lower_hex, hex_digit, is_digit.
  destruct (n <? 10)%N eqn:E.
  - apply N.ltb_lt in E. apply orb_true_iff. left.
    apply andb_true_iff. split; apply Z.leb_le; lia.
  - apply N.ltb_ge in E. apply orb_true_iff. right.
    apply andb_true_iff. split; apply Z.leb_le; lia.
Qed.

Lemma uuid_prefix8_shape (u : uuid) :
  List.length (uuid_prefix8 u) = 8%nat
  /\ forallb is_lower_hex (uuid_prefix8 u) = true.
Proof.
  split; [reflexivity|].
  unfold uuid_prefix8. cbn [List.map forallb].
  rewrite !hex_digit_lower_hex; [reflexivity|..]; apply N.mod_lt; discriminate.
Qed.

Section CreatePostFacts.

Variable lower_nonascii : rune -> rune.

Let CreatePost := PostHandler.CreatePost lower_nonascii.
Let generateSlug := PostHandler.generateSlug lower_nonascii.

(** X14: a [CreatePost] answered 201 adds exactly one row to the posts
    table, under a new key: its author is the caller, its title and
    content are those of the request, its status is the requested one
    or [draft]. Its slug is generated from the requested slug, or from
    the title when none is requested; when a live post has that slug
    already, a hyphen and eight lower-case hexadecimal digits are
    appended. Users and comments are untouched. *)
Theorem CreatePost_stores_one_post env c body db :
  status (fst (CreatePost env c body db)) = StatusCreated ->
  exists req authorID p,
    body = Some req
    /\ Get "userID" c = Some (AnyUUID authorID)
    /\ Store.posts (snd (CreatePost env c body db)) = Store.posts db ++ [p]
    /\ existsb (Store.has_id Post.base (Store.id_of Post.base p)) (Store.posts db)
       = false
    /\ Store.live Post.base p = true
    /\ Post.AuthorID p = authorID
    /\ Post.Title p = PostRequest.Title req
    /\ Post.Content p = PostRequest.Content req
    /\ Post.Status p
       = (if nonempty (PostRequest.Status req) then PostRequest.Status req
          else str "draft")
    /\ (let slug := generateSlug (if nonempty (PostRequest.Slug req)
                                  then PostRequest.Slug req
                                  else PostRequest.Title req) in
        match Store.First_post (PostHandler.slug_is slug) (Store.posts db) with
        | None => Post.Slug p = slug
        | Some _ =>
            exists suffix,
              Post.Slug p = slug ++ str "-" ++ suffix
              /\ List.length suffix = 8%nat
              /\ forallb is_lower_hex suffix = true
        end)
    /\ Store.users (snd (CreatePost env c body db)) = Store.users db
    /\ Store.comments (snd (CreatePost env c body db)) = Store.comments db.
Proof.
  unfold CreatePost, generateSlug, PostHandler.CreatePost,
    PostHandler.bind_PostRequest.
  destruct body as [req|]; [|discriminate].
  destruct (nonempty (PostRequest.Title req) && nonempty (PostRequest.Content req));
    [|discriminate].
  destruct (Get "userID" c) as [[authorID|s]|]; try discriminate.
  cbv zeta.
  set (slug0 := if nonempty (PostRequest.Slug req)
                then PostHandler.generateSlug lower_nonascii (PostRequest.Slug req)
                else PostHandler.generateSlug lower_nonascii (PostRequest.Title req)).
  assert (Hs0 : PostHandler.generateSlug lower_nonascii
                  (if nonempty (PostRequest.Slug req)
                   then PostRequest.Slug req else PostRequest.Title req) = slug0).
  { subst slug0. destruct (nonempty (PostRequest.Slug req)); reflexivity. }
  clearbody slug0.
  set (slug := match Store.First_post (PostHandler.slug_is slug0) (Store.posts db) with
               | Some _ => PostHandler.with_suffix env slug0
               | None => slug0
               end).
  set (st := if nonempty (PostRequest.Status req) then PostRequest.Status req
             else str "draft").
  set (post := if PostHandler.is_published st then _ else _).
  assert (Hpost : Post.base post = Base.zero /\ Post.AuthorID post = authorID
                  /\ Post.Title post = PostRequest.Title req
                  /\ Post.Content post = PostRequest.Content req
                  /\ Post.Status post = st /\ Post.Slug post = slug).
  { subst post. destruct (PostHandler.is_published st); repeat split. }
  clearbody post. destruct Hpost as (Hb & Ha & Ht & Hc & Hst & Hsl).
  unfold Store.Create.
  destruct (store_refuses env || _) eqn:Ex; [discriminate|].
  apply orb_false_iff in Ex. destruct Ex as [_ Ex].
  intros _. cbn [fst snd].
  eexists req, authorID, _.
  rewrite attach_categories_posts, attach_categories_users,
    attach_categories_comments.
  cbn [Store.posts Store.users Store.comments Store.set_posts].
  split; [reflexivity|]. split; [reflexivity|]. split; [reflexivity|].
  split; [exact Ex|].
  split; [unfold Store.live; cbn; rewrite Hb; cbn;
          destruct (0 =? uuid_Nil)%N; reflexivity|].
  split; [exact Ha|]. split; [exact Ht|]. split; [exact Hc|].
  split; [exact Hst|].
  split; [|split; reflexivity].
  cbn [Post.columns Post.set_base Post.Slug]. rewrite Hsl, Hs0. subst slug.
  destruct (Store.First_post (PostHandler.slug_is slug0) (Store.posts db)).
  - exists (uuid_prefix8 (uuid_New env)). split; [reflexivity|].
    apply uuid_prefix8_shape.
  - reflexivity.
Qed.

End CreatePostFacts.

(** ** The categories of a post *)

Lemma association_Append_spec pid cid d p c :
  In (p, c) (Store.post_categories (Store.association_Append pid cid d))
  <-> In (p, c) (Store.post_categories d) \/ (p = pid /\ c = cid).
Proof.
  unfold Store.association_Append.
  match goal with
  | |- context [existsb ?f ?l] => destruct (existsb f l) eqn:E
  end.
  - split; [intro H; left; exact H|]. intros [H|[-> ->]]; [exact H|].
    apply existsb_exists in E. destruct E as [[p' c'] [Hin Hpc]].
    cbn [fst snd] in Hpc. apply andb_true_iff in Hpc.
    destruct Hpc as [H1 H2]. apply N.eqb_eq in H1, H2. subst. exact Hin.
  - cbn [Store.post_categories Store.set_post_categories].
    rewrite in_app_iff. cbn [In]. split.
    + intros [H|[H|[]]]; [auto|]. injection H as <- <-. auto.
    + intros [H|[-> ->]]; auto.
Qed.

Lemma association_Append_categories pid cid d :
  Store.categories (Store.association_Append pid cid d) = Store.categories d.
Proof.
  unfold Store.association_Append. destruct (existsb _ _); reflexivity.
Qed.

Lemma attach_categories_categories pid ids d :
  Store.categories (Store.attach_categories pid ids d) = Store.categories d.
Proof.
  revert d. induction ids as [|cid rest IH]; intro d; [reflexivity|].
  cbn [Store.attach_categories].
  destruct (Store.First_category _ (Store.categories d)); rewrite IH;
    [apply association_Append_categories | reflexivity].
Qed.

Lemma attach_categories_links pid ids d p c :
  In (p, c) (Store.post_categories (Store.attach_categories pid ids d))
  <-> In (p, c) (Store.post_categories d)
      \/ (p = pid /\ In c ids /\ category_exists c d).
Proof.
  unfold category_exists.
  revert d. induction ids as [|cid rest IH]; intro d.
  - cbn [Store.attach_categories In]. tauto.
  - cbn [Store.attach_categories In].
    destruct (Store.First_category (Store.has_id Category.base cid)
                                   (Store.categories d)) as [cat|] eqn:E.
    + rewrite IH, association_Append_spec, association_Append_categories.
      pose proof (First_category_id _ _ _ E) as Hid. rewrite Hid.
      split.
      * intros [[H|[-> ->]]|(-> & Hin & Hex)]; auto.
        right. repeat split; auto. rewrite E. discriminate.
      * intros [H|(-> & [<-|Hin] & Hex)]; auto.
    + rewrite IH. split.
      * intros [H|(-> & Hin & Hex)]; auto.
      * intros [H|(-> & [<-|Hin] & Hex)]; auto. congruence.
Qed.

Lemma association_Clear_spec pid d p c :
  In (p, c) (Store.post_categories (Store.association_Clear pid d))
  <-> In (p, c) (Store.post_categories d) /\ p <> pid.
Proof.
  unfold Store.association_Clear.
  cbn [Store.post_categories Store.set_post_categories].
  rewrite filter_In. cbn [fst]. rewrite negb_true_iff, N.eqb_neq. reflexivity.
Qed.

Section PostCategoriesFacts.

Variable lower_nonascii : rune -> rune.
Variable uuid_Parse : gostring -> option uuid.

Let UpdatePost := PostHandler.UpdatePost lower_nonascii uuid_Parse.

(** X15: an [UpdatePost] answered 200 with a list of category
    identifiers replaces the categories of the post by those of the
    list that exist; identifiers of unknown or deleted categories are
    dropped without an error. With an empty list the categories of the
    post stay as they are, so an update cannot remove the last
    category. The categories of other posts and the categories table
    are untouched. *)
Theorem UpdatePost_replaces_categories env c id req db postUUID :
  status (fst (UpdatePost env c id (Some req) db)) = StatusOK ->
  uuid_Parse id = Some postUUID ->
  let db' := snd (UpdatePost env c id (Some req) db) in
  Store.categories db' = Store.categories db
  /\ match PostRequest.CategoryIDs req with
     | [] => Store.post_categories db' = Store.post_categories db
     | _ :: _ =>
         forall p k,
           In (p, k) (Store.post_categories db')
           <-> (p <> postUUID /\ In (p, k) (Store.post_categories db))
               \/ (p = postUUID /\ In k (PostRequest.CategoryIDs req)
                   /\ category_exists k db)
     end.
Proof.
  unfold UpdatePost, PostHandler.UpdatePost. intros H Hp. rewrite Hp in *.
  revert H.
  destruct (Store.First_post _ (Store.posts db)) as [post|] eqn:Ef; [|discriminate].
  destruct (Get "userID" c) as [userID|]; [|discriminate].
  destruct (Get "role" c) as [userRole|]; [|discriminate].
  destruct (denied userID userRole (Post.AuthorID post)); [discriminate|].
  destruct (PostHandler.bind_PostRequest (Some req)) as [req'|] eqn:Eb;
    [|discriminate].
  assert (req' = req) as ->.
  { unfold PostHandler.bind_PostRequest in Eb.
    destruct (_ && _) in Eb; congruence. }
  destruct (Store.Save _ _ _ _ _ _ (Store.posts db)) as [[post' posts']|] eqn:Es;
    [|discriminate].
  intros _. cbn [snd].
  assert (Hid : Store.id_of Post.base post' = postUUID).
  { unfold Store.Save in Es. destruct (store_refuses env); [discriminate|].
    apply First_post_id in Ef.
    destruct (existsb _ _) in Es; injection Es as <- _;
      unfold Store.id_of; cbn [Post.base Post.set_base Store.stamp_update Base.ID];
      rewrite update_fields_base; exact Ef. }
  rewrite Hid.
  destruct (PostRequest.CategoryIDs req) as [|cid rest] eqn:Ei.
  - split; reflexivity.
  - split.
    + rewrite attach_categories_categories. reflexivity.
    + intros p k. rewrite attach_categories_links, association_Clear_spec.
      unfold category_exists.
      cbn [Store.post_categories Store.categories Store.set_posts
           Store.association_Clear Store.set_post_categories].
      split.
      * intros [[H1 H2]|H]; auto.
      * intros [[H1 H2]|H]; auto.
Qed.

End PostCategoriesFacts.

(** ** What requests keep of the stored rows *)

Section TableStep.

Context {R : Type} (base : R -> Base.t) (set_base : Base.t -> R -> R)
        (columns : R -> R).
Variable kept : R -> R -> Prop.
Variable added : R -> list R -> Prop.
Hypothesis kept_refl : forall x, kept x x.
Hypothesis kept_id :
  forall x y, kept x y -> Store.id_of base y = Store.id_of base x.
Hypothesis base_set_base : forall b r, base (set_base b r) = b.
Hypothesis base_columns : forall r, base (columns r) = base r.

Lemma table_step_same before after :
  after = before -> table_step base kept added before after.
Proof.
  intros ->. exists (fun x => x), []. rewrite List.map_id, app_nil_r.
  split; [reflexivity|]. split; [intros x _; apply kept_refl | left; reflexivity].
Qed.

Lemma NoDup_id_eq (l : list R) (x y : R) :
  NoDup (List.map (Store.id_of base) l) ->
  In x l -> In y l ->
  Store.id_of base x = Store.id_of base y -> x = y.
Proof.
  induction l as [|a t IH]; [intros _ []|].
  cbn [List.map]. intros Hnd Hx Hy Hid.
  apply NoDup_cons_iff in Hnd. destruct Hnd as [Hni Hnd].
  destruct Hx as [->|Hx], Hy as [->|Hy].
  - reflexivity.
  - exfalso. apply Hni. rewrite Hid. apply in_map. exact Hy.
  - exfalso. apply Hni. rewrite <- Hid. apply in_map. exact Hx.
  - apply IH; assumption.
Qed.

Lemma NoDup_snoc (l : list uuid) (a : uuid) :
  NoDup l -> ~ In a l -> NoDup (l ++ [a]).
Proof.
  induction l as [|b t IH]; intros Hnd Hni.
  - constructor; [intros []|constructor].
  - cbn [app]. apply NoDup_cons_iff in Hnd. destruct Hnd as [Hb Ht].
    constructor.
    + intro Hin. apply in_app_iff in Hin. destruct Hin as [Hin|[Hin|[]]].
      * exact (Hb Hin).
      * apply Hni. left. symmetry. exact Hin.
    + apply IH; [exact Ht|]. intro Hin. apply Hni. right. exact Hin.
Qed.

Lemma table_step_ids before after :
  table_step base kept added before after ->
  exists created,
    List.map (Store.id_of base) after
    = List.map (Store.id_of base) before ++ List.map (Store.id_of base) created
    /\ (created = []
        \/ exists p, created = [p]
                     /\ existsb (Store.has_id base (Store.id_of base p)) before
                        = false).
Proof.
  intros (f & created & -> & Hstep & Hc). exists created. split.
  - rewrite List.map_app, List.map_map. f_equal.
    apply List.map_ext_in. intros x Hx. apply kept_id, Hstep, Hx.
  - destruct Hc as [->|(p & -> & Hf & _)]; [left; reflexivity|].
    right. exists p. split; [reflexivity | exact Hf].
Qed.

Lemma table_step_pk before after :
  table_step base kept added before after ->
  NoDup (List.map (Store.id_of base) before) ->
  NoDup (List.map (Store.id_of base) after).
Proof.
  intros Hstep Hnd.
  destruct (table_step_ids _ _ Hstep) as (created & -> & [->|(p & -> & Hf)]).
  - cbn [List.map]. rewrite app_nil_r. exact Hnd.
  - cbn [List.map]. apply NoDup_snoc; [exact Hnd|].
    intro Hin. apply in_map_iff in Hin. destruct Hin as (x & Hx & Hxin).
    assert (existsb (Store.has_id base (Store.id_of base p)) before = true) as Ht.
    { apply existsb_exists. exists x. split; [exact Hxin|].
      unfold Store.has_id. rewrite Hx. apply N.eqb_refl. }
    congruence.
Qed.

Lemma table_step_keeps before after x :
  table_step base kept added before after ->
  In x before -> exists y, In y after /\ kept x y.
Proof.
  intros (f & created & -> & Hstep & _) Hx. exists (f x). split.
  - apply in_or_app. left. apply in_map. exact Hx.
  - apply Hstep, Hx.
Qed.

(** [Create] as a step: the new row under a new key. *)
Lemma Create_step refuses fresh now r rows r' rows' :
  Store.Create base set_base columns refuses fresh now r rows = Some (r', rows') ->
  added (columns (set_base (Store.stamp_create now
                              (Store.BeforeCreate fresh (base r))) r)) rows ->
  table_step base kept added rows rows'.
Proof.
  unfold Store.Create. destruct (refuses || _) eqn:E; [discriminate|].
  intros H Ha. injection H as <- <-.
  apply orb_false_iff in E. destruct E as [_ E].
  exists (fun x => x). eexists. rewrite List.map_id.
  split; [reflexivity|]. split; [intros x _; apply kept_refl|].
  right. eexists. split; [reflexivity|]. split; [|exact Ha].
  unfold Store.id_of in *. rewrite base_columns. exact E.
Qed.

(** [Save] of a row read from the table, as a step. *)
Lemma Save_step refuses now r rows r' rows' row :
  Store.Save base set_base columns refuses now r rows = Some (r', rows') ->
  NoDup (List.map (Store.id_of base) rows) ->
  In row rows ->
  Store.id_of base r = Store.id_of base row ->
  kept row (columns (set_base (Store.stamp_update now (base r)) r)) ->
  table_step base kept added rows rows'.
Proof.
  unfold Store.Save. intros H Hnd Hin Hid Hk.
  destruct refuses; [discriminate|].
  assert (Hid' : Store.id_of base (set_base (Store.stamp_update now (base r)) r)
                 = Store.id_of base row).
  { unfold Store.id_of in *. rewrite base_set_base. exact Hid. }
  rewrite Hid' in H.
  replace (existsb (Store.has_id base (Store.id_of base row)) rows) with true in H.
  2: { symmetry. apply existsb_exists. exists row. split; [exact Hin|].
       unfold Store.has_id. apply N.eqb_refl. }
  injection H as <- <-.
  eexists. exists []. rewrite app_nil_r. split; [reflexivity|].
  split; [|left; reflexivity].
  intros x Hx. cbv beta.
  destruct (Store.has_id base (Store.id_of base row) x) eqn:Ex;
    [|apply kept_refl].
  assert (x = row) as ->.
  { apply (NoDup_id_eq rows); try assumption.
    unfold Store.has_id in Ex. apply N.eqb_eq in Ex. exact Ex. }
  exact Hk.
Qed.

(** [Delete] as a step: rows are marked, not removed. *)
Lemma Delete_step refuses now r rows rows' :
  Store.Delete base set_base refuses now r rows = Some rows' ->
  (forall x t, kept x (set_base (Base.set_DeletedAt (Some t) (base x)) x)) ->
  table_step base kept added rows rows'.
Proof.
  unfold Store.Delete. intros H Hk. destruct refuses; [discriminate|].
  injection H as <-.
  eexists. exists []. rewrite app_nil_r. split; [reflexivity|].
  split; [|left; reflexivity].
  intros x _. cbv beta. destruct (_ && _); [apply Hk | apply kept_refl].
Qed.

End TableStep.

Lemma comment_kept_refl (x : Comment.t) : comment_kept x x.
Proof. unfold comment_kept. repeat split. Qed.

Lemma comment_kept_id (x y : Comment.t) :
  comment_kept x y -> Store.id_of Comment.base y = Store.id_of Comment.base x.
Proof. intros [H _]. exact H. Qed.

Lemma comment_base_set_base (b : Base.t) (r : Comment.t) :
  Comment.base (Comment.set_base b r) = b.
Proof. reflexivity. Qed.

Lemma comment_base_columns (r : Comment.t) :
  Comment.base (Comment.columns r) = Comment.base r.
Proof. reflexivity. Qed.

Lemma threads_step before after :
  table_step Comment.base comment_kept parent_among before after ->
  (forall c, In c before -> parent_among c before) ->
  forall c, In c after -> parent_among c after.
Proof.
  intros (f & created & -> & Hstep & Hc) Hl.
  assert (Hmove : forall x pid,
             In x before ->
             (exists parent, In parent before
                             /\ Store.id_of Comment.base parent = pid
                             /\ Comment.PostID parent = Comment.PostID x) ->
             exists parent, In parent (List.map f before ++ created)
                            /\ Store.id_of Comment.base parent = pid
                            /\ Comment.PostID parent = Comment.PostID x).
  { intros x pid Hx (parent & Hin & Hid & Hpost). exists (f parent).
    destruct (Hstep parent Hin) as (Ki & Kp & _).
    split; [apply in_or_app; left; apply in_map; exact Hin|].
    split; congruence. }
  intros c Hin pid Hp. apply in_app_iff in Hin. destruct Hin as [Hin|Hin].
  - apply in_map_iff in Hin. destruct Hin as (x & <- & Hx).
    destruct (Hstep x Hx) as (_ & Kp & _ & Kpar & _).
    rewrite Kpar in Hp. rewrite Kp.
    apply Hmove; [exact Hx|]. apply (Hl x Hx pid Hp).
  - destruct Hc as [->|(p & -> & _ & Ha)]; [destruct Hin|].
    destruct Hin as [<-|[]].
    destruct (Ha pid Hp) as (parent & Hpin & Hid & Hpost).
    exists (f parent). destruct (Hstep parent Hpin) as (Ki & Kp & _).
    split; [apply in_or_app; left; apply in_map; exact Hpin|].
    split; congruence.
Qed.

Ltac comments_unchanged :=
  apply table_step_same; [apply comment_kept_refl|];
  cbn [Store.comments Store.set_posts Store.set_comments Store.set_users];
  repeat match goal with
         | |- context [Store.comments (match ?x with _ => _ end)] => destruct x
         end;
  rewrite ?attach_categories_comments;
  cbn [Store.comments Store.set_posts Store.set_comments Store.set_users
       Store.association_Clear Store.set_post_categories];
  reflexivity.

Section ThreadFacts.

Variable lower_nonascii : rune -> rune.
Variable uuid_Parse : gostring -> option uuid.
Variable HashPassword : gostring -> option gostring.
Variable is_email : gostring -> bool.
Variable jwt_decode : gostring -> option Auth.JWTClaim.
Variable jwt_verify : gostring -> gostring -> bool.

Let CreateComment := CommentHandler.CreateComment uuid_Parse.
Let UpdateComment := CommentHandler.UpdateComment uuid_Parse.
Let DeleteComment := CommentHandler.DeleteComment uuid_Parse.
Let handle := Routes.handle lower_nonascii uuid_Parse HashPassword is_email.
Let serve :=
  Routes.serve lower_nonascii uuid_Parse HashPassword is_email jwt_decode jwt_verify.
Let comments_step := table_step Comment.base comment_kept parent_among.

Lemma check_parent_accepts postUUID parent db :
  CommentHandler.check_parent postUUID parent db = None ->
  forall parentID,
    parent = Some parentID ->
    exists row, In row (Store.comments db)
                /\ Store.id_of Comment.base row = parentID
                /\ Comment.PostID row = postUUID.
Proof.
  unfold CommentHandler.check_parent, CommentHandler.comment_by_id.
  intros H parentID ->.
  destruct (Store.First_comment _ (Store.comments db)) as [pc|] eqn:Ef;
    [|discriminate].
  destruct (negb (Comment.PostID pc =? postUUID)%N) eqn:En; [discriminate|].
  apply negb_false_iff, N.eqb_eq in En.
  destruct (First_Some Comment.base Comment.columns _ _ _ Ef)
    as (row & Hin & _ & Hid & ->).
  exists row. split; [exact Hin|]. split.
  - apply N.eqb_eq. exact Hid.
  - exact En.
Qed.

Lemma CreateComment_comments env c postID body db :
  comments_step (Store.comments db)
                (Store.comments (snd (CreateComment env c postID body db))).
Proof.
  unfold CreateComment, CommentHandler.CreateComment. cbv zeta.
  walk_store; try comments_unchanged.
  cbn [Store.comments Store.set_comments].
  match goal with
  | Hc : CommentHandler.check_parent _ _ _ = None,
    H : Store.Create _ _ _ _ _ _ _ _ = Some _ |- _ =>
      apply (Create_step Comment.base Comment.set_base Comment.columns
               comment_kept parent_among comment_kept_refl
               comment_base_columns _ _ _ _ _ _ _ H);
      intros parentID Hp; cbn in Hp;
      exact (check_parent_accepts _ _ _ Hc parentID Hp)
  end.
Qed.

Lemma UpdateComment_comments env c id body db :
  comments_pk db ->
  comments_step (Store.comments db)
                (Store.comments (snd (UpdateComment env c id body db))).
Proof.
  intro Hpk. unfold UpdateComment, CommentHandler.UpdateComment,
    CommentHandler.comment_by_id. cbv zeta.
  walk_store; try comments_unchanged.
  cbn [Store.comments Store.set_comments].
  match goal with
  | Hf : Store.First_comment _ _ = Some _,
    Hs : Store.Save _ _ _ _ _ _ _ = Some _ |- _ =>
      destruct (First_Some Comment.base Comment.columns _ _ _ Hf)
        as (row & Hin & _ & _ & ->);
      apply (Save_step Comment.base Comment.set_base Comment.columns
               comment_kept parent_among comment_kept_refl
               comment_base_set_base _ _ _ _ _ _ row Hs Hpk Hin)
  end.
  - destruct (nonempty _); reflexivity.
  - destruct (nonempty _); unfold comment_kept; repeat split.
Qed.

Lemma DeleteComment_comments env c id db :
  comments_step (Store.comments db)
                (Store.comments (snd (DeleteComment env c id db))).
Proof.
  unfold DeleteComment, CommentHandler.DeleteComment. cbv zeta.
  walk_store; try comments_unchanged.
  cbn [Store.comments Store.set_comments].
  match goal with
  | H : Store.Delete _ _ _ _ _ _ = Some _ |- _ =>
      apply (Delete_step Comment.base Comment.set_base comment_kept parent_among
               comment_kept_refl _ _ _ _ _ H)
  end.
  intros x deleted. destruct x. unfold comment_kept. repeat split.
Qed.

Lemma handle_comments env c e db :
  comments_pk db ->
  comments_step (Store.comments db) (Store.comments (snd (handle env c e db))).
Proof.
  intro Hpk. destruct e; cbn [handle Routes.handle].
  15: apply CreateComment_comments.
  15: apply UpdateComment_comments; exact Hpk.
  15: apply DeleteComment_comments.
  all: autounfold with handlers; walk_store; comments_unchanged.
Qed.

Lemma serve_comments env req db :
  comments_pk db ->
  comments_step (Store.comments db) (Store.comments (snd (serve env req db))).
Proof.
  intro Hpk. unfold serve, Routes.serve.
  destruct (Routes.protected (endpoint req)); [|apply handle_comments, Hpk].
  destruct (Middleware.AuthMiddleware _ _ _ _ _).
  - apply handle_comments, Hpk.
  - apply table_step_same; [apply comment_kept_refl | reflexivity].
Qed.

(** X16: no request, on any route, takes a comment out of its thread:
    with distinct keys in the comments table, every comment is still in
    the table after the request, under its key, on its post, by its
    author, under its parent and with its creation time; keys stay
    distinct; and if every reply named a parent comment on its own post
    before the request, so it is afterwards. *)
Theorem serve_keeps_threads env req db :
  comments_pk db ->
  let db' := snd (serve env req db) in
  comments_pk db'
  /\ (forall x, In x (Store.comments db) ->
                exists y, In y (Store.comments db') /\ comment_kept x y)
  /\ (replies_linked db -> replies_linked db').
Proof.
  intros Hpk db'. pose proof (serve_comments env req db Hpk) as Hstep.
  fold db' in Hstep. split; [|split].
  - exact (table_step_pk Comment.base comment_kept parent_among comment_kept_id
             _ _ Hstep Hpk).
  - intros x Hx.
    exact (table_step_keeps Comment.base comment_kept parent_among _ _ x Hstep Hx).
  - intros Hl. exact (threads_step _ _ Hstep Hl).
Qed.

End ThreadFacts.

Lemma post_kept_refl (x : Post.t) : post_kept x x.
Proof. unfold post_kept. repeat split. Qed.

Lemma post_kept_id (x y : Post.t) :
  post_kept x y -> Store.id_of Post.base y = Store.id_of Post.base x.
Proof. intros [H _]. exact H. Qed.

Lemma post_base_set_base (b : Base.t) (r : Post.t) :
  Post.base (Post.set_base b r) = b.
Proof. reflexivity. Qed.

Lemma post_base_columns (r : Post.t) : Post.base (Post.columns r) = Post.base r.
Proof. reflexivity. Qed.

Ltac posts_unchanged :=
  apply table_step_same; [apply post_kept_refl|];
  cbn [Store.posts Store.set_posts Store.set_comments Store.set_users];
  reflexivity.

Section OwnershipFacts.

Variable lower_nonascii : rune -> rune.
Variable uuid_Parse : gostring -> option uuid.
Variable HashPassword : gostring -> option gostring.
Variable is_email : gostring -> bool.
Variable jwt_decode : gostring -> option Auth.JWTClaim.
Variable jwt_verify : gostring -> gostring -> bool.

Let CreatePost := PostHandler.CreatePost lower_nonascii.
Let UpdatePost := PostHandler.UpdatePost lower_nonascii uuid_Parse.
Let DeletePost := PostHandler.DeletePost uuid_Parse.
Let handle := Routes.handle lower_nonascii uuid_Parse HashPassword is_email.
Let serve :=
  Routes.serve lower_nonascii uuid_Parse HashPassword is_email jwt_decode jwt_verify.
Let posts_kept := table_step Post.base post_kept (fun _ _ => True).

Lemma update_fields_author env postUUID req db post :
  Post.AuthorID (PostHandler.update_fields lower_nonascii env postUUID req db post)
  = Post.AuthorID post.
Proof.
  unfold PostHandler.update_fields, PostHandler.update_status,
    PostHandler.update_text. cbv zeta.
  destruct (Store.First_post _ _);
    destruct (nonempty (PostRequest.Slug req)),
      (nonempty (PostRequest.Content req)),
      (nonempty (PostRequest.Title req));
    match goal with
    | |- context [if ?b then _ else _] => destruct b
    end;
    try reflexivity;
    match goal with
    | |- context [if ?b then _ else _] => destruct b
    end; reflexivity.
Qed.

Lemma CreatePost_keeps_posts env c body db :
  posts_kept (Store.posts db) (Store.posts (snd (CreatePost env c body db))).
Proof.
  unfold CreatePost, PostHandler.CreatePost. cbv zeta.
  walk_store; try posts_unchanged.
  rewrite attach_categories_posts. cbn [Store.posts Store.set_posts].
  match goal with
  | H : Store.Create _ _ _ _ _ _ _ _ = Some _ |- _ =>
      apply (Create_step Post.base Post.set_base Post.columns
               post_kept (fun _ _ => True) post_kept_refl
               post_base_columns _ _ _ _ _ _ _ H)
  end.
  exact I.
Qed.

Lemma UpdatePost_keeps_posts env c id body db :
  posts_pk db ->
  posts_kept (Store.posts db) (Store.posts (snd (UpdatePost env c id body db))).
Proof.
  intro Hpk. unfold UpdatePost, PostHandler.UpdatePost. cbv zeta.
  walk_store; try posts_unchanged.
  match goal with
  | |- context [PostRequest.CategoryIDs ?req] =>
      rewrite (posts_after_categories (PostRequest.CategoryIDs req))
  end.
  cbn [Store.posts Store.set_posts].
  match goal with
  | Hf : Store.First_post _ _ = Some _,
    Hs : Store.Save _ _ _ _ _ _ _ = Some _ |- _ =>
      destruct (First_Some Post.base Post.columns _ _ _ Hf)
        as (row & Hin & _ & _ & ->);
      apply (Save_step Post.base Post.set_base Post.columns
               post_kept (fun _ _ => True) post_kept_refl
               post_base_set_base _ _ _ _ _ _ row Hs Hpk Hin)
  end.
  - unfold Store.id_of. rewrite update_fields_base. reflexivity.
  - unfold post_kept, Store.id_of.
    cbn [Post.columns Post.set_base Post.base Post.AuthorID Store.stamp_update
         Base.ID Base.CreatedAt].
    rewrite update_fields_base, update_fields_author. repeat split.
Qed.

Lemma DeletePost_keeps_posts env c id db :
  posts_kept (Store.posts db) (Store.posts (snd (DeletePost env c id db))).
Proof.
  unfold DeletePost, PostHandler.DeletePost. cbv zeta.
  walk_store; try posts_unchanged.
  cbn [Store.posts Store.set_posts].
  match goal with
  | H : Store.Delete _ _ _ _ _ _ = Some _ |- _ =>
      apply (Delete_step Post.base Post.set_base post_kept (fun _ _ => True)
               post_kept_refl _ _ _ _ _ H)
  end.
  intros x deleted. destruct x. unfold post_kept. repeat split.
Qed.

Lemma handle_keeps_posts env c e db :
  posts_pk db ->
  posts_kept (Store.posts db) (Store.posts (snd (handle env c e db))).
Proof.
  intro Hpk. destruct e; cbn [handle Routes.handle].
  10: apply CreatePost_keeps_posts.
  10: apply UpdatePost_keeps_posts; exact Hpk.
  10: apply DeletePost_keeps_posts.
  all: autounfold with handlers; walk_store; posts_unchanged.
Qed.

(** X17: no request, on any route, removes a row of the posts table or
    changes the key, the author or the creation time of a post: with
    distinct keys in the table, every post is still there afterwards
    under its key and with its author, also when an administrator
    updates it, and the keys stay distinct. *)
Theorem serve_keeps_post_authors env req db :
  posts_pk db ->
  let db' := snd (serve env req db) in
  posts_pk db'
  /\ forall x, In x (Store.posts db) ->
               exists y, In y (Store.posts db') /\ post_kept x y.
Proof.
  intros Hpk db'.
  assert (Hstep : posts_kept (Store.posts db) (Store.posts db')).
  { subst db'. unfold serve, Routes.serve.
    destruct (Routes.protected (endpoint req)); [|apply handle_keeps_posts, Hpk].
    destruct (Middleware.AuthMiddleware _ _ _ _ _).
    - apply handle_keeps_posts, Hpk.
    - apply table_step_same; [apply post_kept_refl | reflexivity]. }
  split.
  - exact (table_step_pk Post.base post_kept (fun _ _ => True) post_kept_id
             _ _ Hstep Hpk).
  - intros x Hx.
    exact (table_step_keeps Post.base post_kept (fun _ _ => True) _ _ x Hstep Hx).
Qed.

End OwnershipFacts.

(** ** The lists of a user's posts *)


Section UserPostsFacts.

Variable uuid_Parse : gostring -> option uuid.

Let GetPostsByUserID := PostHandler.GetPostsByUserID uuid_Parse.


End UserPostsFacts.

(** ** Roles in the hands of administrators *)

Section AdminRoleFacts.

Variable uuid_Parse : gostring -> option uuid.
Variable HashPassword : gostring -> option gostring.

Let UpdateUser := UserHandler.UpdateUser uuid_Parse HashPassword.

(** X19: an administrator can give any live user any role: when the
    caller's role is [admin] and the request is otherwise acceptable
    (e-mail not taken, password hashed, write accepted), [UpdateUser]
    answers 200 and the user is stored with the role of the body, which
    may be any non-empty text, or with the old role when the body gives
    none. The user name is not changed. *)
Theorem admin_sets_any_role env c id data db requester target user :
  is_admin (UserHandler.role_or_empty c) = true ->
  Get "userID" c = Some (AnyUUID requester) ->
  uuid_Parse id = Some target ->
  Store.user_by_id target db = Some user ->
  (nonempty (UpdateData.Email data)
   && negb (gostring_eqb (UpdateData.Email data) (User.Email user)) = true ->
   Store.First_user
     (fun u => gostring_eqb (User.Email u) (UpdateData.Email data)
               && negb (Store.has_id User.base target u))
     (Store.users db) = None) ->
  (nonempty (UpdateData.Password data) = true ->
   HashPassword (UpdateData.Password data) <> None) ->
  store_refuses env = false ->
  exists user',
    fst (UpdateUser env c id (Some data) db)
    = JSON StatusOK (marshal_User (User.set_Password [] user'))
    /\ Store.user_by_id target (snd (UpdateUser env c id (Some data) db))
       = Some user'
    /\ User.Role user'
       = (if nonempty (UpdateData.Role data)
          then UpdateData.Role data else User.Role user)
    /\ User.Username user' = User.Username user.
Proof.
  intros Hadm Hc Hp Hu Hmail Hhash Hstore.
  unfold UpdateUser, UserHandler.UpdateUser. cbv zeta.
  rewrite Hc, Hp, Hu, Hadm, Hstore. cbn [negb].
  rewrite (andb_false_r (negb (target =? requester)%N)).
  rewrite (andb_true_r (nonempty (UpdateData.Role data))).
  assert (User.Email
            (if nonempty (UpdateData.LastName data)
             then User.set_LastName (UpdateData.LastName data)
                    (if nonempty (UpdateData.FirstName data)
                     then User.set_FirstName (UpdateData.FirstName data) user
                     else user)
             else if nonempty (UpdateData.FirstName data)
                  then User.set_FirstName (UpdateData.FirstName data) user
                  else user) = User.Email user) as Hem
      by (destruct (nonempty (UpdateData.LastName data)),
                   (nonempty (UpdateData.FirstName data)); reflexivity).
  rewrite Hem.
  assert (forall u1 : User.t,
             User.base u1 = User.base user ->
             exists user' users',
               Store.Save User.base User.set_base Store.same false
                          (gorm_Now env) u1 (Store.users db) = Some (user', users')
               /\ Store.user_by_id target (Store.set_users users' db) = Some user'
               /\ User.Role user' = User.Role u1
               /\ User.Username user' = User.Username u1) as Hsave.
  { intros u1 Hb.
    destruct (Save_user_found (Store.users db) target user u1 (gorm_Now env) Hu Hb)
      as [Hs Hfirst].
    eexists. eexists. split; [exact Hs|].
    split; [exact Hfirst|]. destruct u1. repeat split; reflexivity. }
  assert (Hgo : forall u1 : User.t,
             User.base u1 = User.base user ->
             User.Role u1 = (if nonempty (UpdateData.Role data)
                             then UpdateData.Role data else User.Role user) ->
             User.Username u1 = User.Username user ->
             exists user',
               fst (match Store.Save User.base User.set_base Store.same false
                            (gorm_Now env) u1 (Store.users db) with
                    | Some (user0, users') =>
                        (JSON StatusOK (marshal_User (User.set_Password [] user0)),
                         Store.set_users users' db)
                    | None =>
                        (JSON StatusInternalServerError
                              (error_H "failed to update user"), db)
                    end)
               = JSON StatusOK (marshal_User (User.set_Password [] user'))
               /\ Store.user_by_id target
                    (snd (match Store.Save User.base User.set_base Store.same false
                                 (gorm_Now env) u1 (Store.users db) with
                          | Some (user0, users') =>
                              (JSON StatusOK
                                    (marshal_User (User.set_Password [] user0)),
                               Store.set_users users' db)
                          | None =>
                              (JSON StatusInternalServerError
                                    (error_H "failed to update user"), db)
                          end)) = Some user'
               /\ User.Role user'
                  = (if nonempty (UpdateData.Role data)
                     then UpdateData.Role data else User.Role user)
               /\ User.Username user' = User.Username user).
  { intros u1 Hb Hr Hn.
    destruct (Hsave u1 Hb) as (user' & users' & H1 & H2 & H3 & H4).
    exists user'. rewrite H1. cbn [fst snd]. rewrite H2, H3, H4, Hr, Hn.
    repeat split; reflexivity. }
  cbn [negb].
  destruct (nonempty (UpdateData.Email data)
            && negb (gostring_eqb (UpdateData.Email data) (User.Email user))) eqn:Ech;
    [rewrite (Hmail eq_refl)|];
    (destruct (nonempty (UpdateData.Password data)) eqn:Epw;
     [destruct (HashPassword (UpdateData.Password data)) as [h|] eqn:Eh;
      [|exfalso; apply (Hhash eq_refl); reflexivity];
      cbn [option_map]|]);
    apply Hgo;
    destruct (nonempty (UpdateData.Role data)),
      (nonempty (UpdateData.LastName data)),
      (nonempty (UpdateData.FirstName data)); reflexivity.
Qed.

End AdminRoleFacts.

(** ** Deleted comments *)

Lemma Delete_no_live_row {R : Type} (base : R -> Base.t)
      (set_base : Base.t -> R -> R) refuses now r rows rows' y :
  (forall b x, base (set_base b x) = b) ->
  Store.Delete base set_base refuses now r rows = Some rows' ->
  In y rows' -> Store.live base y = true ->
  Store.id_of base y <> Store.id_of base r.
Proof.
  intros Hb H Hy Hl. unfold Store.Delete in H.
  destruct refuses; [discriminate|]. injection H as <-.
  apply in_map_iff in Hy. destruct Hy as [x [<- _]].
  destruct (Store.has_id base (Store.id_of base r) x && Store.live base x) eqn:E.
  - unfold Store.live in Hl. rewrite Hb in Hl. discriminate.
  - rewrite Hl, andb_true_r in E. unfold Store.has_id in E.
    apply N.eqb_neq. exact E.
Qed.

Section DeleteCommentFacts.

Variable uuid_Parse : gostring -> option uuid.

Let DeleteComment := CommentHandler.DeleteComment uuid_Parse.
Let GetCommentById := CommentHandler.GetCommentById uuid_Parse.
Let GetAllCommentsFromPostId := CommentHandler.GetAllCommentsFromPostId uuid_Parse.

(** X20: once [DeleteComment] has answered 200, the comment is no longer
    found by [GetCommentById], it is in no list of the comments of a
    post, and a reply that names it as parent is rejected; the other
    rows of the comments table, its replies among them, are left as
    they were. *)
Theorem deleted_comment_hidden env c id db commentUUID :
  status (fst (DeleteComment env c id db)) = StatusOK ->
  uuid_Parse id = Some commentUUID ->
  let db' := snd (DeleteComment env c id db) in
  fst (GetCommentById id db')
  = JSON StatusNotFound (error_H "comment not found")
  /\ (forall postId elems j,
         fst (GetAllCommentsFromPostId postId db') = JSON StatusOK (JArray elems) ->
         In j elems -> json_field "id" j <> Some (JUUID commentUUID))
  /\ (forall postUUID,
         CommentHandler.check_parent postUUID (Some commentUUID) db'
         = Some (JSON StatusBadRequest (error_H "parent comment not found")))
  /\ (forall row, In row (Store.comments db) ->
                  Store.id_of Comment.base row <> commentUUID ->
                  In row (Store.comments db')).
Proof.
  unfold DeleteComment, GetCommentById, GetAllCommentsFromPostId,
    CommentHandler.DeleteComment, CommentHandler.GetCommentById,
    CommentHandler.GetAllCommentsFromPostId, CommentHandler.check_parent,
    CommentHandler.comment_by_id.
  intros H Hp. rewrite Hp in *. revert H.
  destruct (Store.First_comment _ (Store.comments db)) as [comment|] eqn:Ef;
    [|discriminate].
  destruct (Get "userID" c) as [userID|]; [|discriminate].
  destruct (Get "role" c) as [userRole|]; [|discriminate].
  destruct (denied userID userRole (Comment.AuthorID comment)); [discriminate|].
  destruct (Store.Delete _ _ _ _ comment (Store.comments db)) as [comments'|] eqn:Ed;
    [|discriminate].
  intros _. cbn [fst snd Store.comments Store.set_comments].
  assert (Hid : Store.id_of Comment.base comment = commentUUID).
  { apply (First_has_id Comment.base Comment.columns _ _ _ Ef); [reflexivity|].
    intros x Hx. apply N.eqb_eq. exact Hx. }
  pose proof (Delete_hides Comment.base Comment.set_base Comment.columns
                comment_base_set_base _ _ _ _ _ Ed) as [Eh _].
  rewrite Hid in Eh. unfold Store.First_comment. rewrite Eh.
  split; [reflexivity|]. split; [|split; [reflexivity|]].
  - intros postId elems j Hl Hj.
    destruct (uuid_Parse postId) as [postUUID|]; [|discriminate].
    cbn [fst] in Hl. injection Hl as <-.
    rewrite List.map_map in Hj. apply in_map_iff in Hj.
    destruct Hj as [cm [<- Hin]].
    unfold Store.Find_comment, Store.Find in Hin.
    apply in_map_iff in Hin. destruct Hin as [row [<- Hin]].
    apply filter_In in Hin. destruct Hin as [Hin Hc].
    apply andb_true_iff in Hc. destruct Hc as [Hl _].
    pose proof (Delete_no_live_row Comment.base Comment.set_base _ _ _ _ _ row
                  comment_base_set_base Ed Hin Hl) as Hne.
    rewrite Hid in Hne. destruct row. cbn. intro E. apply Hne.
    injection E as E. exact E.
  - intros row Hin Hne. unfold Store.Delete in Ed.
    destruct (store_refuses env); [discriminate|]. injection Ed as <-.
    apply in_map_iff. exists row. split; [|exact Hin].
    unfold Store.has_id. rewrite Hid.
    replace (Store.id_of Comment.base row =? commentUUID)%N with false
      by (symmetry; apply N.eqb_neq; exact Hne).
    reflexivity.
Qed.

End DeleteCommentFacts.

(** ** Creating a category and reading it back *)

Lemma First_new_row {R : Type} (base : R -> Base.t) (columns : R -> R)
      (rows : list R) (x : R) :
  existsb (Store.has_id base (Store.id_of base x)) rows = false ->
  Store.live base x = true ->
  Store.First base columns (Store.has_id base (Store.id_of base x)) (rows ++ [x])
  = Some (columns x).
Proof.
  intros He Hl. unfold Store.First, Store.Find.
  rewrite List.filter_app.
  replace (List.filter _ rows) with (@nil R).
  - cbn [List.filter app]. rewrite Hl. unfold Store.has_id at 1.
    rewrite N.eqb_refl. reflexivity.
  - symmetry. induction rows as [|a t IH]; [reflexivity|].
    cbn [existsb] in He. apply orb_false_iff in He. destruct He as [Ha Ht].
    cbn [List.filter]. rewrite Ha, andb_false_r. apply IH. exact Ht.
Qed.

Section CreateCategoryFacts.

Variable lower_nonascii : rune -> rune.
Variable uuid_Parse : gostring -> option uuid.

Let CreateCategory := CategoryHandler.CreateCategory lower_nonascii.
Let GetCategoryByID := CategoryHandler.GetCategoryByID uuid_Parse.
Let generateCategorySlug := CategoryHandler.generateCategorySlug lower_nonascii.

(** X21: a [CreateCategory] answered 201 adds one category to the table,
    named as requested; its slug is generated from the requested slug,
    or from the name when none is requested, with a hyphen and eight
    lower-case hexadecimal digits appended when a live category has that
    slug already. Reading the category back by its identifier answers
    200 with the document that the creation returned. *)
Theorem CreateCategory_then_read_back env c body db :
  status (fst (CreateCategory env c body db)) = StatusCreated ->
  exists req cat,
    body = Some req
    /\ fst (CreateCategory env c body db) = JSON StatusCreated (marshal_Category cat)
    /\ Store.categories (snd (CreateCategory env c body db))
       = Store.categories db ++ [cat]
    /\ Category.Name cat = CategoryRequest.Name req
    /\ (let slug := generateCategorySlug
                      (if nonempty (CategoryRequest.Slug req)
                       then CategoryRequest.Slug req
                       else CategoryRequest.Name req) in
        match Store.First_category (CategoryHandler.slug_is slug)
                                   (Store.categories db) with
        | None => Category.Slug cat = slug
        | Some _ =>
            exists suffix,
              Category.Slug cat = slug ++ str "-" ++ suffix
              /\ List.length suffix = 8%nat
              /\ forallb is_lower_hex suffix = true
        end)
    /\ forall id,
         uuid_Parse id = Some (Store.id_of Category.base cat) ->
         fst (GetCategoryByID id (snd (CreateCategory env c body db)))
         = JSON StatusOK (marshal_Category cat).
Proof.
  unfold CreateCategory, GetCategoryByID, generateCategorySlug,
    CategoryHandler.CreateCategory, CategoryHandler.GetCategoryByID,
    CategoryHandler.bind_CategoryRequest.
  destruct (admin_only_cases c) as [[_ ->]|[_ ->]];
    [|unfold not_admin_response; destruct (Get "role" c); discriminate].
  destruct body as [req|]; [|discriminate].
  destruct (nonempty (CategoryRequest.Name req)); [|discriminate].
  cbv zeta.
  set (slug0 := if negb (nonempty (CategoryRequest.Slug req)) then _ else _).
  assert (Hs0 : CategoryHandler.generateCategorySlug lower_nonascii
                  (if nonempty (CategoryRequest.Slug req)
                   then CategoryRequest.Slug req else CategoryRequest.Name req)
                = slug0).
  { subst slug0. destruct (nonempty (CategoryRequest.Slug req)); reflexivity. }
  clearbody slug0.
  unfold Store.Create.
  destruct (store_refuses env || _) eqn:Ex; [discriminate|].
  apply orb_false_iff in Ex. destruct Ex as [_ Ex].
  intros _. cbn [fst snd Store.categories CategoryHandler.set_categories].
  eexists req, _.
  split; [reflexivity|]. split; [reflexivity|]. split; [reflexivity|].
  split; [reflexivity|]. split.
  - rewrite Hs0. cbn [Category.Slug CategoryHandler.category_set_base].
    destruct (Store.First_category (CategoryHandler.slug_is slug0)
                                   (Store.categories db)).
    + exists (uuid_prefix8 (uuid_New env)). split; [reflexivity|].
      apply uuid_prefix8_shape.
    + reflexivity.
  - intros id Hp. rewrite Hp. unfold Store.First_category.
    rewrite First_new_row; [reflexivity | exact Ex |].
    unfold Store.live, Store.stamp_create, Store.BeforeCreate. cbn.
    destruct (0 =? uuid_Nil)%N; reflexivity.
Qed.

End CreateCategoryFacts.

(** ** What requests keep of the stored users *)

Lemma user_kept_refl (x : User.t) : user_kept x x.
Proof. unfold user_kept. repeat split. Qed.

Lemma user_kept_id (x y : User.t) :
  user_kept x y -> Store.id_of User.base y = Store.id_of User.base x.
Proof. intros [H _]. exact H. Qed.

Lemma user_base_set_base (b : Base.t) (r : User.t) :
  User.base (User.set_base b r) = b.
Proof. reflexivity. Qed.

Lemma user_base_same (r : User.t) : User.base (Store.same r) = User.base r.
Proof. reflexivity. Qed.

Ltac accounts_unchanged :=
  apply table_step_same; [apply user_kept_refl|];
  cbn [Store.users Store.set_posts Store.set_comments Store.set_users];
  repeat match goal with
         | |- context [Store.users (match ?x with _ => _ end)] => destruct x
         end;
  rewrite ?attach_categories_users;
  cbn [Store.users Store.set_posts Store.set_comments Store.set_users
       Store.association_Clear Store.set_post_categories];
  reflexivity.

Ltac split_ifs :=
  repeat match goal with
         | |- context [if ?b then _ else _] => destruct b
         end.

Section AccountFacts.

Variable lower_nonascii : rune -> rune.
Variable uuid_Parse : gostring -> option uuid.
Variable HashPassword : gostring -> option gostring.
Variable is_email : gostring -> bool.
Variable jwt_decode : gostring -> option Auth.JWTClaim.
Variable jwt_verify : gostring -> gostring -> bool.

Let Register := UserHandler.Register HashPassword is_email.
Let UpdateUser := UserHandler.UpdateUser uuid_Parse HashPassword.
Let DeleteUser := UserHandler.DeleteUser uuid_Parse.
Let handle := Routes.handle lower_nonascii uuid_Parse HashPassword is_email.
Let serve :=
  Routes.serve lower_nonascii uuid_Parse HashPassword is_email jwt_decode jwt_verify.
Let users_kept := table_step User.base user_kept (fun _ _ => True).

Lemma Register_keeps_users env body db :
  users_kept (Store.users db) (Store.users (snd (Register env body db))).
Proof.
  unfold Register, UserHandler.Register. cbv zeta.
  walk_store; try accounts_unchanged.
  cbn [Store.users Store.set_users].
  match goal with
  | H : Store.Create _ _ _ _ _ _ _ _ = Some _ |- _ =>
      apply (Create_step User.base User.set_base Store.same
               user_kept (fun _ _ => True) user_kept_refl
               user_base_same _ _ _ _ _ _ _ H)
  end.
  exact I.
Qed.

Lemma UpdateUser_keeps_users env c id body db :
  users_pk db ->
  users_kept (Store.users db) (Store.users (snd (UpdateUser env c id body db))).
Proof.
  intro Hpk. unfold UpdateUser, UserHandler.UpdateUser, Store.user_by_id.
  cbv zeta.
  walk_store; try accounts_unchanged.
  all: cbn [Store.users Store.set_users].
  all: match goal with
       | Hf : Store.First_user (Store.has_id User.base _) _ = Some _,
         Hs : Store.Save _ _ _ _ _ _ _ = Some _ |- _ =>
           destruct (First_Some User.base Store.same _ _ _ Hf)
             as (row & Hin & _ & _ & ->);
           apply (Save_step User.base User.set_base Store.same
                    user_kept (fun _ _ => True) user_kept_refl
                    user_base_set_base _ _ _ _ _ _ row Hs Hpk Hin)
       end.
  all: try match goal with
           | E : option_map _ ?h = Some _ |- _ =>
               destruct h; [cbn [option_map] in E; injection E as <-
                           | discriminate E]
           end.
  all: unfold user_kept, Store.same; split_ifs; repeat split.
Qed.

Lemma DeleteUser_keeps_users env c id db :
  users_kept (Store.users db) (Store.users (snd (DeleteUser env c id db))).
Proof.
  unfold DeleteUser, UserHandler.DeleteUser. cbv zeta.
  walk_store; try accounts_unchanged.
  cbn [Store.users Store.set_users].
  match goal with
  | H : Store.Delete _ _ _ _ _ _ = Some _ |- _ =>
      apply (Delete_step User.base User.set_base user_kept (fun _ _ => True)
               user_kept_refl _ _ _ _ _ H)
  end.
  intros x deleted. destruct x. unfold user_kept. repeat split.
Qed.

Lemma handle_keeps_users env c e db :
  users_pk db ->
  users_kept (Store.users db) (Store.users (snd (handle env c e db))).
Proof.
  intro Hpk. destruct e; cbn [handle Routes.handle].
  1: apply Register_keeps_users.
  3: apply UpdateUser_keeps_users; exact Hpk.
  3: apply DeleteUser_keeps_users.
  all: autounfold with handlers; walk_store; accounts_unchanged.
Qed.

(** X22: no request, on any route, removes a row of the users table or
    changes the key, the user name or the creation time of a user: with
    distinct keys in the table, every user is still there afterwards
    under the same key and name, and the keys stay distinct. *)
Theorem serve_keeps_user_names env req db :
  users_pk db ->
  let db' := snd (serve env req db) in
  users_pk db'
  /\ forall x, In x (Store.users db) ->
               exists y, In y (Store.users db') /\ user_kept x y.
Proof.
  intros Hpk db'.
  assert (Hstep : users_kept (Store.users db) (Store.users db')).
  { subst db'. unfold serve, Routes.serve.
    destruct (Routes.protected (endpoint req)); [|apply handle_keeps_users, Hpk].
    destruct (Middleware.AuthMiddleware _ _ _ _ _).
    - apply handle_keeps_users, Hpk.
    - apply table_step_same; [apply user_kept_refl | reflexivity]. }
  split.
  - exact (table_step_pk User.base user_kept (fun _ _ => True) user_kept_id
             _ _ Hstep Hpk).
  - intros x Hx.
    exact (table_step_keeps User.base user_kept (fun _ _ => True) _ _ x Hstep Hx).
Qed.

End AccountFacts.

(** ** The comment that [CreateComment] stores *)

Section CreateCommentFacts.

Variable uuid_Parse : gostring -> option uuid.

Let CreateComment := CommentHandler.CreateComment uuid_Parse.

(** X23: a [CreateComment] answered 201 adds exactly one row to the
    comments table: a live comment by the caller, under a new key, with
    the content of the request, on the post of the path, which is a live
    post with status [published]; the parent it names, if any, is a
    comment of the table on the same post. Posts and users are
    untouched. *)
Theorem CreateComment_stores_one_comment env c postID body db :
  status (fst (CreateComment env c postID body db)) = StatusCreated ->
  exists req authorID postUUID post cm,
    body = Some req
    /\ Get "userID" c = Some (AnyUUID authorID)
    /\ uuid_Parse postID = Some postUUID
    /\ Store.First_post (Store.has_id Post.base postUUID) (Store.posts db)
       = Some post
    /\ Post.Status post = str "published"
    /\ Store.comments (snd (CreateComment env c postID body db))
       = Store.comments db ++ [cm]
    /\ existsb (Store.has_id Comment.base (Store.id_of Comment.base cm))
               (Store.comments db) = false
    /\ Store.live Comment.base cm = true
    /\ Comment.PostID cm = postUUID
    /\ Comment.AuthorID cm = authorID
    /\ Comment.Content cm = CommentRequest.Content req
    /\ Comment.ParentID cm = CommentRequest.ParentID req
    /\ parent_among cm (Store.comments db)
    /\ Store.posts (snd (CreateComment env c postID body db)) = Store.posts db
    /\ Store.users (snd (CreateComment env c postID body db)) = Store.users db.
Proof.
  unfold CreateComment, CommentHandler.CreateComment,
    CommentHandler.bind_CommentRequest.
  destruct (uuid_Parse postID) as [postUUID|]; [|discriminate].
  destruct (Store.First_post _ (Store.posts db)) as [post|] eqn:Ef; [|discriminate].
  destruct (gostring_eqb (Post.Status post) (str "published")) eqn:Es;
    cbn [negb]; [|discriminate].
  destruct (Get "userID" c) as [[authorID|s]|]; try discriminate.
  destruct body as [req|]; [|discriminate].
  destruct (nonempty (CommentRequest.Content req)); [|discriminate].
  cbv zeta.
  destruct (CommentHandler.check_parent postUUID (CommentRequest.ParentID req) db)
    as [rejection|] eqn:Ec.
  { unfold CommentHandler.check_parent in Ec.
    destruct (CommentRequest.ParentID req); [|discriminate].
    destruct (CommentHandler.comment_by_id _ _).
    - destruct (negb _); [injection Ec as <-|]; discriminate.
    - injection Ec as <-. discriminate. }
  unfold Store.Create.
  destruct (store_refuses env || _) eqn:Ex; [discriminate|].
  apply orb_false_iff in Ex. destruct Ex as [_ Ex].
  intros _. cbn [fst snd Store.comments Store.set_comments Store.posts Store.users].
  eexists req, authorID, postUUID, post, _.
  split; [reflexivity|]. split; [reflexivity|]. split; [reflexivity|].
  split; [exact Ef|]. split; [apply gostring_eqb_eq; exact Es|].
  split; [reflexivity|]. split; [exact Ex|].
  split; [unfold Store.live, Store.stamp_create, Store.BeforeCreate; cbn;
          destruct (0 =? uuid_Nil)%N; reflexivity|].
  split; [reflexivity|]. split; [reflexivity|]. split; [reflexivity|].
  split; [reflexivity|].
  split; [|split; reflexivity].
  intros parentID Hp. cbn in Hp.
  exact (check_parent_accepts _ _ _ Ec parentID Hp).
Qed.

End CreateCommentFacts.

(** ** The post that [UpdatePost] stores *)

Section UpdatePostFacts.

Variable lower_nonascii : rune -> rune.
Variable uuid_Parse : gostring -> option uuid.

Let UpdatePost := PostHandler.UpdatePost lower_nonascii uuid_Parse.
Let generateSlug := PostHandler.generateSlug lower_nonascii.



End UpdatePostFacts.

(** ** The properties at work on the sample data *)

Lemma sample_comments_pk : comments_pk Sample.db.
Proof.
  unfold comments_pk. cbn.
  repeat constructor; cbn; intuition discriminate.
Qed.

Lemma sample_users_pk : users_pk Sample.db.
Proof.
  unfold users_pk. cbn.
  repeat constructor; cbn; intuition discriminate.
Qed.

Lemma fixture_NewNumericDate_floor (t : time) :
  Fixture.NewNumericDate t <= t < Fixture.NewNumericDate t + time_Second.
Proof.
  unfold Fixture.NewNumericDate, time_Second.
  pose proof (Z.div_mod t 1000000000 ltac:(discriminate)).
  pose proof (Z.mod_pos_bound t 1000000000 ltac:(reflexivity)).
  lia.
Qed.


Lemma deleted_post_not_found_witness :
  status (fst (PostHandler.DeletePost Sample.uuid_Parse Sample.env
                 (Sample.ctx 1%N "user") (str "5") Sample.db)) = StatusOK
  /\ fst (PostHandler.GetPostByID Sample.uuid_Parse (str "5")
            (snd (PostHandler.DeletePost Sample.uuid_Parse Sample.env
                    (Sample.ctx 1%N "user") (str "5") Sample.db)))
     = JSON StatusNotFound (error_H "post not found").
Proof.
  split; [reflexivity|].
  exact (proj1 (deleted_post_not_found Sample.lower_nonascii Sample.uuid_Parse
                  Sample.env (Sample.ctx 1%N "user") (str "5") Sample.db eq_refl)).
Defined.

Lemma DeleteCategory_unlinks_posts_witness :
  admin_context (Sample.ctx 3%N "admin") = true
  /\ Sample.uuid_Parse (str "9") = Some 9%N
  /\ Store.First_category (Store.has_id Category.base 9%N)
                          (Store.categories Fixture.db) = Some Fixture.tech
  /\ store_refuses Fixture.refusing = true
  /\ fst (CategoryHandler.DeleteCategory Sample.uuid_Parse Fixture.refusing
            (Sample.ctx 3%N "admin") (str "9") Fixture.db)
     = JSON StatusInternalServerError (error_H "failed to delete category")
  /\ (forall p k,
         In (p, k) (Store.post_categories
                      (snd (CategoryHandler.DeleteCategory Sample.uuid_Parse
                              Fixture.refusing (Sample.ctx 3%N "admin") (str "9")
                              Fixture.db)))
         <-> In (p, k) (Store.post_categories Fixture.db) /\ k <> 9%N).
Proof.
  split; [reflexivity|]. split; [reflexivity|]. split; [reflexivity|].
  split; [reflexivity|].
  pose proof (DeleteCategory_unlinks_posts Sample.uuid_Parse Fixture.refusing
                (Sample.ctx 3%N "admin") (str "9") Fixture.db 9%N Fixture.tech
                eq_refl eq_refl eq_refl) as H.
  split.
  - exact (proj1 (proj1 (proj2 (proj2 H)) eq_refl)).
  - exact (proj1 H).
Defined.

Lemma Login_token_authenticates_witness :
  status (fst (Issue.Login Fixture.NewNumericDate Fixture.jwt_sign
                 Fixture.CheckPasswordHash Sample.env 100 101 102
                 (Some (Fixture.credentials "alice" "hash")) Sample.db)) = StatusOK
  /\ exists tok c',
       Issue.Login Fixture.NewNumericDate Fixture.jwt_sign
         Fixture.CheckPasswordHash Sample.env 100 101 102
         (Some (Fixture.credentials "alice" "hash")) Sample.db
       = (JSON StatusOK (marshal_TokenResponse tok (str "Bearer")), Sample.db)
       /\ Middleware.AuthMiddleware Fixture.jwt_decode Fixture.jwt_verify
            Sample.env (str "Bearer " ++ tok) [] = Middleware.Next c'
       /\ Get "userID" c' = Some (AnyUUID 1%N)
       /\ Get "role" c' = Some (AnyString (str "user")).
Proof.
  split; [reflexivity|].
  destruct (Login_token_authenticates
              Fixture.NewNumericDate Fixture.jwt_sign Fixture.CheckPasswordHash
              Fixture.jwt_decode Fixture.jwt_verify fixture_NewNumericDate_floor
              Sample.env 100 101 102
              (Some (Fixture.credentials "alice" "hash")) Sample.db eq_refl)
    as (req & user & secret & tok & Hb & Hf & _ & Hs & Hsig & HL & Hall).
  injection Hb as <-. injection Hs as <-. injection Hsig as <-.
  assert (Hu : user = Sample.alice).
  { vm_compute in Hf. injection Hf as <-. reflexivity. }
  subst user.
  destruct (Hall Sample.env [] eq_refl eq_refl eq_refl eq_refl)
    as (c' & Hn & Hid & Hrole).
  - discriminate.
  - discriminate.
  - discriminate.
  - discriminate.
  - exists Fixture.ticket, c'. split; [exact HL|]. split; [exact Hn|].
    split; [exact Hid | exact Hrole].
Defined.

Lemma deleted_user_cannot_log_in_witness :
  status (fst (UserHandler.DeleteUser Sample.uuid_Parse Sample.env
                 (Sample.ctx 2%N "user") (str "2") Sample.db)) = StatusOK
  /\ Sample.uuid_Parse (str "2") = Some 2%N
  /\ fst (Issue.Login Fixture.NewNumericDate Fixture.jwt_sign
            Fixture.CheckPasswordHash Sample.env 100 101 102
            (Some (Fixture.credentials "bob" "hash2"))
            (snd (UserHandler.DeleteUser Sample.uuid_Parse Sample.env
                    (Sample.ctx 2%N "user") (str "2") Sample.db)))
     = JSON StatusUnauthorized (error_H "invalid credentials").
Proof.
  split; [reflexivity|]. split; [reflexivity|].
  apply (proj2 (deleted_user_cannot_log_in
                  Sample.uuid_Parse Fixture.NewNumericDate Fixture.jwt_sign
                  Fixture.CheckPasswordHash Sample.env (Sample.ctx 2%N "user")
                  (str "2") Sample.db 2%N eq_refl eq_refl)).
  - reflexivity.
  - reflexivity.
  - intros v [<-|[<-|[<-|[]]]] H; try reflexivity; discriminate H.
Defined.


Lemma CreatePost_stores_one_post_witness :
  status (fst (PostHandler.CreatePost Sample.lower_nonascii Sample.env
                 (Sample.ctx 1%N "user")
                 (Some (PostRequest.mk (str "Article") (str "text") [] [] []))
                 Sample.db)) = StatusCreated
  /\ exists p,
       Store.posts (snd (PostHandler.CreatePost Sample.lower_nonascii Sample.env
                           (Sample.ctx 1%N "user")
                           (Some (PostRequest.mk (str "Article") (str "text")
                                                 [] [] []))
                           Sample.db))
       = Store.posts Sample.db ++ [p]
       /\ Post.AuthorID p = 1%N
       /\ Post.Status p = str "draft".
Proof.
  split; [reflexivity|].
  destruct (CreatePost_stores_one_post Sample.lower_nonascii Sample.env
              (Sample.ctx 1%N "user")
              (Some (PostRequest.mk (str "Article") (str "text") [] [] []))
              Sample.db eq_refl)
    as (req & a & p & Hb & Hc & Hp & _ & _ & Ha & _ & _ & Hs & _).
  injection Hb as <-. injection Hc as <-.
  exists p. split; [exact Hp|]. split; [exact Ha | exact Hs].
Defined.

Lemma UpdatePost_replaces_categories_witness :
  status (fst (PostHandler.UpdatePost Sample.lower_nonascii Sample.uuid_Parse
                 Sample.env (Sample.ctx 1%N "user") (str "4")
                 (Some Fixture.recategorize) Fixture.db)) = StatusOK
  /\ Sample.uuid_Parse (str "4") = Some 4%N
  /\ forall p k,
       In (p, k) (Store.post_categories
                    (snd (PostHandler.UpdatePost Sample.lower_nonascii
                            Sample.uuid_Parse Sample.env (Sample.ctx 1%N "user")
                            (str "4") (Some Fixture.recategorize) Fixture.db)))
       <-> (p <> 4%N /\ In (p, k) (Store.post_categories Fixture.db))
           \/ (p = 4%N /\ In k [9%N; 3%N] /\ category_exists k Fixture.db).
Proof.
  split; [reflexivity|]. split; [reflexivity|].
  exact (proj2 (UpdatePost_replaces_categories
                  Sample.lower_nonascii Sample.uuid_Parse Sample.env
                  (Sample.ctx 1%N "user") (str "4") Fixture.recategorize
                  Fixture.db 4%N eq_refl eq_refl)).
Defined.

Lemma serve_keeps_threads_witness :
  comments_pk Sample.db
  /\ comments_pk (snd (Sample.serve Sample.env Sample.edit Sample.db)).
Proof.
  split; [exact sample_comments_pk|].
  exact (proj1 (serve_keeps_threads
                  Sample.lower_nonascii Sample.uuid_Parse Sample.HashPassword
                  Sample.is_email Sample.jwt_decode Sample.jwt_verify
                  Sample.env Sample.edit Sample.db sample_comments_pk)).
Defined.

Lemma serve_keeps_post_authors_witness :
  posts_pk Sample.db
  /\ forall x, In x (Store.posts Sample.db) ->
               exists y,
                 In y (Store.posts (snd (Sample.serve Sample.env Sample.edit
                                           Sample.db)))
                 /\ post_kept x y.
Proof.
  split; [exact sample_posts_pk|].
  exact (proj2 (serve_keeps_post_authors
                  Sample.lower_nonascii Sample.uuid_Parse Sample.HashPassword
                  Sample.is_email Sample.jwt_decode Sample.jwt_verify
                  Sample.env Sample.edit Sample.db sample_posts_pk)).
Defined.

Lemma admin_sets_any_role_witness :
  is_admin (UserHandler.role_or_empty (Sample.ctx 3%N "admin")) = true
  /\ Store.user_by_id 2%N Sample.db = Some Sample.bob
  /\ store_refuses Sample.env = false
  /\ exists user',
       Store.user_by_id 2%N
         (snd (UserHandler.UpdateUser Sample.uuid_Parse Sample.HashPassword
                 Sample.env (Sample.ctx 3%N "admin") (str "2")
                 (Some Sample.update) Sample.db)) = Some user'
       /\ User.Role user' = str "admin".
Proof.
  split; [reflexivity|]. split; [reflexivity|]. split; [reflexivity|].
  destruct (admin_sets_any_role Sample.uuid_Parse Sample.HashPassword
              Sample.env (Sample.ctx 3%N "admin") (str "2") Sample.update
              Sample.db 3%N 2%N Sample.bob eq_refl eq_refl eq_refl eq_refl
              (fun H => match Bool.diff_false_true H with end)
              (fun _ H => match eq_ind (Sample.HashPassword
                                          (UpdateData.Password Sample.update))
                                   (fun o => match o with
                                             | Some _ => True
                                             | None => False
                                             end) I None H with end)
              eq_refl)
    as (user' & _ & H2 & H3 & _).
  exists user'. split; [exact H2 | exact H3].
Defined.

Lemma deleted_comment_hidden_witness :
  status (fst (CommentHandler.DeleteComment Sample.uuid_Parse Sample.env
                 (Sample.ctx 2%N "user") (str "7") Sample.db)) = StatusOK
  /\ Sample.uuid_Parse (str "7") = Some 7%N
  /\ fst (CommentHandler.GetCommentById Sample.uuid_Parse (str "7")
            (snd (CommentHandler.DeleteComment Sample.uuid_Parse Sample.env
                    (Sample.ctx 2%N "user") (str "7") Sample.db)))
     = JSON StatusNotFound (error_H "comment not found").
Proof.
  split; [reflexivity|]. split; [reflexivity|].
  exact (proj1 (deleted_comment_hidden Sample.uuid_Parse Sample.env
                  (Sample.ctx 2%N "user") (str "7") Sample.db 7%N
                  eq_refl eq_refl)).
Defined.

Lemma CreateCategory_then_read_back_witness :
  status (fst (CategoryHandler.CreateCategory Sample.lower_nonascii Sample.env
                 (Sample.ctx 3%N "admin")
                 (Some (CategoryRequest.mk (str "Go Lang") [])) Sample.db))
  = StatusCreated
  /\ exists cat,
       Store.categories
         (snd (CategoryHandler.CreateCategory Sample.lower_nonascii Sample.env
                 (Sample.ctx 3%N "admin")
                 (Some (CategoryRequest.mk (str "Go Lang") [])) Sample.db))
       = Store.categories Sample.db ++ [cat]
       /\ Category.Name cat = str "Go Lang"
       /\ Category.Slug cat = str "go-lang".
Proof.
  split; [reflexivity|].
  destruct (CreateCategory_then_read_back Sample.lower_nonascii Sample.uuid_Parse
              Sample.env (Sample.ctx 3%N "admin")
              (Some (CategoryRequest.mk (str "Go Lang") [])) Sample.db eq_refl)
    as (req & cat & Hb & _ & Hc & Hn & Hs & _).
  injection Hb as <-.
  exists cat. split; [exact Hc|]. split; [exact Hn | exact Hs].
Defined.

Lemma serve_keeps_user_names_witness :
  users_pk Sample.db
  /\ users_pk (snd (Sample.serve Sample.env Sample.edit Sample.db)).
Proof.
  split; [exact sample_users_pk|].
  exact (proj1 (serve_keeps_user_names
                  Sample.lower_nonascii Sample.uuid_Parse Sample.HashPassword
                  Sample.is_email Sample.jwt_decode Sample.jwt_verify
                  Sample.env Sample.edit Sample.db sample_users_pk)).
Defined.

Lemma CreateComment_stores_one_comment_witness :
  status (fst (CommentHandler.CreateComment Sample.uuid_Parse Sample.env
                 (Sample.ctx 1%N "user") (str "5") (Some Fixture.reply)
                 Sample.db)) = StatusCreated
  /\ exists cm,
       Store.comments
         (snd (CommentHandler.CreateComment Sample.uuid_Parse Sample.env
                 (Sample.ctx 1%N "user") (str "5") (Some Fixture.reply)
                 Sample.db))
       = Store.comments Sample.db ++ [cm]
       /\ Comment.PostID cm = 5%N
       /\ Comment.ParentID cm = Some 7%N.
Proof.
  split; [reflexivity|].
  destruct (CreateComment_stores_one_comment Sample.uuid_Parse Sample.env
              (Sample.ctx 1%N "user") (str "5") (Some Fixture.reply) Sample.db
              eq_refl)
    as (req & a & u & post & cm & Hb & _ & Hu & _ & _ & Hc & _ & _ & Hp & _ & _
        & Hpar & _).
  injection Hb as <-. injection Hu as <-.
  exists cm. split; [exact Hc|]. split; [exact Hp | exact Hpar].
Defined.

